(** * AI_land analysis engine: the TypeScript sources, embedded and checked

    The valuation, scoring, recommendation and land-analysis code of the
    repository lives in the front end: [NVAPIService] (the simulated AI
    service) and the [onSubmit] handlers of the valuation, beneficiary
    scoring, recommendation and comprehensive-analysis pages.  Each of
    them is embedded below as a function of an explicit ambient world.

    Conventions of the embedding.
    - A JavaScript [number] is an exact rational ([Q]); fields that the
      code produces with [Math.floor] or [Math.round] are integers ([Z]),
      and [NaN] is [None].  Equality of numbers is [Qeq] ([==]).
      Binary64 rounding is outside this model, so the statements below
      keep clear of it: ranges are closed at the end points that rounding
      can reach, and a rounded result is compared with an exact one up to
      a slack.  Where an end point decides a claim, the expression
      of the source is also evaluated in binary64 itself, on the kernel's
      primitive floats ([Binary64]).
    - A string is its sequence of code units.  [toLowerCase] and the
      class [\s] are modelled on the ASCII range, where they are what
      JavaScript computes; statements about what the code computes with
      them are about ASCII strings ([Js.is_ascii]).
    - Indexing an object literal by a computed key looks the key up among
      the literal's own properties and then on [Object.prototype]
      ([Js.get]).
    - [Math.random()] and the clock ([Date.now()], [new Date()]) read an
      explicit [World]: a stream of draws and a stream of clock readings,
      with a cursor into each that the calls advance.  Every call consumes
      its draws in the evaluation order of the source.
    - [await new Promise(resolve => setTimeout(resolve, _))] only delays;
      it is not represented.  Memory is not represented either: an array
      of any length that [Array.from] accepts is built.
    - A template literal is kept as its list of pieces ([Tmpl]), numbers
      unrendered. *)

From Stdlib Require Import QArith Qround Qminmax Qabs Lqa ZArith Lia.
From Stdlib Require Import List String Ascii Bool Permutation Sorted.
From Stdlib Require Import Decimal DecimalPos DecimalZ DecimalString.
From Stdlib Require Import Floats.
Import ListNotations.

Open Scope Q_scope.

(** ** The JavaScript runtime the sources rely on *)
Module Js.

Record World := mkWorld {
  draws : nat -> Q;   (* successive results of Math.random() *)
  clock : nat -> Z    (* successive readings of the clock, in ms *)
}.

Record Cursor := mkCursor { rnd : nat; tick : nat }.

Definition start : Cursor := mkCursor 0 0.

(** Math.random() returns a number in [0, 1). *)
Definition unit_draws (w : World) : Prop :=
  forall n, 0 <= draws w n /\ draws w n < 1.

Definition M (A : Type) : Type := World -> Cursor -> A * Cursor.

Definition ret {A} (a : A) : M A := fun _ c => (a, c).

Definition bind {A B} (m : M A) (k : A -> M B) : M B :=
  fun w c => let (a, c') := m w c in k a w c'.

Definition Math_random : M Q :=
  fun w c => (draws w (rnd c), mkCursor (S (rnd c)) (tick c)).

Definition Date_now : M Z :=
  fun w c => (clock w (tick c), mkCursor (rnd c) (S (tick c))).

Definition run {A} (m : M A) (w : World) (c : Cursor) : A := fst (m w c).

Definition Math_floor (x : Q) : Z := Qfloor x.

(** Math.round rounds halves up. *)
Definition Math_round (x : Q) : Z := Qfloor (x + 0.5).

Definition Math_max (a b : Q) : Q := Qmax a b.

Definition pow10 (d : nat) : Z := Z.pow 10 (Z.of_nat d).

(** [Number(x.toFixed(d))]: the nearest multiple of 10^-d, halves away
    from zero. *)
Definition toFixed (d : nat) (x : Q) : Q :=
  let scale := inject_Z (pow10 d) in
  if Qlt_le_dec x 0
  then - (inject_Z (Qfloor ((- x) * scale + 0.5)) / scale)
  else inject_Z (Qfloor (x * scale + 0.5)) / scale.

(** [Array.from({ length: n }, ...)] asks for ToLength(n) elements. *)
Definition ToLength (n : Q) : nat :=
  Z.to_nat (Z.min (Qfloor n) (2 ^ 53 - 1)).

(** An array holds fewer than 2^32 elements: [Array.from] first creates
    the array, and throws a RangeError there, before its callback has run,
    when ToLength(n) is 2^32 or more. *)
Definition Array_from_throws (n : Q) : bool :=
  (2 ^ 32 <=? Z.of_nat (ToLength n))%Z.

Inductive piece : Type :=
| Lit (s : string)
| Num (q : Q)
| IsoDate (ms : Z).

Definition Tmpl := list piece.

Definition lower (c : ascii) : ascii :=
  let n := nat_of_ascii c in
  if (65 <=? n)%nat && (n <=? 90)%nat then ascii_of_nat (n + 32) else c.

Fixpoint toLowerCase (s : string) : string :=
  match s with
  | EmptyString => EmptyString
  | String c s' => String (lower c) (toLowerCase s')
  end.

(** The strings on which [toLowerCase] above and [is_space] below are
    JavaScript's: every code unit is below 128. *)
Fixpoint is_ascii (s : string) : bool :=
  match s with
  | EmptyString => true
  | String c s' => (nat_of_ascii c <? 128)%nat && is_ascii s'
  end.

(** The class [\s], on the ASCII range. *)
Definition is_space (c : ascii) : bool :=
  let n := nat_of_ascii c in
  ((9 <=? n)%nat && (n <=? 13)%nat) || (n =? 32)%nat.

(** [s.replace(/\s+/g, '_')]: every maximal run of white space becomes
    one underscore. *)
Fixpoint replace_spaces (in_run : bool) (s : string) : string :=
  match s with
  | EmptyString => EmptyString
  | String c s' =>
      if is_space c
      then if in_run then replace_spaces true s'
           else String "_"%char (replace_spaces true s')
      else String c (replace_spaces false s')
  end.

(** [a || b] on an optional string: [null] and the empty string are
    falsy. *)
Definition or_else (a : option string) (b : string) : string :=
  match a with
  | Some EmptyString | None => b
  | Some s => s
  end.

(** The members an object literal inherits from [Object.prototype]. *)
Definition Object_prototype : list string :=
  [ "constructor"; "__defineGetter__"; "__defineSetter__";
    "hasOwnProperty"; "__lookupGetter__"; "__lookupSetter__";
    "isPrototypeOf"; "propertyIsEnumerable"; "toString"; "valueOf";
    "__proto__"; "toLocaleString" ]%string.

(** What [obj[key]] finds on an object literal whose own properties hold
    values of [A]: such a value, or a member of [Object.prototype] (one of
    its functions, or the prototype itself for [__proto__]). *)
Inductive Property (A : Type) : Type :=
| value (a : A)
| builtin (name : string).
Arguments value {A}.
Arguments builtin {A}.

Fixpoint assoc {A} (obj : list (string * A)) (key : string) : option A :=
  match obj with
  | [] => None
  | (k, v) :: rest => if String.eqb k key then Some v else assoc rest key
  end.

(** [obj[key]]: own properties first, then the prototype; [None] is
    [undefined]. *)
Definition get {A} (obj : list (string * A)) (key : string)
    : option (Property A) :=
  match assoc obj key with
  | Some a => Some (value a)
  | None =>
      if existsb (String.eqb key) Object_prototype
      then Some (builtin key)
      else None
  end.

(** [p || d]: [undefined] and a falsy value give [d]; a builtin is an
    object, so truthy. *)
Definition logical_or {A} (truthy : A -> bool) (p : option (Property A))
    (d : Property A) : Property A :=
  match p with
  | Some (value a) => if truthy a then value a else d
  | Some (builtin name) => builtin name
  | None => d
  end.

(** A number is truthy unless it is 0. *)
Definition nonzero (q : Q) : bool := negb (Qeq_bool q 0).

(** What arithmetic makes of the operand: a builtin converts to [NaN]. *)
Definition toNumber (p : Property Q) : option Q :=
  match p with
  | value q => Some q
  | builtin _ => None
  end.

(** [arr[i]] on an array of strings; out of range gives [undefined]. *)
Definition item (arr : list string) (i : Z) : string :=
  if (i <? 0)%Z then "undefined"%string
  else nth (Z.to_nat i) arr "undefined"%string.

(** [Array.from({ length: n }, (_, index) => f index)] where it does not
    throw ([Array_from_throws]): the callback run once per index, in
    order. *)
Fixpoint Array_from_at {A} (n : nat) (f : nat -> M A) (index : nat)
    : M (list A) :=
  match n with
  | O => ret []
  | S k =>
      bind (f index) (fun x =>
      bind (Array_from_at k f (S index)) (fun rest =>
      ret (x :: rest)))
  end.

Definition Array_from {A} (length : Q) (f : nat -> M A) : M (list A) :=
  Array_from_at (ToLength length) f 0.

(** [Array.prototype.sort(compareFn)]: the sort is stable, an element
    moves behind a later one only when [compareFn] is positive on the
    pair. *)
Fixpoint insert {A} (compareFn : A -> A -> Q) (x : A) (l : list A)
    : list A :=
  match l with
  | [] => [x]
  | y :: l' =>
      if Qlt_le_dec 0 (compareFn x y)
      then y :: insert compareFn x l'
      else x :: l
  end.

Definition Array_sort {A} (compareFn : A -> A -> Q) (l : list A)
    : list A :=
  fold_right (insert compareFn) [] l.

Definition Math_min (a b : Q) : Q := Qmin a b.

(** [arr.slice(0, end)]: a negative [end] counts from the end of the
    array. *)
Definition slice_to {A} (stop : Z) (arr : list A) : list A :=
  if (stop <? 0)%Z
  then firstn (List.length arr - Z.to_nat (- stop)) arr
  else firstn (Z.to_nat stop) arr.

(** [n.toString()] on an integer: its decimal digits. *)
Definition toString (n : Z) : string :=
  NilZero.string_of_int (Z.to_int n).

(** The class [\w]: letters, digits and the underscore. *)
Definition is_word_char (c : ascii) : bool :=
  let n := nat_of_ascii c in
  ((48 <=? n)%nat && (n <=? 57)%nat)
  || ((65 <=? n)%nat && (n <=? 90)%nat)
  || ((97 <=? n)%nat && (n <=? 122)%nat)
  || (n =? 95)%nat.

Definition is_word (c : option ascii) : bool :=
  match c with
  | Some c => is_word_char c
  | None => false
  end.

(** [\b] holds between two neighbours exactly one of which is a word
    character; outside the string there is none. *)
Definition boundary (before after : option ascii) : bool :=
  xorb (is_word before) (is_word after).

Definition first_char (s : string) : option ascii :=
  match s with
  | EmptyString => None
  | String c _ => Some c
  end.

(** A literal matched at the front of [s] under the [i] flag: the last
    character consumed and what is left of [s]. *)
Fixpoint literal (pattern s : string) (last : option ascii)
    : option (option ascii * string) :=
  match pattern with
  | EmptyString => Some (last, s)
  | String a pattern' =>
      match s with
      | EmptyString => None
      | String c s' =>
          if Ascii.eqb (lower a) (lower c)
          then literal pattern' s' (Some c)
          else None
      end
  end.

(** [\bword\b] matched where [s] begins, [before] being the character in
    front of it. *)
Definition word_here (before : option ascii) (s : string) (word : string)
    : bool :=
  boundary before (first_char s)
  && match literal word s before with
     | Some (last, rest) => boundary last (first_char rest)
     | None => false
     end.

Fixpoint test_from (before : option ascii) (words : list string)
    (s : string) : bool :=
  existsb (word_here before s) words
  || match s with
     | EmptyString => false
     | String c s' => test_from (Some c) words s'
     end.

(** [/\b(w1|w2|...)\b/i.test(s)]: some alternative matches as a whole
    word at some position. *)
Definition test_words (words : list string) (s : string) : bool :=
  test_from None words s.

(** [s.includes(c)] for a single character. *)
Fixpoint includes (c : ascii) (s : string) : bool :=
  match s with
  | EmptyString => false
  | String a s' => Ascii.eqb a c || includes c s'
  end.

(** [responses[Math.floor(r * responses.length)]]: an element of an array,
    [undefined] ([None]) when there is none at the index.  A builtin has
    no element at any index, whatever its [length] is. *)
Definition at_random (responses : Property (list string)) (r : Q)
    : option string :=
  match responses with
  | value arr =>
      let i := Math_floor (r * inject_Z (Z.of_nat (List.length arr))) in
      if (i <? 0)%Z then None else nth_error arr (Z.to_nat i)
  | builtin _ => None
  end.

(** The world [w] with its draw number [n] replaced by [r]. *)
Definition with_draw (w : World) (n : nat) (r : Q) : World :=
  mkWorld (fun k => if Nat.eqb k n then r else draws w k) (clock w).

End Js.

Declare Scope js_scope.
Delimit Scope js_scope with js.
Notation "x <- m ;; k" := (Js.bind m (fun x => k))
  (at level 61, m at next level, right associativity) : js_scope.
Open Scope js_scope.

(** ** NVAPIService: the simulated AI service *)
Module Nvapi.
Import Js.

Record MarketTrend := {
  mt_location : string;
  averagePrice : option Z;   (* None: NaN *)
  priceChange : option Z;    (* None: NaN *)
  priceChangePercent : Q;
  inventory : Z;
  daysOnMarket : Z;
  mt_timestamp : Tmpl
}.

Record Comparable := {
  c_address : Tmpl;
  c_price : Z;
  c_sqft : Z;
  c_bedrooms : Q;
  c_bathrooms : Q;
  c_distance : Q
}.

Record PropertyValuation := {
  propertyId : Tmpl;
  estimatedValue : Z;
  confidence : Q;
  comparables : list Comparable;
  marketTrends : MarketTrend
}.

Record PropertyData := {
  address : string;
  sqft : Q;
  bedrooms : Q;
  bathrooms : Q;
  yearBuilt : Q;
  lotSize : option Q
}.

Definition locationPrices : list (string * Q) :=
  [ ("chicago"%string, 350000);
    ("naperville"%string, 425000);
    ("schaumburg"%string, 380000);
    ("evanston"%string, 450000);
    ("oak_park"%string, 400000) ].

(** [locationPrices[key] || 375000]: typed [number], but the key is
    computed, so what comes back is a price of the table, the default, or
    a member of [Object.prototype] when the key names one. *)
Definition getBasePriceForLocation (location : string) : Property Q :=
  let key := replace_spaces false (toLowerCase location) in
  logical_or nonzero (get locationPrices key) (value 375000).

Definition calculateBaseValue (propertyData : PropertyData) : Q :=
  let basePrice := getBasePriceForLocation (address propertyData) in
  let sqftValue := sqft propertyData * 150 in
  let bedroomValue := bedrooms propertyData * 15000 in
  let bathroomValue := bathrooms propertyData * 10000 in
  let ageAdjustment :=
    Math_max 0 (1 - (2024 - yearBuilt propertyData) * 0.005) in
  (sqftValue + bedroomValue + bathroomValue) * ageAdjustment.

Definition simulateMarketData (location : string)
    (propertyType : option string) : M MarketTrend :=
  let basePrice := getBasePriceForLocation location in
  r <- Math_random ;;
  let variation := (r - 0.5) * 0.1 in
  r_inv <- Math_random ;;
  r_dom <- Math_random ;;
  now <- Date_now ;;
  ret {| mt_location := location;
         averagePrice :=
           option_map (fun price => Math_round (price * (1 + variation)))
                      (toNumber basePrice);
         priceChange :=
           option_map (fun price => Math_round (price * variation * 0.1))
                      (toNumber basePrice);
         priceChangePercent := toFixed 2 (variation * 10);
         inventory := Math_round (r_inv * 500 + 100);
         daysOnMarket := Math_round (r_dom * 60 + 20);
         mt_timestamp := [IsoDate now] |}.

Definition comparable (propertyData : PropertyData) : M Comparable :=
  r <- Math_random ;;
  let variation := (r - 0.5) * 0.3 in
  r_addr <- Math_random ;;
  r_bed <- Math_random ;;
  r_bath <- Math_random ;;
  r_dist <- Math_random ;;
  ret {| c_address :=
           [Num (inject_Z (Math_floor (r_addr * 9999)));
            Lit " Comparable St"];
         c_price :=
           Math_round (calculateBaseValue propertyData * (1 + variation));
         c_sqft := Math_round (sqft propertyData * (1 + variation * 0.5));
         c_bedrooms :=
           bedrooms propertyData + inject_Z (Math_floor (r_bed * 3 - 1));
         c_bathrooms :=
           bathrooms propertyData
           + inject_Z (Math_floor (r_bath * 2 - 0.5));
         c_distance := toFixed 1 (r_dist * 2 + 0.1) |}.

(** The [for] loop of [generateComparables], pushing one comparable per
    iteration. *)
Fixpoint generateComparables (propertyData : PropertyData) (count : nat)
    : M (list Comparable) :=
  match count with
  | O => ret []
  | S n =>
      c <- comparable propertyData ;;
      rest <- generateComparables propertyData n ;;
      ret (c :: rest)
  end.

Definition simulatePropertyValuation (propertyData : PropertyData)
    : M PropertyValuation :=
  let baseValue := calculateBaseValue propertyData in
  r <- Math_random ;;
  let confidence := r * 0.3 + 0.7 in
  now <- Date_now ;;
  comps <- generateComparables propertyData 5 ;;
  trends <- simulateMarketData (address propertyData) None ;;
  ret {| propertyId := [Lit "prop_"; Num (inject_Z now)];
         estimatedValue := Math_round baseValue;
         confidence := toFixed 2 confidence;
         comparables := comps;
         marketTrends := trends |}.


Inductive Impact := positive | negative | neutral.

Inductive UserRole := buyer | seller | buyer_agent | seller_agent.

Record ConversationContext := {
  ctx_propertyId : option Z;
  userId : Z;
  userRole : UserRole
}.

Record KeyFactor := {
  factor : string;
  kf_score : Q;
  impact : Impact;
  kf_description : string
}.

Record ValueChange := { oneYear : Q; threeYear : Q; fiveYear : Q }.

Record ComparableProperty := {
  cp_address : string;
  cp_price : Q;
  cp_score : Q;
  cp_distance : Q
}.

Record LandAnalysisResponse := {
  analysisId : Tmpl;
  la_location : string;
  overallScore : Q;
  recommendation : string;   (* typed 'buy' | 'hold' | 'avoid' *)
  confidenceLevel : Q;
  keyFactors : list KeyFactor;
  marketInsights : list Tmpl;
  riskFactors : list string;
  opportunities : list string;
  predictedValueChange : ValueChange;
  comparable_properties : list ComparableProperty
}.

(** The callback of [factors.map]: the score is rounded to one decimal
    and the impact recomputed from the score as drawn. *)
Definition rescore (f : KeyFactor) : KeyFactor :=
  {| factor := factor f;
     kf_score := toFixed 1 (kf_score f);
     impact :=
       if Qle_bool 75 (kf_score f) then positive
       else if Qle_bool 60 (kf_score f) then neutral
       else negative;
     kf_description := kf_description f |}.

Definition generateKeyFactors (overallScore : Q) : M (list KeyFactor) :=
  r1 <- Math_random ;;
  r2 <- Math_random ;;
  r3 <- Math_random ;;
  r4 <- Math_random ;;
  r5 <- Math_random ;;
  r6 <- Math_random ;;
  let factors :=
    [ {| factor := "Safety & Crime Rate"; kf_score := r1 * 30 + 70;
         impact := positive;
         kf_description :=
           "Low crime rate with good police response times" |};
      {| factor := "School Quality"; kf_score := r2 * 25 + 75;
         impact := positive;
         kf_description := "Highly rated schools in the district" |};
      {| factor := "Market Trends"; kf_score := r3 * 40 + 60;
         impact := positive;
         kf_description :=
           "Steady price appreciation over past 3 years" |};
      {| factor := "Transportation"; kf_score := r4 * 35 + 65;
         impact := positive;
         kf_description := "Good public transit and highway access" |};
      {| factor := "Amenities"; kf_score := r5 * 30 + 70;
         impact := positive;
         kf_description := "Shopping, dining, and recreation nearby" |};
      {| factor := "Future Development"; kf_score := r6 * 50 + 50;
         impact := neutral;
         kf_description := "Planned infrastructure improvements" |} ] in
  ret (firstn 4 (map rescore factors)).

Definition generateMarketInsightsArray (location : string) : list Tmpl :=
  [ [Lit location;
     Lit " has shown 8.2% price appreciation over the past year"];
    [Lit "Inventory levels are 23% below historical averages, indicating strong demand"];
    [Lit "Average days on market decreased to 18 days, down from 32 days last year"];
    [Lit "New construction permits increased by 15%, suggesting growing neighborhood interest"];
    [Lit "Rental yields in the area average 6.8%, attractive for investment properties"] ].

Definition generateRiskFactors : list string :=
  [ "Property taxes may increase due to rising assessed values";
    "Traffic congestion during peak hours on main roads";
    "Limited parking availability in downtown areas";
    "Seasonal flooding risk in low-lying areas during heavy rains" ]%string.

Definition generateOpportunities : list string :=
  [ "Upcoming transit expansion will improve connectivity";
    "New shopping center development planned within 2 miles";
    "Strong job growth in tech sector driving housing demand";
    "Renovation potential to increase property value by 15-20%" ]%string.

Definition generateComparableProperties : list ComparableProperty :=
  [ {| cp_address := "1234 Maple Street"; cp_price := 425000;
       cp_score := 87.5; cp_distance := 0.3 |};
    {| cp_address := "5678 Oak Avenue"; cp_price := 445000;
       cp_score := 91.2; cp_distance := 0.7 |};
    {| cp_address := "9012 Pine Road"; cp_price := 398000;
       cp_score := 82.8; cp_distance := 1.1 |};
    {| cp_address := "3456 Elm Drive"; cp_price := 465000;
       cp_score := 89.6; cp_distance := 0.9 |} ].

(** The conditional expression that fills [recommendation]. *)
Definition verdict_of (overallScore : Q) : string :=
  if Qle_bool 80 overallScore then "buy"
  else if Qle_bool 65 overallScore then "hold"
  else "avoid".

Section LandAnalysis.

(** [extractLocationFromMessage] tries three regular expressions on the
    message; the matcher is kept abstract, everything below holds for
    any of its results.  [extractPropertyDetailsFromMessage] is called
    and its result dropped.  The [try ... catch] wraps a body that
    never throws. *)
Variable extractLocationFromMessage : string -> option string.

Definition generateLandAnalysisResponse (message : string)
    (context : ConversationContext) : M LandAnalysisResponse :=
  let locationMatch := extractLocationFromMessage message in
  r_score <- Math_random ;;
  let overallScore := r_score * 40 + 60 in
  r_conf <- Math_random ;;
  let confidenceLevel := r_conf * 0.3 + 0.7 in
  now <- Date_now ;;
  factors <- generateKeyFactors overallScore ;;
  r_one <- Math_random ;;
  r_three <- Math_random ;;
  r_five <- Math_random ;;
  ret {| analysisId := [Lit "analysis_"; Num (inject_Z now)];
         la_location := or_else locationMatch "Property Location";
         overallScore := toFixed 1 overallScore;
         recommendation := verdict_of overallScore;
         confidenceLevel := toFixed 2 confidenceLevel;
         keyFactors := factors;
         marketInsights :=
           generateMarketInsightsArray (or_else locationMatch "area");
         riskFactors := generateRiskFactors;
         opportunities := generateOpportunities;
         predictedValueChange :=
           {| oneYear := toFixed 1 (r_one * 10 - 2);
              threeYear := toFixed 1 (r_three * 20 + 5);
              fiveYear := toFixed 1 (r_five * 35 + 15) |};
         comparable_properties := generateComparableProperties |}.

End LandAnalysis.

(** The local constant [overallScore] of a call of
    [generateLandAnalysisResponse] that starts at cursor [c]: its first
    draw, scaled to "60-100". *)
Definition drawnOverallScore (w : World) (c : Cursor) : Q :=
  draws w (rnd c) * 40 + 60.

(** [getMarketTrends]: the [try ... catch] wraps a body that never
    throws. *)
Definition getMarketTrends (location : string)
    (propertyType : option string) : M MarketTrend :=
  simulateMarketData location propertyType.

Record Demographics := {
  medianIncome : Z;
  populationGrowth : Q;
  ageDistribution : list (string * Z)
}.

Record LocationInsights := {
  li_location : string;
  walkScore : Z;
  crimeRate : Q;
  schoolRating : Q;
  amenities : list string;
  demographics : Demographics;
  futureGrowthPotential : Q
}.

Definition allAmenities : list string :=
  [ "Shopping Centers"; "Parks"; "Public Transit"; "Restaurants";
    "Schools"; "Healthcare"; "Entertainment"; "Fitness Centers" ]%string.

Definition simulateLocationInsights (location : string)
    : M LocationInsights :=
  r_walk <- Math_random ;;
  r_crime <- Math_random ;;
  r_school <- Math_random ;;
  r_amenities <- Math_random ;;
  r_income <- Math_random ;;
  r_growth <- Math_random ;;
  r_young <- Math_random ;;
  r_middle <- Math_random ;;
  r_senior <- Math_random ;;
  r_future <- Math_random ;;
  ret {| li_location := location;
         walkScore := Math_round (r_walk * 40 + 60);
         crimeRate := toFixed 1 (r_crime * 5 + 1);
         schoolRating := toFixed 1 (r_school * 3 + 7);
         amenities :=
           slice_to (Math_round (r_amenities * 4 + 4)) allAmenities;
         demographics :=
           {| medianIncome := Math_round (r_income * 50000 + 50000);
              populationGrowth := toFixed 1 (r_growth * 4 + 1);
              ageDistribution :=
                [ ("18-34"%string, Math_round (r_young * 15 + 20));
                  ("35-54"%string, Math_round (r_middle * 15 + 25));
                  ("55+"%string, Math_round (r_senior * 15 + 20)) ] |};
         futureGrowthPotential := toFixed 1 (r_future * 30 + 70) |}.

Definition getLocationInsights (location : string) : M LocationInsights :=
  simulateLocationInsights location.

Record LeadData := {
  lead_id : string;
  budget : Q;
  lead_location : string;
  lead_propertyType : string;
  urgency : string;
  contactHistory : Q
}.

Record LeadFactor := {
  lf_factor : string;
  lf_impact : Q;
  lf_description : string
}.

Record LeadScore := {
  leadId : string;
  lead_score : Z;
  lead_factors : list LeadFactor;
  lead_recommendations : list string
}.

Definition generateLeadRecommendations (score : Q) : list string :=
  if Qle_bool 80 score then
    [ "High priority lead - contact immediately";
      "Schedule property viewing within 24 hours";
      "Prepare pre-approval documentation";
      "Assign dedicated agent for personalized service" ]%string
  else if Qle_bool 60 score then
    [ "Medium priority lead - follow up within 48 hours";
      "Send curated property listings";
      "Schedule phone consultation";
      "Provide market insights and trends" ]%string
  else
    [ "Nurture lead with regular market updates";
      "Send educational content about buying/selling process";
      "Check in monthly to assess changing needs";
      "Provide general market information" ]%string.

Definition simulateLeadScoring (leadData : LeadData) : M LeadScore :=
  let budgetScore := Math_min (budget leadData / 100000) 1 * 30 in
  let urgencyScore : Q :=
    if String.eqb (urgency leadData) "high" then 25
    else if String.eqb (urgency leadData) "medium" then 15
    else 5 in
  let engagementScore := Math_min (contactHistory leadData * 5) 25 in
  r <- Math_random ;;
  let locationScore := r * 20 in
  let totalScore :=
    Math_round (budgetScore + urgencyScore + engagementScore
                + locationScore) in
  ret {| leadId := lead_id leadData;
         lead_score := totalScore;
         lead_factors :=
           [ {| lf_factor := "Budget"; lf_impact := budgetScore;
                lf_description := "Lead budget relative to market" |};
             {| lf_factor := "Urgency"; lf_impact := urgencyScore;
                lf_description := "Timeline for purchase/sale" |};
             {| lf_factor := "Engagement"; lf_impact := engagementScore;
                lf_description := "Communication frequency" |};
             {| lf_factor := "Location Match"; lf_impact := locationScore;
                lf_description := "Location preference alignment" |} ];
         lead_recommendations :=
           generateLeadRecommendations (inject_Z totalScore) |}.

(** [Promise.all(leadData.map(lead => this.simulateLeadScoring(lead)))]:
    one score per lead, in the order of the leads; every call waits the
    same delay before its draw, so the draws are taken in that order
    too. *)
Fixpoint scoreLeads (leadData : list LeadData) : M (list LeadScore) :=
  match leadData with
  | [] => ret []
  | lead :: rest =>
      sc <- simulateLeadScoring lead ;;
      scs <- scoreLeads rest ;;
      ret (sc :: scs)
  end.

Record RelevantProperty := {
  rel_id : Z;
  rel_title : string;
  rel_price : Q;
  rel_score : Q
}.

Record MessageEnhancement := {
  hasLandAnalysis : bool;
  hasPriceAnalysis : bool;
  hasMarketTrends : bool;
  suggestedResponses : option (list string);
  relevantProperties : option (list RelevantProperty)
}.

Definition role_name (r : UserRole) : string :=
  match r with
  | buyer => "buyer"
  | seller => "seller"
  | buyer_agent => "buyer_agent"
  | seller_agent => "seller_agent"
  end.

Definition baseResponses : list string :=
  [ "Would you like me to provide a detailed market analysis for this area?";
    "I can share recent comparable sales data if that would be helpful.";
    "Let me know if you'd like to schedule a property viewing.";
    "I can provide more information about the neighborhood amenities." ]%string.

Definition generateSuggestedResponses (message : string)
    (context : ConversationContext) : list string :=
  match userRole context with
  | buyer_agent | seller_agent =>
      baseResponses ++
      [ "I can prepare a comprehensive CMA for your client.";
        "Would you like me to run financing scenarios?";
        "I can provide investment analysis for this property." ]%string
  | _ => baseResponses
  end.

Definition getRelevantProperties (propertyId : Z) : list RelevantProperty :=
  [ {| rel_id := 1; rel_title := "Beautiful 3BR Home in Naperville";
       rel_price := 425000; rel_score := 87.5 |};
    {| rel_id := 2; rel_title := "Modern 4BR House in Schaumburg";
       rel_price := 465000; rel_score := 91.2 |};
    {| rel_id := 3; rel_title := "Charming 2BR Condo in Evanston";
       rel_price := 298000; rel_score := 82.8 |} ].

Definition landAnalysisKeywords : list string :=
  [ "location"; "area"; "neighborhood"; "analysis"; "score"; "rating";
    "investment"; "risk" ]%string.

Definition priceAnalysisKeywords : list string :=
  [ "price"; "value"; "cost"; "market"; "trend"; "appreciation";
    "comparable" ]%string.

Definition marketTrendsKeywords : list string :=
  [ "market"; "trend"; "forecast"; "prediction"; "growth"; "demand";
    "supply" ]%string.

(** Nothing in the [try] body throws; a property id of 0 is falsy, like
    a missing one. *)
Definition enhanceMessage (message : string)
    (context : ConversationContext) : MessageEnhancement :=
  {| hasLandAnalysis := test_words landAnalysisKeywords message;
     hasPriceAnalysis := test_words priceAnalysisKeywords message;
     hasMarketTrends := test_words marketTrendsKeywords message;
     suggestedResponses :=
       Some (generateSuggestedResponses message context);
     relevantProperties :=
       match ctx_propertyId context with
       | Some pid =>
           if (pid =? 0)%Z then None else Some (getRelevantProperties pid)
       | None => None
       end |}.

(** [responses.buyer] *)
Definition buyerResponses : list string :=
  [ "I understand you're interested in this property. Let me provide you with a comprehensive analysis.";
    "Based on current market conditions, this could be a good opportunity. Here's what the data shows...";
    "I've analyzed the neighborhood factors and market trends for you." ]%string.

Definition roleResponses : list (string * list string) :=
  [ ("buyer", buyerResponses);
    ("seller",
     [ "I can help you understand your property's market position and pricing strategy.";
       "Let me provide you with a detailed market analysis to optimize your listing.";
       "Based on recent sales data, here's what I recommend for your property." ]);
    ("buyer_agent",
     [ "I've prepared a comprehensive analysis for your client. Here are the key findings...";
       "The market data suggests this could be a strong opportunity for your buyer.";
       "I can provide additional comps and market insights for your client presentation." ]);
    ("seller_agent",
     [ "I can help you prepare a competitive market analysis for your seller.";
       "The current market trends favor sellers in this area. Here's the data...";
       "I've analyzed comparable sales to help you price this listing competitively." ])
  ]%string.

(** [responses[userRole] || responses.buyer]: typed [string[]], but
    [userRole] is any string, so what comes back is the array of a role,
    the buyer's array, or a member of [Object.prototype] when the role
    names one (an array is truthy, even when empty). *)
Definition getRoleBasedResponses (userRole : string) (message : string)
    (context : ConversationContext) : Property (list string) :=
  logical_or (fun _ => true) (get roleResponses userRole)
             (value buyerResponses).

(** The body of [generateConversationResponse] for a context whose
    [userRole] is the string [role]: the field is typed as one of the four
    roles, and the messages page fills it with [participant.user_role],
    any string.  Nothing in the [try] body throws; [None] is
    [undefined]. *)
Definition conversationResponse (role : string) (message : string)
    (context : ConversationContext) : M (option string) :=
  let responses := getRoleBasedResponses role message context in
  r <- Math_random ;;
  ret (at_random responses r).

Definition generateConversationResponse (message : string)
    (context : ConversationContext) : M (option string) :=
  conversationResponse (role_name (userRole context)) message context.

End Nvapi.

(** ** What the pages keep: React state and toasts *)
Module Ui.
Import Js.

Inductive Toast :=
| toast_success (msg : Tmpl)
| toast_error (msg : Tmpl).

(** The state an [onSubmit] handler touches: [loading], the result slot
    and the toasts raised so far (latest first). *)
Record State (R : Type) := mkState {
  loading : bool;
  result : R;
  toasts : list Toast
}.
Arguments mkState {R}.
Arguments loading {R}.
Arguments result {R}.
Arguments toasts {R}.

Definition setLoading {R} (b : bool) (st : State R) : State R :=
  mkState b (result st) (toasts st).

Definition setResult {R} (r : R) (st : State R) : State R :=
  mkState (loading st) r (toasts st).

Definition toast {R} (t : Toast) (st : State R) : State R :=
  mkState (loading st) (result st) (t :: toasts st).


End Ui.

(** ** PropertyValuationPage *)
Module ValuationPage.
Import Js Ui.

Record PropertyValuationForm := {
  address : string;
  latitude : option Q;
  longitude : option Q;
  property_type : string;
  beds : Q;
  baths : Q;
  sqft : Q;
  year_built : Q;
  lot_size : option Q
}.

Record Feature := {
  feature_name : string;
  attribution_value : Q;
  feature_value : Q;
  impact_description : Tmpl
}.

Record Explanation := {
  base_value : Q;
  prediction_value : Q;
  top_positive_features : list Feature;
  top_negative_features : list Feature
}.

Record ValuationResult := {
  id : Z;
  predicted_value : Q;
  value_uncertainty : Q;
  price_per_sqft : Q;
  comparable_sales_count : Q;
  days_on_market_avg : Q;
  valuation_date : Tmpl;
  confidence_score : Q;
  explanation : option Explanation
}.

Definition defaultValues : PropertyValuationForm :=
  {| address := ""; latitude := None; longitude := None;
     property_type := "residential";
     beds := 3; baths := 2; sqft := 1500; year_built := 2000;
     lot_size := Some 0.25 |}.

Definition mockResult (data : PropertyValuationForm) : M ValuationResult :=
  r_id <- Math_random ;;
  r_value <- Math_random ;;
  r_unc <- Math_random ;;
  now <- Date_now ;;
  r_conf <- Math_random ;;
  ret {| id := Math_floor (r_id * 10000);
         predicted_value := 275000 + r_value * 100000;
         value_uncertainty := 15000 + r_unc * 10000;
         price_per_sqft := 183.33;
         comparable_sales_count := 12;
         days_on_market_avg := 45.5;
         valuation_date := [IsoDate now];
         confidence_score := 0.85 + r_conf * 0.1;
         explanation := Some
           {| base_value := 192500;
              prediction_value := 275000;
              top_positive_features :=
                [ {| feature_name := "sqft";
                     attribution_value := 45000;
                     feature_value := sqft data;
                     impact_description :=
                       [Lit "Property size ("; Num (sqft data);
                        Lit " sq ft) increases property value by $45,000"] |};
                  {| feature_name := "location";
                     attribution_value := 25000;
                     feature_value := 0.85;
                     impact_description :=
                       [Lit "Excellent location increases property value by $25,000"] |};
                  {| feature_name := "beds";
                     attribution_value := 12000;
                     feature_value := beds data;
                     impact_description :=
                       [Num (beds data);
                        Lit " bedrooms increases property value by $12,000"] |} ];
              top_negative_features :=
                [ {| feature_name := "age";
                     attribution_value := -8000;
                     feature_value := 2024 - year_built data;
                     impact_description :=
                       [Lit "Property age ("; Num (2024 - year_built data);
                        Lit " years) decreases property value by $8,000"] |} ]
           |} |}.

Definition PageState := State (option ValuationResult).

Definition initial : PageState := mkState false None [].

(** The [try] body cannot throw, so the [catch] branch (an error toast)
    is never taken; [finally] clears [loading]. *)
Definition onSubmit (data : PropertyValuationForm) (st : PageState)
    : M PageState :=
  let st := setLoading true st in
  r <- mockResult data ;;
  let st := setResult (Some r) st in
  let st :=
    toast (toast_success
             [Lit "Property valuation completed successfully!"]) st in
  ret (setLoading false st).

(** Base value plus the signed attributions the explanation lists. *)
Definition listed_total (e : Explanation) : Q :=
  fold_left Qplus
    (map attribution_value
         (top_positive_features e ++ top_negative_features e))
    (base_value e).

(** Additive reconciliation within the documented tolerance, 1e-3 of the
    final value. *)
Definition reconciles (e : Explanation) : Prop :=
  Qabs (prediction_value e - listed_total e)
  <= 0.001 * Qabs (prediction_value e).

Definition getConfidenceColor (confidence : Q) : string :=
  if Qle_bool 0.8 confidence then "#10b981"
  else if Qle_bool 0.6 confidence then "#f59e0b"
  else "#ef4444".

End ValuationPage.

(** ** BeneficiaryScoringPage *)
Module ScoringPage.
Import Js Ui.

Record Weights := {
  value : Q;
  school : Q;
  crime_inv : Q;
  env_inv : Q;
  employer_proximity : Q
}.

Record BeneficiaryScoringForm := {
  location_id : option Q;
  property_valuation_id : option Q;
  address : string;
  latitude : option Q;
  longitude : option Q;
  custom_weights : Weights
}.

Record Components := {
  c_value : Q;
  c_school : Q;
  c_crime : Q;
  c_env : Q;
  c_employer : Q
}.

Record ComponentExplanation := {
  component : string;
  raw_score : Q;
  weight : Q;
  weighted_contribution : Q;
  description : Tmpl
}.

Record ScoreExplanation := {
  e_overall_score : Q;
  component_explanations : list ComponentExplanation
}.

Record ScoringResult := {
  id : Z;
  overall_score : Q;
  value_score : Q;
  school_score : Q;
  safety_score : Q;
  environmental_score : Q;
  accessibility_score : Q;
  scoring_weights : Weights;
  score_components : Components;
  calculated_at : Tmpl;
  model_version : string;
  explanation : option ScoreExplanation
}.

Definition defaultWeights : Weights :=
  {| value := 8.0; school := 8.0; crime_inv := 6.0; env_inv := 5.0;
     employer_proximity := 7.0 |}.

Definition mockResult (data : BeneficiaryScoringForm) : M ScoringResult :=
  let w := custom_weights data in
  r_id <- Math_random ;;
  r_overall <- Math_random ;;
  r_value <- Math_random ;;
  r_school <- Math_random ;;
  r_safety <- Math_random ;;
  r_env <- Math_random ;;
  r_access <- Math_random ;;
  k_value <- Math_random ;;
  k_school <- Math_random ;;
  k_crime <- Math_random ;;
  k_env <- Math_random ;;
  k_employer <- Math_random ;;
  now <- Date_now ;;
  ret {| id := Math_floor (r_id * 10000);
         overall_score := 65 + r_overall * 30;
         value_score := 70 + r_value * 25;
         school_score := 80 + r_school * 20;
         safety_score := 60 + r_safety * 30;
         environmental_score := 85 + r_env * 15;
         accessibility_score := 75 + r_access * 20;
         scoring_weights := w;
         score_components :=
           {| c_value := value w * (0.7 + k_value * 0.3);
              c_school := school w * (0.8 + k_school * 0.2);
              c_crime := crime_inv w * (0.6 + k_crime * 0.3);
              c_env := env_inv w * (0.85 + k_env * 0.15);
              c_employer :=
                employer_proximity w * (0.75 + k_employer * 0.2) |};
         calculated_at := [IsoDate now];
         model_version := "2.0.0";
         explanation := Some
           {| e_overall_score := 78.2;
              component_explanations :=
                [ {| component := "school"; raw_score := 85.0;
                     weight := school w; weighted_contribution := 6.8;
                     description :=
                       [Lit "School quality and accessibility: excellent (85.0%) with weight ";
                        Num (school w)] |};
                  {| component := "value"; raw_score := 75.0;
                     weight := value w; weighted_contribution := 6.0;
                     description :=
                       [Lit "Property value competitiveness: good (75.0%) with weight ";
                        Num (value w)] |};
                  {| component := "safety"; raw_score := 70.0;
                     weight := crime_inv w; weighted_contribution := 4.2;
                     description :=
                       [Lit "Safety and crime levels: good (70.0%) with weight ";
                        Num (crime_inv w)] |};
                  {| component := "environment"; raw_score := 88.0;
                     weight := env_inv w; weighted_contribution := 4.4;
                     description :=
                       [Lit "Environmental risk factors: excellent (88.0%) with weight ";
                        Num (env_inv w)] |};
                  {| component := "accessibility"; raw_score := 72.0;
                     weight := employer_proximity w;
                     weighted_contribution := 5.04;
                     description :=
                       [Lit "Employment and economic opportunities: good (72.0%) with weight ";
                        Num (employer_proximity w)] |} ] |} |}.

Definition PageState := State (option ScoringResult).

Definition initial : PageState := mkState false None [].

(** No statement of the [try] body throws: the [catch] branch, with its
    error toast, is unreachable. *)
Definition onSubmit (data : BeneficiaryScoringForm) (st : PageState)
    : M PageState :=
  let st := setLoading true st in
  r <- mockResult data ;;
  let st := setResult (Some r) st in
  let st :=
    toast (toast_success
             [Lit "Beneficiary scoring completed successfully!"]) st in
  ret (setLoading false st).

(** The documented combination: the five component scores weighted by
    the five weights, over the sum of the weights. *)
Definition weighted_normalized_sum (r : ScoringResult) : Q :=
  let w := scoring_weights r in
  (value_score r * value w
   + school_score r * school w
   + safety_score r * crime_inv w
   + environmental_score r * env_inv w
   + accessibility_score r * employer_proximity w)
  / (value w + school w + crime_inv w + env_inv w + employer_proximity w).






Definition getScoreColor (score : Q) : string :=
  if Qle_bool 80 score then "#10b981"
  else if Qle_bool 60 score then "#f59e0b"
  else if Qle_bool 40 score then "#f97316"
  else "#ef4444".

Definition getScoreLabel (score : Q) : string :=
  if Qle_bool 80 score then "Excellent"
  else if Qle_bool 60 score then "Good"
  else if Qle_bool 40 score then "Fair"
  else "Poor".

End ScoringPage.

(** ** PropertyRecommendationsPage *)
Module RecommendationsPage.
Import Js Ui.

Inductive SearchType := by_location | by_property.

Inductive RecommendationType := content_based | collaborative | hybrid.

Record Preferences := {
  min_beds : option Q;
  max_beds : option Q;
  min_baths : option Q;
  max_baths : option Q;
  min_price : option Q;
  max_price : option Q;
  pref_property_type : option string;
  min_sqft : option Q;
  max_sqft : option Q
}.

Record RecommendationForm := {
  search_type : SearchType;
  property_id : option Q;
  location : option (Q * Q);
  address : option string;
  radius_km : option Q;
  max_recommendations : Q;
  recommendation_type : RecommendationType;
  user_preferences : option Preferences
}.

Record RecommendedProperty := {
  rp_id : Z;
  predicted_value : Q;
  beds : Z;
  baths : Z;
  sqft : Z;
  year_built : Z;
  rp_address : Tmpl;
  property_type : string
}.

Record PropertyRecommendation := {
  id : Z;
  recommended_property : RecommendedProperty;
  rec_type : RecommendationType;
  similarity_score : Q;
  confidence_score : Q;
  rank_position : Z;
  recommendation_reason : string;
  created_at : Tmpl
}.

Definition defaultPreferences : Preferences :=
  {| min_beds := Some 2; max_beds := Some 5;
     min_baths := Some 1; max_baths := Some 4;
     min_price := Some 100000; max_price := Some 1000000;
     pref_property_type := Some "residential"%string;
     min_sqft := Some 800; max_sqft := Some 4000 |}.

Definition defaultValues : RecommendationForm :=
  {| search_type := by_location; property_id := None; location := None;
     address := None; radius_km := Some 10;
     max_recommendations := 10; recommendation_type := hybrid;
     user_preferences := Some defaultPreferences |}.

Definition streets : list string := ["Main"; "Oak"; "Pine"; "Elm"; "Cedar"]%string.
Definition cities : list string :=
  ["Chicago"; "Austin"; "Denver"; "Seattle"; "Portland"]%string.
Definition states : list string := ["IL"; "TX"; "CO"; "WA"; "OR"]%string.
Definition reasons : list string :=
  [ "Similar property characteristics";
    "Great investment potential";
    "Excellent location match";
    "Strong market performance";
    "High user rating similarity" ]%string.

(** The callback of [Array.from]: one recommendation per index. *)
Definition candidate (data : RecommendationForm) (index : nat)
    : M PropertyRecommendation :=
  r_id <- Math_random ;;
  r_value <- Math_random ;;
  r_beds <- Math_random ;;
  r_baths <- Math_random ;;
  r_sqft <- Math_random ;;
  r_year <- Math_random ;;
  r_number <- Math_random ;;
  r_street <- Math_random ;;
  r_city <- Math_random ;;
  r_state <- Math_random ;;
  r_sim <- Math_random ;;
  r_conf <- Math_random ;;
  r_reason <- Math_random ;;
  now <- Date_now ;;
  ret {| id := Z.of_nat index + 1;
         recommended_property :=
           {| rp_id := Math_floor (r_id * 10000);
              predicted_value := 200000 + r_value * 500000;
              beds := Math_floor (r_beds * 4) + 2;
              baths := Math_floor (r_baths * 3) + 1;
              sqft := Math_floor (r_sqft * 2000) + 1000;
              year_built := Math_floor (r_year * 50) + 1970;
              rp_address :=
                [ Num (inject_Z (Math_floor (r_number * 9999) + 1));
                  Lit " ";
                  Lit (item streets (Math_floor (r_street * 5)));
                  Lit " St, ";
                  Lit (item cities (Math_floor (r_city * 5)));
                  Lit ", ";
                  Lit (item states (Math_floor (r_state * 5))) ];
              property_type := "residential" |};
         rec_type := recommendation_type data;
         similarity_score := 0.6 + r_sim * 0.4;
         confidence_score := 0.7 + r_conf * 0.3;
         rank_position := Z.of_nat index + 1;
         recommendation_reason :=
           item reasons (Math_floor (r_reason * 5));
         created_at := [IsoDate now] |}.

(** [(a, b) => b.similarity_score - a.similarity_score] *)
Definition bySimilarityDesc (a b : PropertyRecommendation) : Q :=
  similarity_score b - similarity_score a.

(** The constant [mockResults] of [onSubmit], where [Array.from]
    returns. *)
Definition mockResults (data : RecommendationForm)
    : M (list PropertyRecommendation) :=
  generated <- Array_from (max_recommendations data) (candidate data) ;;
  ret (Array_sort bySimilarityDesc generated).

Definition PageState := State (list PropertyRecommendation).

Definition initial : PageState := mkState false [] [].

(** [try { ... } catch { toast.error } finally { setLoading(false) }]:
    the one statement of the [try] body that can throw is [Array.from],
    on a length from 2^32 on; nothing has been drawn or stored by then. *)
Definition onSubmit (data : RecommendationForm) (st : PageState)
    : M PageState :=
  let st := setLoading true st in
  if Array_from_throws (max_recommendations data)
  then
    let st :=
      toast (toast_error
               [Lit "Failed to get property recommendations. Please try again."])
            st in
    ret (setLoading false st)
  else
    rs <- mockResults data ;;
    let st := setResult rs st in
    let st :=
      toast (toast_success
               [Lit "Found "; Num (inject_Z (Z.of_nat (List.length rs)));
                Lit " property recommendations!"]) st in
    ret (setLoading false st).

Definition at_least (bound : option Q) (x : Q) : bool :=
  match bound with Some b => Qle_bool b x | None => true end.

Definition at_most (bound : option Q) (x : Q) : bool :=
  match bound with Some b => Qle_bool x b | None => true end.

Definition of_type (wanted : option string) (t : string) : bool :=
  match wanted with Some s => String.eqb s t | None => true end.

(** The hard preference filter the request describes: every bound that
    is present must hold of the candidate. *)
Definition meets (p : Preferences) (c : RecommendedProperty) : bool :=
  at_least (min_beds p) (inject_Z (beds c))
  && at_most (max_beds p) (inject_Z (beds c))
  && at_least (min_baths p) (inject_Z (baths c))
  && at_most (max_baths p) (inject_Z (baths c))
  && at_least (min_price p) (predicted_value c)
  && at_most (max_price p) (predicted_value c)
  && of_type (pref_property_type p) (property_type c)
  && at_least (min_sqft p) (inject_Z (sqft c))
  && at_most (max_sqft p) (inject_Z (sqft c)).

Definition passes_filter (data : RecommendationForm)
    (r : PropertyRecommendation) : bool :=
  match user_preferences data with
  | Some p => meets p (recommended_property r)
  | None => true
  end.

(** The ranges the generator draws every candidate from. *)
Definition in_generated_ranges (c : RecommendedProperty) : Prop :=
  (2 <= beds c <= 5)%Z /\ (1 <= baths c <= 3)%Z
  /\ (1000 <= sqft c <= 2999)%Z
  /\ 200000 <= predicted_value c /\ predicted_value c <= 700000
  /\ property_type c = "residential"%string.

(** Preferences no stricter than the generated ranges, as the form's
    defaults are. *)
Definition permissive (p : Preferences) : Prop :=
  at_least (min_beds p) 2 = true /\ at_most (max_beds p) 5 = true
  /\ at_least (min_baths p) 1 = true /\ at_most (max_baths p) 3 = true
  /\ at_least (min_price p) 200000 = true
  /\ at_most (max_price p) 700000 = true
  /\ of_type (pref_property_type p) "residential" = true
  /\ at_least (min_sqft p) 1000 = true
  /\ at_most (max_sqft p) 2999 = true.

(** Rank positions 1, 2, 3, ... in result order. *)
Fixpoint ranked_from (k : Z) (rs : list PropertyRecommendation) : Prop :=
  match rs with
  | [] => True
  | r :: rest => rank_position r = k /\ ranked_from (k + 1) rest
  end.

Definition similarity_non_increasing (rs : list PropertyRecommendation)
    : Prop :=
  StronglySorted (fun a b => similarity_score b <= similarity_score a) rs.

Definition getConfidenceColor (confidence : Q) : string :=
  if Qle_bool 0.8 confidence then "#10b981"
  else if Qle_bool 0.6 confidence then "#f59e0b"
  else "#ef4444".

Definition getSimilarityColor (similarity : Q) : string :=
  if Qle_bool 0.8 similarity then "#2563eb"
  else if Qle_bool 0.6 similarity then "#10b981"
  else "#f59e0b".

End RecommendationsPage.

(** ** ComprehensiveAnalysisPage *)
Module ComprehensivePage.
Import Js Ui.

Inductive RiskLevel := LOW | MEDIUM | HIGH.

Record ComprehensiveAnalysisForm := {
  address : string;
  latitude : option Q;
  longitude : option Q;
  property_type : string;
  beds : Q;
  baths : Q;
  sqft : Q;
  year_built : Q;
  lot_size : option Q
}.

Record Valuation := {
  predicted_value : Q;
  value_uncertainty : Q;
  price_per_sqft : Q;
  confidence_score : Q
}.

Record BeneficiaryScore := {
  overall_score : Q;
  value_score : Q;
  school_score : Q;
  safety_score : Q;
  environmental_score : Q;
  accessibility_score : Q
}.

Record Recommendation := {
  id : Z;
  r_address : Tmpl;
  r_predicted_value : Q;
  similarity_score : Q;
  r_confidence_score : Q
}.

Record RiskAssessment := {
  risk_level : option RiskLevel;
  risk_factors : list string;
  opportunities : list string
}.

Record ValuationFactor := {
  feature : string;
  impact : Q;
  vf_description : Tmpl
}.

Record ScoringFactor := {
  component : string;
  score : Q;
  weight : Q;
  sf_description : string
}.

Record Explanation := {
  valuation_factors : list ValuationFactor;
  scoring_factors : list ScoringFactor
}.

Record ComprehensiveResult := {
  property_valuation : Valuation;
  beneficiary_score : BeneficiaryScore;
  recommendations : list Recommendation;
  risk_assessment : RiskAssessment;
  explanation : Explanation
}.

Definition analysisSteps : list string :=
  [ "Property Valuation (AVM)"; "Beneficiary Scoring";
    "Property Recommendations"; "Risk Assessment";
    "AI Explanations" ]%string.

Definition recommendation (index : nat) : M Recommendation :=
  r_number <- Math_random ;;
  r_street <- Math_random ;;
  r_value <- Math_random ;;
  r_sim <- Math_random ;;
  r_conf <- Math_random ;;
  ret {| id := Z.of_nat index + 1;
         r_address :=
           [ Num (inject_Z (Math_floor (r_number * 9999) + 1));
             Lit " ";
             Lit (item ["Main"; "Oak"; "Pine"]%string
                       (Math_floor (r_street * 3)));
             Lit " St" ];
         r_predicted_value := 200000 + r_value * 200000;
         similarity_score := 0.6 + r_sim * 0.4;
         r_confidence_score := 0.7 + r_conf * 0.3 |}.

(** [['LOW', 'MEDIUM', 'HIGH'][i]]; out of range is [undefined]. *)
Definition level (i : Z) : option RiskLevel :=
  if (i =? 0)%Z then Some LOW
  else if (i =? 1)%Z then Some MEDIUM
  else if (i =? 2)%Z then Some HIGH
  else None.

Definition mockResult (data : ComprehensiveAnalysisForm)
    : M ComprehensiveResult :=
  r_value <- Math_random ;;
  r_unc <- Math_random ;;
  r_conf <- Math_random ;;
  s_overall <- Math_random ;;
  s_value <- Math_random ;;
  s_school <- Math_random ;;
  s_safety <- Math_random ;;
  s_env <- Math_random ;;
  s_access <- Math_random ;;
  recs <- Array_from 5 recommendation ;;
  r_risk <- Math_random ;;
  ret {| property_valuation :=
           {| predicted_value := 275000 + r_value * 100000;
              value_uncertainty := 15000 + r_unc * 10000;
              price_per_sqft := 183.33;
              confidence_score := 0.85 + r_conf * 0.1 |};
         beneficiary_score :=
           {| overall_score := 65 + s_overall * 30;
              value_score := 70 + s_value * 25;
              school_score := 80 + s_school * 20;
              safety_score := 60 + s_safety * 30;
              environmental_score := 85 + s_env * 15;
              accessibility_score := 75 + s_access * 20 |};
         recommendations := recs;
         risk_assessment :=
           {| risk_level := level (Math_floor (r_risk * 3));
              risk_factors :=
                [ "Market volatility in the area";
                  "Aging infrastructure";
                  "Limited public transportation" ]%string;
              opportunities :=
                [ "Upcoming development projects";
                  "Strong school district";
                  "Growing employment opportunities" ]%string |};
         explanation :=
           {| valuation_factors :=
                [ {| feature := "Square Footage"; impact := 45000;
                     vf_description :=
                       [Num (sqft data);
                        Lit " sq ft increases value significantly"] |};
                  {| feature := "Location Quality"; impact := 25000;
                     vf_description :=
                       [Lit "Excellent neighborhood location"] |};
                  {| feature := "Property Age"; impact := -8000;
                     vf_description :=
                       [Num (2024 - year_built data);
                        Lit " years old reduces value slightly"] |} ];
              scoring_factors :=
                [ {| component := "School Quality"; score := 85;
                     weight := 8.0;
                     sf_description :=
                       "Excellent school district access" |};
                  {| component := "Safety"; score := 70; weight := 6.0;
                     sf_description := "Good safety ratings" |};
                  {| component := "Environment"; score := 88;
                     weight := 5.0;
                     sf_description := "Low environmental risks" |} ]
           |} |}.

Record PageState := mkPage {
  ui : State (option ComprehensiveResult);
  activeStep : nat
}.

Definition initial : PageState := mkPage (mkState false None []) 0.

(** The loop walks [activeStep] through the five steps; [finally] resets
    it together with [loading]. *)
Definition onSubmit (data : ComprehensiveAnalysisForm) (st : PageState)
    : M PageState :=
  let st := mkPage (setLoading true (ui st)) 0 in
  let st := mkPage (ui st) (List.length analysisSteps) in
  r <- mockResult data ;;
  let st := mkPage (setResult (Some r) (ui st)) (activeStep st) in
  let st :=
    mkPage (toast (toast_success
                     [Lit "Comprehensive analysis completed successfully!"])
                  (ui st))
           (activeStep st) in
  ret (mkPage (setLoading false (ui st)) 0).

(** The documented combination of the five component scores of the
    beneficiary block, for weights [wt]: their weighted sum over the sum
    of the weights. *)
Definition weighted_normalized_sum (wt : ScoringPage.Weights)
    (b : BeneficiaryScore) : Q :=
  (value_score b * ScoringPage.value wt
   + school_score b * ScoringPage.school wt
   + safety_score b * ScoringPage.crime_inv wt
   + environmental_score b * ScoringPage.env_inv wt
   + accessibility_score b * ScoringPage.employer_proximity wt)
  / (ScoringPage.value wt + ScoringPage.school wt
     + ScoringPage.crime_inv wt + ScoringPage.env_inv wt
     + ScoringPage.employer_proximity wt).

Definition getScoreColor (score : Q) : string :=
  if Qle_bool 80 score then "#10b981"
  else if Qle_bool 60 score then "#f59e0b"
  else "#ef4444".

(** The string the page hands to [getRiskColor]. *)
Definition risk_text (l : option RiskLevel) : string :=
  match l with
  | Some LOW => "LOW"
  | Some MEDIUM => "MEDIUM"
  | Some HIGH => "HIGH"
  | None => "undefined"
  end.

Definition getRiskColor (risk : string) : string :=
  if String.eqb risk "LOW" then "#10b981"
  else if String.eqb risk "MEDIUM" then "#f59e0b"
  else if String.eqb risk "HIGH" then "#ef4444"
  else "#6b7280".

End ComprehensivePage.


(** ** The messaging page: when a message triggers a land analysis *)
Module MessagesPage.
Import Js.

Definition analysisTriggers : list string :=
  [ "analysis"; "analyze"; "score"; "rating"; "investment"; "market" ]%string.

(** [enhancementData?.hasLandAnalysis && /\b(...)\b/i.test(newMessage)],
    the condition of [handleSendMessage]; [enhancementData] is the state
    that [handleMessageEnhancement] last stored, or null. *)
Definition shouldAnalyze (enhancementData : option Nvapi.MessageEnhancement)
    (newMessage : string) : bool :=
  match enhancementData with
  | Some e => Nvapi.hasLandAnalysis e && test_words analysisTriggers newMessage
  | None => false
  end.

Definition message_type (analyze : bool) : string :=
  if analyze then "land_analysis" else "response".

End MessagesPage.

(** ** The agent dashboard: scoring the active clients *)
Module AgentDashboard.
Import Js.

Record Client := {
  id : Z;
  name : string;
  email : string;
  phone : string;
  budget : Q;
  preferredLocation : string;
  status : string;
  lastContact : string;
  viewingsScheduled : Z;
  offersSubmitted : Z
}.

(** The callback of [activeClients.map] in [loadDashboardData]. *)
Definition toLead (client : Client) : Nvapi.LeadData :=
  {| Nvapi.lead_id := toString (id client);
     Nvapi.budget := budget client;
     Nvapi.lead_location := preferredLocation client;
     Nvapi.lead_propertyType := "single_family";
     Nvapi.urgency :=
       if String.eqb (status client) "actively_searching"
       then "high" else "medium";
     Nvapi.contactHistory := 5 |}.

Definition scoreClients (activeClients : list Client)
    : M (list Nvapi.LeadScore) :=
  Nvapi.scoreLeads (map toLead activeClients).

(** [leadScores.find(score => score.leadId === client.id.toString())] *)
Definition findLeadScore (leadScores : list Nvapi.LeadScore)
    (client : Client) : option Nvapi.LeadScore :=
  find (fun sc => String.eqb (Nvapi.leadId sc) (toString (id client)))
       leadScores.

Definition getLeadScoreColor (score : Q) : string :=
  if Qle_bool 80 score then "success.main"
  else if Qle_bool 60 score then "warning.main"
  else "error.main".

End AgentDashboard.

(** ** Binary64: the generating expressions as JavaScript computes them *)
Module Binary64.
Local Open Scope float_scope.

(** What [Math.random()] may return: a number from 0 up to, and not
    including, 1. *)
Definition is_draw (r : float) : bool := (0 <=? r) && (r <? 1).

(** The two largest numbers below 1: [1 - 2^-52], the largest draw of a
    generator that returns multiples of 2^-52, and [1 - 2^-53], the
    largest binary64 number below 1. *)
Definition below_one : float := 0x1.ffffffffffffep-1.
Definition last_below_one : float := 0x1.fffffffffffffp-1.

(** A draw next to 1/2: [1/2 + 2^-52]. *)
Definition above_half : float := 0.5 + 0x1p-52.

(** [Math.random() * 40 + 60], the overall score of
    [generateLandAnalysisResponse]. *)
Definition overallScore (r : float) : float := r * 40 + 60.

(** The conditional expression that fills [recommendation]. *)
Definition verdict_of (overallScore : float) : string :=
  if 80 <=? overallScore then "buy"
  else if 65 <=? overallScore then "hold"
  else "avoid".

(** [65 + Math.random() * 30], the overall score of the scoring page and
    of the beneficiary block of the comprehensive page. *)
Definition overall_score (r : float) : float := 65 + r * 30.

(** The three fields of the valuation page's mock. *)
Definition predicted_value (r : float) : float := 275000 + r * 100000.
Definition value_uncertainty (r : float) : float := 15000 + r * 10000.
#[warnings="-inexact-float"]
Definition confidence_score (r : float) : float := 0.85 + r * 0.1.

(** Similarity and predicted value of a recommendation candidate, on the
    recommendations page and on the comprehensive page. *)
#[warnings="-inexact-float"]
Definition similarity_score (r : float) : float := 0.6 + r * 0.4.
Definition candidate_value (r : float) : float := 200000 + r * 500000.
Definition recommendation_value (r : float) : float := 200000 + r * 200000.

End Binary64.

(** * Concrete inputs *)

(** A world given by its first draws (every later draw is 0) and a clock
    that stands still. *)
Definition world_of (ds : list Q) : Js.World :=
  Js.mkWorld (fun n => nth n ds 0) (fun _ => 1700000000000%Z).

(** Every draw is 0. *)
Definition calm : Js.World := world_of [].

(** Every draw is 1/2. *)
Definition even_odds : Js.World :=
  Js.mkWorld (fun _ => 0.5) (fun _ => 1700000000000%Z).

Definition chicagoHome : Nvapi.PropertyData :=
  {| Nvapi.address := "Chicago"; Nvapi.sqft := 1500; Nvapi.bedrooms := 3;
     Nvapi.bathrooms := 2; Nvapi.yearBuilt := 2000; Nvapi.lotSize := None |}.

Definition evanstonHome : Nvapi.PropertyData :=
  {| Nvapi.address := "Evanston"; Nvapi.sqft := 1500; Nvapi.bedrooms := 3;
     Nvapi.bathrooms := 2; Nvapi.yearBuilt := 2000; Nvapi.lotSize := None |}.

Definition aBuyer : Nvapi.ConversationContext :=
  {| Nvapi.ctx_propertyId := None; Nvapi.userId := 7;
     Nvapi.userRole := Nvapi.buyer |}.

(** An extractor that never finds a location. *)
Definition noLocation (message : string) : option string := None.

Definition aValuationForm : ValuationPage.PropertyValuationForm :=
  {| ValuationPage.address := "123 Main St, Chicago, IL";
     ValuationPage.latitude := None; ValuationPage.longitude := None;
     ValuationPage.property_type := "residential";
     ValuationPage.beds := 3; ValuationPage.baths := 2;
     ValuationPage.sqft := 1500; ValuationPage.year_built := 2000;
     ValuationPage.lot_size := Some 0.25 |}.

Definition aComprehensiveForm : ComprehensivePage.ComprehensiveAnalysisForm :=
  {| ComprehensivePage.address := "123 Main St, Chicago, IL";
     ComprehensivePage.latitude := None;
     ComprehensivePage.longitude := None;
     ComprehensivePage.property_type := "residential";
     ComprehensivePage.beds := 3; ComprehensivePage.baths := 2;
     ComprehensivePage.sqft := 1500; ComprehensivePage.year_built := 2000;
     ComprehensivePage.lot_size := Some 0.25 |}.

(** Two calls in a row: the first reads draws 0..3, the second 4..7. *)
Definition twoCalls : Js.World :=
  world_of [0; 0; 0; 0; 0; 0.5; 0.5; 0.5].

Definition aScoringForm : ScoringPage.BeneficiaryScoringForm :=
  {| ScoringPage.location_id := None;
     ScoringPage.property_valuation_id := None;
     ScoringPage.address := "123 Main St, Chicago, IL";
     ScoringPage.latitude := None; ScoringPage.longitude := None;
     ScoringPage.custom_weights := ScoringPage.defaultWeights |}.


(** The smallest request the form's slider allows: five results. *)
Definition fiveResultsForm : RecommendationsPage.RecommendationForm :=
  {| RecommendationsPage.search_type := RecommendationsPage.by_location;
     RecommendationsPage.property_id := None;
     RecommendationsPage.location := None;
     RecommendationsPage.address := Some "Chicago, IL"%string;
     RecommendationsPage.radius_km := Some 10;
     RecommendationsPage.max_recommendations := 5;
     RecommendationsPage.recommendation_type := RecommendationsPage.hybrid;
     RecommendationsPage.user_preferences :=
       Some RecommendationsPage.defaultPreferences |}.

(** The same request, asking for four bedrooms or more. *)
Definition fourBedsForm : RecommendationsPage.RecommendationForm :=
  {| RecommendationsPage.search_type := RecommendationsPage.by_location;
     RecommendationsPage.property_id := None;
     RecommendationsPage.location := None;
     RecommendationsPage.address := Some "Chicago, IL"%string;
     RecommendationsPage.radius_km := Some 10;
     RecommendationsPage.max_recommendations := 5;
     RecommendationsPage.recommendation_type := RecommendationsPage.hybrid;
     RecommendationsPage.user_preferences :=
       Some {| RecommendationsPage.min_beds := Some 4;
               RecommendationsPage.max_beds := Some 5;
               RecommendationsPage.min_baths := Some 1;
               RecommendationsPage.max_baths := Some 4;
               RecommendationsPage.min_price := Some 100000;
               RecommendationsPage.max_price := Some 1000000;
               RecommendationsPage.pref_property_type :=
                 Some "residential"%string;
               RecommendationsPage.min_sqft := Some 800;
               RecommendationsPage.max_sqft := Some 4000 |} |}.

(** Every draw is 0 except the 24th, the similarity draw of the second
    candidate (each candidate reads thirteen draws, similarity the
    eleventh), which is 1/2. *)
Definition secondIsBest : Js.World := world_of (repeat 0 23 ++ [0.5]).

(** The same form submitted twice in a row. *)
Definition firstCall : ValuationPage.ValuationResult * Js.Cursor :=
  ValuationPage.mockResult aValuationForm twoCalls Js.start.

Definition secondCall : ValuationPage.ValuationResult * Js.Cursor :=
  ValuationPage.mockResult aValuationForm twoCalls (snd firstCall).

Definition calmScore : ScoringPage.ScoringResult :=
  Js.run (ScoringPage.mockResult aScoringForm) calm Js.start.

Definition fiveResults : list RecommendationsPage.PropertyRecommendation :=
  Js.run (RecommendationsPage.mockResults fiveResultsForm)
         secondIsBest Js.start.

(** The first draw is 0.499: the score generated is 79.96. *)
Definition justBelowEighty : Js.World := world_of [0.499].

Definition oldMill : Nvapi.PropertyData :=
  {| Nvapi.address := "Old Mill Rd"; Nvapi.sqft := 3000;
     Nvapi.bedrooms := 5; Nvapi.bathrooms := 3;
     Nvapi.yearBuilt := 1820; Nvapi.lotSize := None |}.

Definition largerEvanstonHome : Nvapi.PropertyData :=
  {| Nvapi.address := "Evanston"; Nvapi.sqft := 1800; Nvapi.bedrooms := 3;
     Nvapi.bathrooms := 2; Nvapi.yearBuilt := 2010; Nvapi.lotSize := None |}.

Definition eagerLead : Nvapi.LeadData :=
  {| Nvapi.lead_id := "1"; Nvapi.budget := 450000;
     Nvapi.lead_location := "Naperville, IL";
     Nvapi.lead_propertyType := "single_family";
     Nvapi.urgency := "high"; Nvapi.contactHistory := 5 |}.

Definition richerLead : Nvapi.LeadData :=
  {| Nvapi.lead_id := "2"; Nvapi.budget := 2000000;
     Nvapi.lead_location := "Chicago, IL";
     Nvapi.lead_propertyType := "condo";
     Nvapi.urgency := "high"; Nvapi.contactHistory := 40 |}.

Definition johnSmith : AgentDashboard.Client :=
  {| AgentDashboard.id := 1; AgentDashboard.name := "John Smith";
     AgentDashboard.email := "john@email.com";
     AgentDashboard.phone := "(555) 123-4567";
     AgentDashboard.budget := 450000;
     AgentDashboard.preferredLocation := "Naperville, IL";
     AgentDashboard.status := "actively_searching";
     AgentDashboard.lastContact := "2024-01-15";
     AgentDashboard.viewingsScheduled := 2;
     AgentDashboard.offersSubmitted := 0 |}.

Definition sarahJohnson : AgentDashboard.Client :=
  {| AgentDashboard.id := 2; AgentDashboard.name := "Sarah Johnson";
     AgentDashboard.email := "sarah@email.com";
     AgentDashboard.phone := "(555) 987-6543";
     AgentDashboard.budget := 350000;
     AgentDashboard.preferredLocation := "Chicago, IL";
     AgentDashboard.status := "pre_approved";
     AgentDashboard.lastContact := "2024-01-14";
     AgentDashboard.viewingsScheduled := 1;
     AgentDashboard.offersSubmitted := 1 |}.

(** The two clients the agent dashboard starts with. *)
Definition activeClients : list AgentDashboard.Client :=
  [johnSmith; sarahJohnson].

(** A request for less than one result. *)
Definition halfResultForm : RecommendationsPage.RecommendationForm :=
  {| RecommendationsPage.search_type := RecommendationsPage.by_location;
     RecommendationsPage.property_id := None;
     RecommendationsPage.location := None;
     RecommendationsPage.address := Some "Chicago, IL"%string;
     RecommendationsPage.radius_km := Some 10;
     RecommendationsPage.max_recommendations := 0.5;
     RecommendationsPage.recommendation_type :=
       RecommendationsPage.content_based;
     RecommendationsPage.user_preferences := None |}.

(** All five sliders of the scoring form at their minimum. *)
Definition lowestWeightsForm : ScoringPage.BeneficiaryScoringForm :=
  {| ScoringPage.location_id := None;
     ScoringPage.property_valuation_id := None;
     ScoringPage.address := "123 Main St, Chicago, IL";
     ScoringPage.latitude := None; ScoringPage.longitude := None;
     ScoringPage.custom_weights :=
       {| ScoringPage.value := 1; ScoringPage.school := 1;
          ScoringPage.crime_inv := 1; ScoringPage.env_inv := 1;
          ScoringPage.employer_proximity := 1 |} |}.

(** A request for 2^32 results, more than an array can hold. *)
Definition tooManyForm : RecommendationsPage.RecommendationForm :=
  {| RecommendationsPage.search_type := RecommendationsPage.by_location;
     RecommendationsPage.property_id := None;
     RecommendationsPage.location := None;
     RecommendationsPage.address := Some "Chicago, IL"%string;
     RecommendationsPage.radius_km := Some 10;
     RecommendationsPage.max_recommendations := 4294967296;
     RecommendationsPage.recommendation_type := RecommendationsPage.hybrid;
     RecommendationsPage.user_preferences :=
       Some RecommendationsPage.defaultPreferences |}.

(** The overall draw of a scoring call that starts at cursor [c] set to
    0.9, every other draw to 0. *)
Definition overallOnly (c : Js.Cursor) : Js.World :=
  Js.with_draw calm (1 + Js.rnd c) 0.9.

(** The same for the beneficiary block of the comprehensive page, whose
    overall draw is the fourth of the call. *)
Definition overallOnlyComprehensive (c : Js.Cursor) : Js.World :=
  Js.with_draw calm (3 + Js.rnd c) 0.9.

Definition chicagoTrends : Nvapi.MarketTrend :=
  Js.run (Nvapi.getMarketTrends "Chicago" None) even_odds Js.start.

(** * Properties *)

(** ** The model on concrete inputs *)

Example chicagoHome_base_value :
  Nvapi.calculateBaseValue chicagoHome == 255200.
Proof. reflexivity. Qed.

Example location_keys :
  Nvapi.getBasePriceForLocation "Oak  Park" = Js.value 400000
  /\ Nvapi.getBasePriceForLocation "EVANSTON" = Js.value 450000
  /\ Nvapi.getBasePriceForLocation "Peoria" = Js.value 375000
  /\ Nvapi.getBasePriceForLocation "Constructor" = Js.builtin "constructor".
Proof. repeat split. Qed.

(** With a base price that is no number the two prices of the market
    data are NaN. *)
Example market_data_of_a_builtin :
  Nvapi.averagePrice
    (Js.run (Nvapi.getMarketTrends "constructor" None) even_odds Js.start)
  = None
  /\ Nvapi.averagePrice chicagoTrends = Some 350000%Z
  /\ Nvapi.priceChange chicagoTrends = Some 0%Z.
Proof. repeat split. Qed.

(** In binary64 the largest draws reach the upper end of the ranges they
    are scaled to: 100, 95, 375000, 25000 and 0.95 at 1 - 2^-52; 1,
    700000 and 400000 at 1 - 2^-53. *)
Example binary64_end_points :
  Binary64.is_draw Binary64.below_one = true
  /\ Binary64.is_draw Binary64.last_below_one = true
  /\ Binary64.overallScore Binary64.below_one = 100%float
  /\ Binary64.overall_score Binary64.below_one = 95%float
  /\ Binary64.predicted_value Binary64.below_one = 375000%float
  /\ Binary64.value_uncertainty Binary64.below_one = 25000%float
  /\ Binary64.confidence_score Binary64.below_one = 0x1.e666666666666p-1%float
  /\ Binary64.similarity_score Binary64.last_below_one = 1%float
  /\ Binary64.candidate_value Binary64.last_below_one = 700000%float
  /\ Binary64.recommendation_value Binary64.last_below_one = 400000%float.
Proof. repeat split. Qed.

(** And two different draws can give the same three valuation fields. *)
Example binary64_draws_collide :
  PrimFloat.eqb 0.5 Binary64.above_half = false
  /\ Binary64.predicted_value 0.5 = Binary64.predicted_value Binary64.above_half
  /\ Binary64.value_uncertainty 0.5
     = Binary64.value_uncertainty Binary64.above_half
  /\ Binary64.confidence_score 0.5
     = Binary64.confidence_score Binary64.above_half.
Proof. repeat split. Qed.

Example toFixed_halves :
  Js.toFixed 2 0.995 == 1 /\ Js.toFixed 1 (-0.25) == -0.3
  /\ Js.toFixed 1 79.94 == 79.9.
Proof. repeat split. Qed.

Example two_calls_in_a_row :
  ValuationPage.predicted_value (fst firstCall) == 275000
  /\ ValuationPage.predicted_value (fst secondCall) == 325000
  /\ Js.rnd (snd firstCall) = 4%nat /\ Js.rnd (snd secondCall) = 8%nat.
Proof. repeat split. Qed.

Example calm_scores :
  ScoringPage.overall_score calmScore == 65
  /\ ScoringPage.weighted_normalized_sum calmScore == 2510 / 34.
Proof. split; reflexivity. Qed.

Example five_results_by_similarity :
  map (fun r => Qred (RecommendationsPage.similarity_score r)) fiveResults
  = [4 # 5; 3 # 5; 3 # 5; 3 # 5; 3 # 5].
Proof. vm_compute. reflexivity. Qed.

(** The response reports the score rounded to one decimal, and decides
    the verdict on the score as generated: 79.96 is reported as 80.0 and
    is a hold. *)
Example reported_score_is_rounded :
  Nvapi.drawnOverallScore justBelowEighty Js.start == 79.96
  /\ Nvapi.overallScore
       (Js.run (Nvapi.generateLandAnalysisResponse noLocation
                  "Is this a good area to invest in?" aBuyer)
               justBelowEighty Js.start) == 80
  /\ Nvapi.recommendation
       (Js.run (Nvapi.generateLandAnalysisResponse noLocation
                  "Is this a good area to invest in?" aBuyer)
               justBelowEighty Js.start) = "hold"%string.
Proof. repeat split. Qed.

(** ** The state monad, step by step *)
Section Stepping.
Import Js.

Lemma bind_eq {A B} (m : M A) (k : A -> M B) (w : World) (c : Cursor) :
  bind m k w c = k (fst (m w c)) w (snd (m w c)).
Proof.
  unfold bind. destruct (m w c) as [a c']. reflexivity.
Qed.

End Stepping.

(** ** Rounding *)
Section Rounding.
Import Js.

Lemma pow10_pos (d : nat) : 0 < inject_Z (pow10 d).
Proof.
  unfold pow10. rewrite <- (Zlt_Qlt 0). apply Z.pow_pos_nonneg; lia.
Qed.

Lemma Qfloor_half_between (a b : Z) (y : Q) :
  inject_Z a <= y -> y <= inject_Z b ->
  (a <= Qfloor (y + 0.5) <= b)%Z.
Proof.
  intros Ha Hb. split.
  - rewrite <- (Qfloor_Z a). apply Qfloor_resp_le. lra.
  - assert (Hlt : inject_Z (Qfloor (y + 0.5)) < inject_Z (b + 1)).
    { apply Qle_lt_trans with (y + 0.5); [apply Qfloor_le|].
      rewrite inject_Z_plus. change (inject_Z 1) with 1. lra. }
    rewrite <- Zlt_Qlt in Hlt. lia.
Qed.

(** On a non-negative number [toFixed d] stays between any two multiples
    of 10^-d that enclose it. *)
Lemma toFixed_between (d : nat) (a b : Z) (x : Q) :
  0 <= x ->
  inject_Z a <= x * inject_Z (pow10 d) ->
  x * inject_Z (pow10 d) <= inject_Z b ->
  inject_Z a / inject_Z (pow10 d) <= toFixed d x
  /\ toFixed d x <= inject_Z b / inject_Z (pow10 d).
Proof.
  intros Hx Ha Hb. unfold toFixed.
  destruct (Qlt_le_dec x 0) as [Hneg | _]; [lra|].
  destruct (Qfloor_half_between a b _ Ha Hb) as [H1 H2].
  pose proof (pow10_pos d) as Hpos.
  rewrite Zle_Qle in H1, H2.
  split; apply Qmult_le_compat_r; try assumption;
    apply Qlt_le_weak, Qinv_lt_0_compat, Hpos.
Qed.

Lemma toFixed_comp (d : nat) (x y : Q) :
  x == y -> toFixed d x == toFixed d y.
Proof.
  intros E. unfold toFixed.
  destruct (Qlt_le_dec x 0), (Qlt_le_dec y 0); try lra.
  - rewrite (Qfloor_comp (- x * inject_Z (pow10 d) + 0.5)
                         (- y * inject_Z (pow10 d) + 0.5));
      [reflexivity | rewrite E; reflexivity].
  - rewrite (Qfloor_comp (x * inject_Z (pow10 d) + 0.5)
                         (y * inject_Z (pow10 d) + 0.5));
      [reflexivity | rewrite E; reflexivity].
Qed.

End Rounding.

(** ** NVAPIService *)
Section NvapiFacts.
Import Js Nvapi.




Lemma drawnOverallScore_range (w : World) (c : Cursor) :
  unit_draws w -> 60 <= drawnOverallScore w c /\ drawnOverallScore w c <= 100.
Proof.
  intros Hw. unfold drawnOverallScore.
  destruct (Hw (rnd c)). lra.
Qed.

Variable extractLocationFromMessage : string -> option string.

Lemma landAnalysis_fields (message : string) (context : ConversationContext)
    (w : World) (c : Cursor) :
  let resp :=
    run (generateLandAnalysisResponse extractLocationFromMessage
           message context) w c in
  recommendation resp = verdict_of (drawnOverallScore w c)
  /\ overallScore resp = toFixed 1 (drawnOverallScore w c).
Proof.
  unfold generateLandAnalysisResponse, drawnOverallScore, run.
  rewrite !bind_eq. split; reflexivity.
Qed.

(** The score the response reports stays within [60, 100]. *)
Lemma reported_overallScore_range (message : string)
    (context : ConversationContext) (w : World) (c : Cursor) :
  unit_draws w ->
  let resp :=
    run (generateLandAnalysisResponse extractLocationFromMessage
           message context) w c in
  60 <= overallScore resp /\ overallScore resp <= 100.
Proof.
  intros Hw resp.
  destruct (landAnalysis_fields message context w c) as [_ Hscore].
  fold resp in Hscore. rewrite Hscore.
  destruct (drawnOverallScore_range w c Hw) as [Hlo Hhi].
  destruct (toFixed_between 1 600 1000 (drawnOverallScore w c))
    as [H1 H2].
  - lra.
  - change (inject_Z (pow10 1)) with 10. change (inject_Z 600) with 600.
    lra.
  - change (inject_Z (pow10 1)) with 10. change (inject_Z 1000) with 1000.
    lra.
  - assert (E1 : inject_Z 600 / inject_Z (pow10 1) == 60) by reflexivity.
    assert (E2 : inject_Z 1000 / inject_Z (pow10 1) == 100) by reflexivity.
    rewrite E1 in H1. rewrite E2 in H2. split; assumption.
Qed.

End NvapiFacts.

(** C9. [calculateBaseValue] does not depend on the address: two inputs
    that agree on sqft, bedrooms, bathrooms and yearBuilt get equal base
    values, whatever their addresses (the per-location base price is looked
    up and dropped). *)
Theorem C9_calculateBaseValue_ignores_address :
  forall p1 p2 : Nvapi.PropertyData,
    Nvapi.sqft p1 == Nvapi.sqft p2 ->
    Nvapi.bedrooms p1 == Nvapi.bedrooms p2 ->
    Nvapi.bathrooms p1 == Nvapi.bathrooms p2 ->
    Nvapi.yearBuilt p1 == Nvapi.yearBuilt p2 ->
    Nvapi.calculateBaseValue p1 == Nvapi.calculateBaseValue p2.
Proof.
  intros p1 p2 Hs Hb Ha Hy.
  unfold Nvapi.calculateBaseValue, Js.Math_max. cbv zeta.
  rewrite Hs, Hb, Ha, Hy. reflexivity.
Qed.

Lemma C9_witness :
  Nvapi.getBasePriceForLocation (Nvapi.address chicagoHome)
  <> Nvapi.getBasePriceForLocation (Nvapi.address evanstonHome)
  /\ Nvapi.calculateBaseValue chicagoHome
     == Nvapi.calculateBaseValue evanstonHome.
Proof.
  split.
  - vm_compute. discriminate.
  - apply (C9_calculateBaseValue_ignores_address chicagoHome evanstonHome);
      reflexivity.
Defined.

Lemma world_of_unit (ds : list Q) :
  Forall (fun r => 0 <= r /\ r < 1) ds -> Js.unit_draws (world_of ds).
Proof.
  intros Hds n. cbn [world_of Js.draws].
  revert n. induction Hds as [| r ds Hr _ IH]; intros [| n]; cbn;
    try lra; try assumption.
  apply IH.
Qed.

Lemma calm_unit : Js.unit_draws calm.
Proof. apply world_of_unit. constructor. Qed.

Lemma even_odds_unit : Js.unit_draws even_odds.
Proof. intros n. cbn. lra. Qed.




(** C8. Every analysis response ([LandAnalysisResponse]) carries a verdict
    that is one of exactly the three values buy, hold and avoid. *)
Theorem C8_verdict_is_buy_hold_or_avoid :
  forall (extract : string -> option string) (message : string)
         (context : Nvapi.ConversationContext)
         (w : Js.World) (c : Js.Cursor),
    let resp :=
      Js.run (Nvapi.generateLandAnalysisResponse extract message context)
             w c in
    Nvapi.recommendation resp = "buy"%string
    \/ Nvapi.recommendation resp = "hold"%string
    \/ Nvapi.recommendation resp = "avoid"%string.
Proof.
  intros extract message context w c resp.
  destruct (landAnalysis_fields extract message context w c) as [Hrec _].
  fold resp in Hrec. rewrite Hrec.
  unfold Nvapi.verdict_of.
  destruct (Qle_bool 80 _); [now left|].
  destruct (Qle_bool 65 _); [right; now left | right; now right].
Qed.

(** ** Valuation *)
Section ValuationFacts.
Import Js.

(** The fields of the valuation mock, as functions of the draws the call
    consumes: the second, third and fourth draw from its cursor. *)
Lemma valuation_fields (data : ValuationPage.PropertyValuationForm)
    (w : World) (c : Cursor) :
  let r := run (ValuationPage.mockResult data) w c in
  ValuationPage.predicted_value r = 275000 + draws w (1 + rnd c) * 100000
  /\ ValuationPage.value_uncertainty r = 15000 + draws w (2 + rnd c) * 10000
  /\ ValuationPage.confidence_score r = 0.85 + draws w (3 + rnd c) * 0.1.
Proof. cbn. repeat split. Qed.

Lemma simulated_fields (p : Nvapi.PropertyData) (w : World) (c : Cursor) :
  let v := run (Nvapi.simulatePropertyValuation p) w c in
  Nvapi.estimatedValue v = Math_round (Nvapi.calculateBaseValue p)
  /\ Nvapi.confidence v = toFixed 2 (draws w (rnd c) * 0.3 + 0.7).
Proof.
  unfold Nvapi.simulatePropertyValuation, run.
  rewrite !bind_eq. split; reflexivity.
Qed.

Lemma comprehensive_valuation_fields
    (data : ComprehensivePage.ComprehensiveAnalysisForm)
    (w : World) (c : Cursor) :
  let v :=
    ComprehensivePage.property_valuation
      (run (ComprehensivePage.mockResult data) w c) in
  ComprehensivePage.value_uncertainty v
    = 15000 + draws w (1 + rnd c) * 10000
  /\ ComprehensivePage.confidence_score v
    = 0.85 + draws w (2 + rnd c) * 0.1.
Proof.
  unfold ComprehensivePage.mockResult, run.
  rewrite !bind_eq. split; reflexivity.
Qed.

End ValuationFacts.

(** C7. For every valuation input the returned value_uncertainty is
    non-negative and the returned confidence lies in [0, 1]: on the
    valuation page, in the valuation block of the comprehensive page, and
    in the confidence of the simulated service (which carries no
    uncertainty field). *)
Theorem C7_uncertainty_nonnegative_confidence_in_unit :
  forall (data : ValuationPage.PropertyValuationForm)
         (cdata : ComprehensivePage.ComprehensiveAnalysisForm)
         (p : Nvapi.PropertyData) (w : Js.World) (c : Js.Cursor),
    Js.unit_draws w ->
    let r := Js.run (ValuationPage.mockResult data) w c in
    let cv :=
      ComprehensivePage.property_valuation
        (Js.run (ComprehensivePage.mockResult cdata) w c) in
    let v := Js.run (Nvapi.simulatePropertyValuation p) w c in
    (0 <= ValuationPage.value_uncertainty r
     /\ 0 <= ValuationPage.confidence_score r
     /\ ValuationPage.confidence_score r <= 1)
    /\ (0 <= ComprehensivePage.value_uncertainty cv
        /\ 0 <= ComprehensivePage.confidence_score cv
        /\ ComprehensivePage.confidence_score cv <= 1)
    /\ (0 <= Nvapi.confidence v /\ Nvapi.confidence v <= 1).
Proof.
  intros data cdata p w c Hw r cv v.
  destruct (valuation_fields data w c) as (_ & Hu & Hc).
  destruct (comprehensive_valuation_fields cdata w c) as (Hcu & Hcc).
  destruct (simulated_fields p w c) as (_ & Hv).
  fold r in Hu, Hc. fold cv in Hcu, Hcc. fold v in Hv.
  rewrite Hu, Hc, Hcu, Hcc, Hv.
  pose proof (Hw (Js.rnd c)) as H0.
  pose proof (Hw (1 + Js.rnd c)%nat) as H1.
  pose proof (Hw (2 + Js.rnd c)%nat) as H2.
  pose proof (Hw (3 + Js.rnd c)%nat) as H3.
  split; [lra|]. split; [lra|].
  destruct (toFixed_between 2 70 100 (Js.draws w (Js.rnd c) * 0.3 + 0.7))
    as [Hlo Hhi].
  - lra.
  - change (inject_Z (Js.pow10 2)) with 100. change (inject_Z 70) with 70. lra.
  - change (inject_Z (Js.pow10 2)) with 100. change (inject_Z 100) with 100.
    lra.
  - assert (E70 : inject_Z 70 / inject_Z (Js.pow10 2) == 0.7)
      by reflexivity.
    assert (E100 : inject_Z 100 / inject_Z (Js.pow10 2) == 1)
      by reflexivity.
    rewrite E70 in Hlo. rewrite E100 in Hhi. lra.
Qed.

Lemma C7_witness :
  Js.unit_draws even_odds
  /\ 0 <= ValuationPage.value_uncertainty
            (Js.run (ValuationPage.mockResult aValuationForm)
                    even_odds Js.start)
  /\ Nvapi.confidence
       (Js.run (Nvapi.simulatePropertyValuation chicagoHome)
               even_odds Js.start) <= 1.
Proof.
  assert (Hw : Js.unit_draws even_odds) by exact even_odds_unit.
  split; [exact Hw|].
  pose proof (C7_uncertainty_nonnegative_confidence_in_unit
                aValuationForm aComprehensiveForm chicagoHome
                even_odds Js.start Hw) as H.
  cbv zeta in H.
  destruct H as ((Hu & _) & _ & (_ & Hc)).
  split; [exact Hu | exact Hc].
Defined.

Lemma valuation_onSubmit_stores (data : ValuationPage.PropertyValuationForm)
    (st : ValuationPage.PageState) (w : Js.World) (c : Js.Cursor) :
  Ui.result (Js.run (ValuationPage.onSubmit data st) w c)
  = Some (Js.run (ValuationPage.mockResult data) w c).
Proof. reflexivity. Qed.

(** C1, as stated, fails: the same input submitted twice in a row gets two
    different predicted values, 275000 and then 325000. *)
Lemma C1_counterexample :
  ~ (ValuationPage.predicted_value (fst firstCall)
       == ValuationPage.predicted_value (fst secondCall)
     /\ ValuationPage.value_uncertainty (fst firstCall)
          == ValuationPage.value_uncertainty (fst secondCall)
     /\ ValuationPage.confidence_score (fst firstCall)
          == ValuationPage.confidence_score (fst secondCall)).
Proof.
  intros [H _]. vm_compute in H. discriminate.
Qed.

(** C1, amended.  Two calls of the valuation mock return the same
    predicted_value, value_uncertainty and confidence_score whenever they
    consume the same three draws, whatever the two inputs: each field is
    computed from one call-time draw alone (275000 + 100000 r,
    15000 + 10000 r and 0.85 + 0.1 r), so calls that consume different
    draws can differ, as two calls in a row do.  In the simulated service
    the estimated value is the same for every call on the same property,
    and the confidence is the same whenever the first draw is. *)
Theorem C1_valuation_fixed_by_its_draws :
  forall (d1 d2 : ValuationPage.PropertyValuationForm)
         (p : Nvapi.PropertyData)
         (w1 w2 : Js.World) (c1 c2 : Js.Cursor),
    let r1 := Js.run (ValuationPage.mockResult d1) w1 c1 in
    let r2 := Js.run (ValuationPage.mockResult d2) w2 c2 in
    let v1 := Js.run (Nvapi.simulatePropertyValuation p) w1 c1 in
    let v2 := Js.run (Nvapi.simulatePropertyValuation p) w2 c2 in
    (ValuationPage.predicted_value r1
     = 275000 + Js.draws w1 (1 + Js.rnd c1) * 100000
     /\ ValuationPage.value_uncertainty r1
        = 15000 + Js.draws w1 (2 + Js.rnd c1) * 10000
     /\ ValuationPage.confidence_score r1
        = 0.85 + Js.draws w1 (3 + Js.rnd c1) * 0.1)
    /\ (Js.draws w1 (1 + Js.rnd c1) == Js.draws w2 (1 + Js.rnd c2) ->
        ValuationPage.predicted_value r1 == ValuationPage.predicted_value r2)
    /\ (Js.draws w1 (2 + Js.rnd c1) == Js.draws w2 (2 + Js.rnd c2) ->
        ValuationPage.value_uncertainty r1
        == ValuationPage.value_uncertainty r2)
    /\ (Js.draws w1 (3 + Js.rnd c1) == Js.draws w2 (3 + Js.rnd c2) ->
        ValuationPage.confidence_score r1
        == ValuationPage.confidence_score r2)
    /\ Nvapi.estimatedValue v1 = Nvapi.estimatedValue v2
    /\ (Js.draws w1 (Js.rnd c1) == Js.draws w2 (Js.rnd c2) ->
        Nvapi.confidence v1 == Nvapi.confidence v2).
Proof.
  intros d1 d2 p w1 w2 c1 c2 r1 r2 v1 v2.
  destruct (valuation_fields d1 w1 c1) as (Hp1 & Hu1 & Hc1).
  destruct (valuation_fields d2 w2 c2) as (Hp2 & Hu2 & Hc2).
  destruct (simulated_fields p w1 c1) as (He1 & Hv1).
  destruct (simulated_fields p w2 c2) as (He2 & Hv2).
  fold r1 in Hp1, Hu1, Hc1. fold r2 in Hp2, Hu2, Hc2.
  fold v1 in He1, Hv1. fold v2 in He2, Hv2.
  split; [split; [exact Hp1 | split; [exact Hu1 | exact Hc1]]|].
  rewrite Hp1, Hp2, Hu1, Hu2, Hc1, Hc2, He1, He2, Hv1, Hv2.
  split; [intros; lra|].
  split; [intros; lra|].
  split; [intros; lra|].
  split; [reflexivity|].
  intros H0. apply toFixed_comp. rewrite H0. reflexivity.
Qed.

Lemma C1_witness :
  Js.draws even_odds (Js.rnd Js.start)
  == Js.draws even_odds (Js.rnd (Js.mkCursor 4 0))
  /\ Nvapi.confidence
       (Js.run (Nvapi.simulatePropertyValuation chicagoHome)
               even_odds Js.start)
     == Nvapi.confidence
          (Js.run (Nvapi.simulatePropertyValuation chicagoHome)
                  even_odds (Js.mkCursor 4 0)).
Proof.
  assert (Hsame : Js.draws even_odds (Js.rnd Js.start)
                  == Js.draws even_odds (Js.rnd (Js.mkCursor 4 0)))
    by reflexivity.
  split; [exact Hsame|].
  pose proof (C1_valuation_fixed_by_its_draws
                aValuationForm ValuationPage.defaultValues chicagoHome
                even_odds even_odds Js.start (Js.mkCursor 4 0)) as H.
  cbv zeta in H.
  destruct H as (_ & _ & _ & _ & _ & Hconf).
  exact (Hconf Hsame).
Defined.

(** C3, as stated, fails: on the default form the base value plus the
    listed attributions is 266500 against a final value of 275000, a gap
    of 8500 where the tolerance allows 275. *)
Lemma C3_counterexample :
  match ValuationPage.explanation
          (Js.run (ValuationPage.mockResult ValuationPage.defaultValues)
                  calm Js.start) with
  | Some e => ~ ValuationPage.reconciles e
  | None => False
  end.
Proof.
  cbn. unfold ValuationPage.reconciles. intros H.
  vm_compute in H. apply H. reflexivity.
Qed.

(** C3, amended.  Every valuation explanation has base value 192500 and
    lists attributions that bring it to 266500, a fixed 8500 short of its
    final value 275000 (and at least as far from the predicted_value of
    the same result): the listed top features do not reconcile the two. *)
Theorem C3_listed_attributions_stop_short :
  forall (data : ValuationPage.PropertyValuationForm)
         (w : Js.World) (c : Js.Cursor),
    let r := Js.run (ValuationPage.mockResult data) w c in
    exists e,
      ValuationPage.explanation r = Some e
      /\ ValuationPage.listed_total e == 266500
      /\ ValuationPage.prediction_value e == 275000
      /\ ValuationPage.prediction_value e - ValuationPage.listed_total e
         == 8500
      /\ ValuationPage.predicted_value r - ValuationPage.listed_total e
         == 8500 + Js.draws w (1 + Js.rnd c) * 100000
      /\ ~ ValuationPage.reconciles e.
Proof.
  intros data w c r.
  eexists. split; [reflexivity|].
  unfold ValuationPage.reconciles, ValuationPage.listed_total.
  cbn -[Qplus Qmult Qminus Qabs Qle].
  split; [reflexivity|].
  split; [reflexivity|].
  split; [reflexivity|].
  split; [ring|].
  intros H. vm_compute in H. apply H. reflexivity.
Qed.

(** ** Beneficiary scoring *)
Section ScoringFacts.
Import Js.

(** The scores of the scoring mock, as functions of the draws the call
    consumes. *)
Lemma scoring_fields (data : ScoringPage.BeneficiaryScoringForm)
    (w : World) (c : Cursor) :
  let r := run (ScoringPage.mockResult data) w c in
  ScoringPage.overall_score r = 65 + draws w (1 + rnd c) * 30
  /\ ScoringPage.value_score r = 70 + draws w (2 + rnd c) * 25
  /\ ScoringPage.school_score r = 80 + draws w (3 + rnd c) * 20
  /\ ScoringPage.safety_score r = 60 + draws w (4 + rnd c) * 30
  /\ ScoringPage.environmental_score r = 85 + draws w (5 + rnd c) * 15
  /\ ScoringPage.accessibility_score r = 75 + draws w (6 + rnd c) * 20
  /\ ScoringPage.scoring_weights r = ScoringPage.custom_weights data.
Proof. cbn. repeat split. Qed.

Lemma comprehensive_scoring_fields
    (data : ComprehensivePage.ComprehensiveAnalysisForm)
    (w : World) (c : Cursor) :
  let b :=
    ComprehensivePage.beneficiary_score
      (run (ComprehensivePage.mockResult data) w c) in
  ComprehensivePage.overall_score b = 65 + draws w (3 + rnd c) * 30
  /\ ComprehensivePage.value_score b = 70 + draws w (4 + rnd c) * 25
  /\ ComprehensivePage.school_score b = 80 + draws w (5 + rnd c) * 20
  /\ ComprehensivePage.safety_score b = 60 + draws w (6 + rnd c) * 30
  /\ ComprehensivePage.environmental_score b
     = 85 + draws w (7 + rnd c) * 15
  /\ ComprehensivePage.accessibility_score b
     = 75 + draws w (8 + rnd c) * 20.
Proof.
  unfold ComprehensivePage.mockResult, run.
  rewrite !bind_eq. repeat split.
Qed.


Lemma with_draw_at (w : World) (n : nat) (r : Q) :
  draws (with_draw w n r) n = r.
Proof. cbn. now rewrite Nat.eqb_refl. Qed.

Lemma with_draw_off (w : World) (n k : nat) (r : Q) :
  k <> n -> draws (with_draw w n r) k = draws w k.
Proof.
  intros Hk. cbn. destruct (Nat.eqb_spec k n); [contradiction | reflexivity].
Qed.

Lemma with_draw_unit (w : World) (n : nat) (r : Q) :
  unit_draws w -> 0 <= r -> r < 1 -> unit_draws (with_draw w n r).
Proof.
  intros Hw H0 H1 k. cbn.
  destruct (Nat.eqb k n); [split; assumption | apply Hw].
Qed.

Lemma calm_draws (k : nat) : draws calm k = 0.
Proof. cbn. destruct k; reflexivity. Qed.

(** A weighted mean of five scores that are at most 85 is at most 85. *)
Lemma weighted_mean_le (a b c d e v s k n p : Q) :
  a <= 85 -> b <= 85 -> c <= 85 -> d <= 85 -> e <= 85 ->
  0 <= v -> 0 <= s -> 0 <= k -> 0 <= n -> 0 <= p ->
  0 < v + s + k + n + p ->
  (a * v + b * s + c * k + d * n + e * p) / (v + s + k + n + p) <= 85.
Proof.
  intros. apply Qle_shift_div_r; [assumption | nra].
Qed.



End ScoringFacts.

(** C2, as stated, fails: with the default weights and every draw 0 the
    overall score is 65, while the weighted normalized sum of the five
    component scores (70, 80, 60, 85, 75) is 2510/34. *)
Lemma C2_counterexample :
  ~ ScoringPage.overall_score calmScore
    == ScoringPage.weighted_normalized_sum calmScore.
Proof.
  intros H. vm_compute in H. discriminate.
Qed.

(** C2, amended.  For every weight vector the overall score of the
    beneficiary mock lies in [65, 95], so in [0, 100], and each of the
    five component scores lies in [0, 100].  The overall score is its own
    draw, 65 + 30 r: it is the same whatever weights are submitted, and it
    is not the normalized weighted sum of the component scores: for any
    non-negative weights that are not all zero, when its draw is 0.9 and
    the other draws are 0 it is 92 while the weighted sum is at most 85.
    The same holds of the beneficiary block of the comprehensive page,
    for any such weights. *)
Theorem C2_overall_score_is_its_own_draw :
  forall (data data' : ScoringPage.BeneficiaryScoringForm)
         (cdata : ComprehensivePage.ComprehensiveAnalysisForm)
         (w : Js.World) (c : Js.Cursor),
    Js.unit_draws w ->
    let r := Js.run (ScoringPage.mockResult data) w c in
    let b :=
      ComprehensivePage.beneficiary_score
        (Js.run (ComprehensivePage.mockResult cdata) w c) in
    let wt := ScoringPage.custom_weights data in
    let peak := Js.run (ScoringPage.mockResult data) (overallOnly c) c in
    let cpeak :=
      ComprehensivePage.beneficiary_score
        (Js.run (ComprehensivePage.mockResult cdata)
                (overallOnlyComprehensive c) c) in
    (ScoringPage.overall_score r = 65 + Js.draws w (1 + Js.rnd c) * 30
     /\ 65 <= ScoringPage.overall_score r
     /\ ScoringPage.overall_score r <= 95
     /\ (0 <= ScoringPage.value_score r
         /\ ScoringPage.value_score r <= 100)
     /\ (0 <= ScoringPage.school_score r
         /\ ScoringPage.school_score r <= 100)
     /\ (0 <= ScoringPage.safety_score r
         /\ ScoringPage.safety_score r <= 100)
     /\ (0 <= ScoringPage.environmental_score r
         /\ ScoringPage.environmental_score r <= 100)
     /\ (0 <= ScoringPage.accessibility_score r
         /\ ScoringPage.accessibility_score r <= 100))
    /\ (ComprehensivePage.overall_score b
        = 65 + Js.draws w (3 + Js.rnd c) * 30
        /\ 65 <= ComprehensivePage.overall_score b
        /\ ComprehensivePage.overall_score b <= 95)
    /\ ScoringPage.overall_score
         (Js.run (ScoringPage.mockResult data') w c)
       = ScoringPage.overall_score r
    /\ (0 <= ScoringPage.value wt -> 0 <= ScoringPage.school wt ->
        0 <= ScoringPage.crime_inv wt -> 0 <= ScoringPage.env_inv wt ->
        0 <= ScoringPage.employer_proximity wt ->
        0 < ScoringPage.value wt + ScoringPage.school wt
            + ScoringPage.crime_inv wt + ScoringPage.env_inv wt
            + ScoringPage.employer_proximity wt ->
        (Js.unit_draws (overallOnly c)
         /\ ScoringPage.overall_score peak == 92
         /\ ScoringPage.weighted_normalized_sum peak <= 85
         /\ ScoringPage.weighted_normalized_sum peak
            < ScoringPage.overall_score peak)
        /\ (Js.unit_draws (overallOnlyComprehensive c)
            /\ ComprehensivePage.overall_score cpeak == 92
            /\ ComprehensivePage.weighted_normalized_sum wt cpeak <= 85
            /\ ComprehensivePage.weighted_normalized_sum wt cpeak
               < ComprehensivePage.overall_score cpeak)).
Proof.
  intros data data' cdata w c Hw r b wt peak cpeak.
  destruct (scoring_fields data w c) as (Ho & Hv & Hs & Hf & He & Ha & _).
  destruct (scoring_fields data' w c) as (Ho' & _).
  destruct (comprehensive_scoring_fields cdata w c) as (Hco & _).
  fold r in Ho, Hv, Hs, Hf, He, Ha. fold b in Hco.
  split; [|split; [|split]].
  - rewrite Ho, Hv, Hs, Hf, He, Ha.
    pose proof (Hw (1 + Js.rnd c)%nat).
    pose proof (Hw (2 + Js.rnd c)%nat).
    pose proof (Hw (3 + Js.rnd c)%nat).
    pose proof (Hw (4 + Js.rnd c)%nat).
    pose proof (Hw (5 + Js.rnd c)%nat).
    pose proof (Hw (6 + Js.rnd c)%nat).
    repeat split; try reflexivity; lra.
  - rewrite Hco. pose proof (Hw (3 + Js.rnd c)%nat).
    repeat split; try reflexivity; lra.
  - rewrite Ho', Ho. reflexivity.
  - intros Pv Ps Pc Pe Pp Psum.
    assert (Hunit : forall n, Js.unit_draws (Js.with_draw calm n 0.9)).
    { intros n. apply with_draw_unit; [exact calm_unit | lra | lra]. }
    assert (Hoff : forall n k, k <> n ->
               Js.draws (Js.with_draw calm n 0.9) k = 0).
    { intros n k Hk. rewrite with_draw_off by exact Hk. apply calm_draws. }
    split.
    + destruct (scoring_fields data (overallOnly c) c)
        as (Po & Pvs & Pss & Pfs & Pes & Pas & Pw).
      fold peak in Po, Pvs, Pss, Pfs, Pes, Pas, Pw.
      unfold overallOnly in Po, Pvs, Pss, Pfs, Pes, Pas.
      rewrite with_draw_at in Po.
      rewrite Hoff in Pvs, Pss, Pfs, Pes, Pas by lia.
      assert (Hsum : ScoringPage.weighted_normalized_sum peak <= 85).
      { unfold ScoringPage.weighted_normalized_sum.
        rewrite Pvs, Pss, Pfs, Pes, Pas, Pw. fold wt.
        apply weighted_mean_le; try assumption; lra. }
      assert (H92 : ScoringPage.overall_score peak == 92)
        by (rewrite Po; reflexivity).
      split; [apply Hunit|]. split; [exact H92|].
      split; [exact Hsum | rewrite H92; lra].
    + destruct (comprehensive_scoring_fields cdata
                  (overallOnlyComprehensive c) c)
        as (Co & Cvs & Css & Cfs & Ces & Cas).
      fold cpeak in Co, Cvs, Css, Cfs, Ces, Cas.
      unfold overallOnlyComprehensive in Co, Cvs, Css, Cfs, Ces, Cas.
      rewrite with_draw_at in Co.
      rewrite Hoff in Cvs, Css, Cfs, Ces, Cas by lia.
      assert (Hsum : ComprehensivePage.weighted_normalized_sum wt cpeak
                     <= 85).
      { unfold ComprehensivePage.weighted_normalized_sum.
        rewrite Cvs, Css, Cfs, Ces, Cas.
        apply weighted_mean_le; try assumption; lra. }
      assert (H92 : ComprehensivePage.overall_score cpeak == 92)
        by (rewrite Co; reflexivity).
      split; [apply Hunit|]. split; [exact H92|].
      split; [exact Hsum | rewrite H92; lra].
Qed.

Lemma C2_witness :
  Js.unit_draws calm
  /\ 65 <= ScoringPage.overall_score
             (Js.run (ScoringPage.mockResult aScoringForm) calm Js.start)
  /\ ScoringPage.overall_score
       (Js.run (ScoringPage.mockResult aScoringForm) calm Js.start) <= 95
  /\ ScoringPage.weighted_normalized_sum
       (Js.run (ScoringPage.mockResult aScoringForm)
               (overallOnly Js.start) Js.start) <= 85.
Proof.
  assert (Hw : Js.unit_draws calm) by exact calm_unit.
  split; [exact Hw|].
  pose proof (C2_overall_score_is_its_own_draw
                aScoringForm lowestWeightsForm aComprehensiveForm
                calm Js.start Hw) as H.
  cbv zeta in H.
  destruct H as ((_ & Hlo & Hhi & _) & _ & _ & Hpeak).
  split; [exact Hlo|]. split; [exact Hhi|].
  assert (P : 0 <= 8 /\ 0 <= 6 /\ 0 <= 5 /\ 0 <= 7 /\ 0 < 8 + 8 + 6 + 5 + 7)
    by (repeat split; discriminate || reflexivity).
  destruct P as (P8 & P6 & P5 & P7 & Psum).
  exact (proj1 (proj2 (proj2 (proj1 (Hpeak P8 P8 P6 P5 P7 Psum))))).
Defined.




(** ** Arrays: [Array.from] and the stable sort *)
Section ArrayFacts.
Import Js.

Context {A : Type}.

Lemma Array_from_at_length (n : nat) (f : nat -> M A) (index : nat)
    (w : World) (c : Cursor) :
  List.length (fst (Array_from_at n f index w c)) = n.
Proof.
  revert index c. induction n as [| n IH]; intros index c; [reflexivity|].
  cbn [Array_from_at]. rewrite !bind_eq. cbn. now rewrite IH.
Qed.

(** Whatever holds of every element the callback can build holds of the
    whole array. *)
Lemma Array_from_at_Forall (P : A -> Prop) (n : nat) (f : nat -> M A)
    (w : World) :
  (forall i c, P (fst (f i w c))) ->
  forall index c, Forall P (fst (Array_from_at n f index w c)).
Proof.
  intros Hf. induction n as [| n IH]; intros index c; [constructor|].
  cbn [Array_from_at]. rewrite !bind_eq. cbn.
  constructor; [apply Hf | apply IH].
Qed.

(** The element at position [k] was built by the callback at index
    [index + k]. *)
Lemma Array_from_at_map (B : Type) (g : A -> B) (h : nat -> B) (n : nat)
    (f : nat -> M A) (w : World) :
  (forall i c, g (fst (f i w c)) = h i) ->
  forall index c,
    map g (fst (Array_from_at n f index w c)) = map h (seq index n).
Proof.
  intros Hf. induction n as [| n IH]; intros index c; [reflexivity|].
  cbn [Array_from_at]. rewrite !bind_eq. cbn.
  now rewrite Hf, IH.
Qed.

Variable compareFn : A -> A -> Q.

Lemma insert_Permutation (x : A) (l : list A) :
  Permutation (insert compareFn x l) (x :: l).
Proof.
  induction l as [| y l IH]; cbn; [reflexivity|].
  destruct (Qlt_le_dec 0 (compareFn x y)); [|reflexivity].
  rewrite IH. apply perm_swap.
Qed.

Lemma Array_sort_Permutation (l : list A) :
  Permutation (Array_sort compareFn l) l.
Proof.
  induction l as [| x l IH]; cbn; [reflexivity|].
  fold (Array_sort compareFn l).
  rewrite insert_Permutation. now constructor.
Qed.

Lemma Array_sort_length (l : list A) :
  List.length (Array_sort compareFn l) = List.length l.
Proof. apply Permutation_length, Array_sort_Permutation. Qed.

Lemma Array_sort_Forall (P : A -> Prop) (l : list A) :
  Forall P l -> Forall P (Array_sort compareFn l).
Proof.
  intros H. eapply Permutation_Forall; [|exact H].
  symmetry. apply Array_sort_Permutation.
Qed.

End ArrayFacts.

(** Sorting by a numeric key, descending: [(a, b) => key b - key a]. *)
Section SortByKeyDescending.
Import Js.

Context {A : Type}.
Variable key : A -> Q.

Let descending (a b : A) : Q := key b - key a.
Let no_smaller (a b : A) : Prop := key b <= key a.

Lemma insert_descending_Forall (x y : A) (l : list A) :
  no_smaller y x -> Forall (no_smaller y) l ->
  Forall (no_smaller y) (insert descending x l).
Proof.
  intros Hx Hl. eapply Permutation_Forall.
  - symmetry. apply insert_Permutation.
  - now constructor.
Qed.

Lemma insert_descending_sorted (x : A) (l : list A) :
  StronglySorted no_smaller l ->
  StronglySorted no_smaller (insert descending x l).
Proof.
  induction 1 as [| y l Hsorted IH Hy]; cbn.
  - repeat constructor.
  - destruct (Qlt_le_dec 0 (descending x y)) as [Hgt | Hle].
    + constructor; [exact IH|].
      apply insert_descending_Forall; [|exact Hy].
      unfold no_smaller, descending in *. lra.
    + assert (Hxy : no_smaller x y)
        by (unfold no_smaller, descending in *; lra).
      constructor; [now constructor|].
      constructor; [exact Hxy|].
      eapply Forall_impl; [|exact Hy].
      intros z Hz. unfold no_smaller in *. lra.
Qed.

Lemma Array_sort_descending_sorted (l : list A) :
  StronglySorted no_smaller (Array_sort descending l).
Proof.
  induction l as [| x l IH]; cbn; [constructor|].
  apply insert_descending_sorted, IH.
Qed.

(** Stability: the elements of any one key keep their relative order. *)
Lemma insert_descending_stable (k : Q) (x : A) (l : list A) :
  filter (fun a => Qeq_bool (key a) k) (insert descending x l)
  = filter (fun a => Qeq_bool (key a) k) (x :: l).
Proof.
  induction l as [| y l IH]; [reflexivity|].
  cbn [insert].
  destruct (Qlt_le_dec 0 (descending x y)) as [Hgt | Hle]; [|reflexivity].
  cbn [filter] in *. rewrite IH.
  destruct (Qeq_bool (key x) k) eqn:Ex, (Qeq_bool (key y) k) eqn:Ey;
    try reflexivity.
  apply Qeq_bool_iff in Ex, Ey. unfold descending in Hgt. lra.
Qed.

Lemma Array_sort_descending_stable (k : Q) (l : list A) :
  filter (fun a => Qeq_bool (key a) k) (Array_sort descending l)
  = filter (fun a => Qeq_bool (key a) k) l.
Proof.
  induction l as [| x l IH]; [reflexivity|].
  cbn [Array_sort fold_right]. fold (Array_sort descending l).
  rewrite insert_descending_stable. cbn [filter]. now rewrite IH.
Qed.

End SortByKeyDescending.

(** ** Recommendations *)
Section RecommendationFacts.
Import Js RecommendationsPage.

Lemma floor_of_scaled_draw (r : Q) (k : Z) :
  0 <= r -> r < 1 -> (0 < k)%Z ->
  (0 <= Math_floor (r * inject_Z k) <= k - 1)%Z.
Proof.
  intros H0 H1 Hk. unfold Math_floor.
  assert (Hq : 0 < inject_Z k) by (rewrite <- (Zlt_Qlt 0); exact Hk).
  split.
  - rewrite <- (Qfloor_Z 0). apply Qfloor_resp_le.
    change (inject_Z 0) with 0. nra.
  - assert (Hlt : inject_Z (Qfloor (r * inject_Z k)) < inject_Z k).
    { apply Qle_lt_trans with (r * inject_Z k); [apply Qfloor_le | nra]. }
    rewrite <- Zlt_Qlt in Hlt. lia.
Qed.

Lemma candidate_in_generated_ranges (data : RecommendationForm)
    (w : World) :
  unit_draws w ->
  forall index c,
    in_generated_ranges
      (recommended_property (fst (candidate data index w c))).
Proof.
  intros Hw index c. unfold in_generated_ranges.
  cbn -[Math_floor Qmult Qplus Z.add].
  destruct (Hw (S (rnd c))) as [Hv0 Hv1].
  destruct (Hw (S (S (rnd c)))) as [Hb0 Hb1].
  destruct (Hw (S (S (S (rnd c))))) as [Ha0 Ha1].
  destruct (Hw (S (S (S (S (rnd c)))))) as [Hs0 Hs1].
  pose proof (floor_of_scaled_draw _ 4 Hb0 Hb1 eq_refl) as Fb.
  pose proof (floor_of_scaled_draw _ 3 Ha0 Ha1 eq_refl) as Fa.
  pose proof (floor_of_scaled_draw _ 2000 Hs0 Hs1 eq_refl) as Fs.
  change (inject_Z 4) with 4 in Fb. change (inject_Z 3) with 3 in Fa.
  change (inject_Z 2000) with 2000 in Fs.
  repeat split; try lia; try lra.
Qed.

Lemma at_least_mono (b : option Q) (x y : Q) :
  at_least b x = true -> x <= y -> at_least b y = true.
Proof.
  destruct b as [b|]; cbn; [|reflexivity].
  rewrite !Qle_bool_iff. intros; lra.
Qed.

Lemma at_most_mono (b : option Q) (x y : Q) :
  at_most b x = true -> y <= x -> at_most b y = true.
Proof.
  destruct b as [b|]; cbn; [|reflexivity].
  rewrite !Qle_bool_iff. intros; lra.
Qed.

Lemma permissive_meets (p : Preferences) (c : RecommendedProperty) :
  permissive p -> in_generated_ranges c -> meets p c = true.
Proof.
  intros (P1 & P2 & P3 & P4 & P5 & P6 & P7 & P8 & P9)
         ((B1 & B2) & (A1 & A2) & (S1 & S2) & V1 & V2 & T).
  unfold meets. rewrite T, P7.
  rewrite Zle_Qle in B1, B2, A1, A2, S1, S2.
  rewrite (at_least_mono _ _ _ P1 B1), (at_most_mono _ _ _ P2 B2),
          (at_least_mono _ _ _ P3 A1), (at_most_mono _ _ _ P4 A2),
          (at_least_mono _ _ _ P5 V1),
          (at_most_mono _ _ _ P6 V2),
          (at_least_mono _ _ _ P8 S1), (at_most_mono _ _ _ P9 S2).
  reflexivity.
Qed.

Lemma mockResults_eq (data : RecommendationForm) (w : World) (c : Cursor) :
  run (mockResults data) w c
  = Array_sort bySimilarityDesc
      (fst (Array_from_at (ToLength (max_recommendations data))
                          (candidate data) 0 w c)).
Proof.
  unfold mockResults, run, Array_from. rewrite bind_eq. reflexivity.
Qed.

Lemma mockResults_length (data : RecommendationForm)
    (w : World) (c : Cursor) :
  List.length (run (mockResults data) w c)
  = ToLength (max_recommendations data).
Proof.
  rewrite mockResults_eq, Array_sort_length. apply Array_from_at_length.
Qed.

(** The results come out by similarity, highest first. *)
Lemma mockResults_similarity_non_increasing (data : RecommendationForm)
    (w : World) (c : Cursor) :
  similarity_non_increasing (run (mockResults data) w c).
Proof.
  rewrite mockResults_eq.
  apply (Array_sort_descending_sorted similarity_score).
Qed.

(** Candidates of equal similarity stay in generation order, that is by
    ascending [id]. *)
Lemma mockResults_ties_by_id (data : RecommendationForm)
    (w : World) (c : Cursor) (k : Q) :
  exists picked,
    map id (filter (fun r => Qeq_bool (similarity_score r) k)
                   (run (mockResults data) w c))
    = map (fun i => Z.of_nat i + 1)%Z picked
    /\ StronglySorted lt picked.
Proof.
  rewrite mockResults_eq.
  rewrite (Array_sort_descending_stable similarity_score).
  set (n := ToLength (max_recommendations data)).
  assert (Hgen : forall index c0,
             exists picked,
               map id (filter (fun r => Qeq_bool (similarity_score r) k)
                         (fst (Array_from_at n (candidate data) index w c0)))
               = map (fun i => Z.of_nat i + 1)%Z picked
               /\ StronglySorted lt picked
               /\ Forall (fun i => index <= i)%nat picked).
  { induction n as [| n IH]; intros index c0.
    - exists []. repeat constructor.
    - cbn [Array_from_at]. rewrite !bind_eq.
      destruct (IH (S index) (snd (candidate data index w c0)))
        as (picked & Hmap & Hsorted & Hfrom).
      cbn [ret fst filter].
      destruct (Qeq_bool _ k).
      + exists (index :: picked). cbn [map]. rewrite Hmap.
        split; [reflexivity|]. split.
        * constructor; [exact Hsorted|].
          eapply Forall_impl; [|exact Hfrom]. intros; cbn in *; lia.
        * constructor; [lia|].
          eapply Forall_impl; [|exact Hfrom]. intros; cbn in *; lia.
      + exists picked. split; [exact Hmap|]. split; [exact Hsorted|].
        eapply Forall_impl; [|exact Hfrom]. intros; cbn in *; lia. }
  destruct (Hgen 0%nat c) as (picked & Hmap & Hsorted & _).
  exists picked. split; assumption.
Qed.

(** The rank positions are those of generation, carried through the
    sort: a rearrangement of 1, ..., n. *)
Lemma mockResults_ranks_rearranged (data : RecommendationForm)
    (w : World) (c : Cursor) :
  Permutation
    (map rank_position (run (mockResults data) w c))
    (map (fun i => Z.of_nat i + 1)%Z
         (seq 0 (ToLength (max_recommendations data)))).
Proof.
  rewrite mockResults_eq.
  rewrite (Permutation_map rank_position
             (Array_sort_Permutation bySimilarityDesc _)).
  rewrite (Array_from_at_map _ rank_position
             (fun i => Z.of_nat i + 1)%Z); [reflexivity|].
  intros i c0. reflexivity.
Qed.

(** [Array.from] throws exactly from a length of 2^32 on. *)
Lemma Array_from_throws_false (n : Q) :
  n < 4294967296 -> Array_from_throws n = false.
Proof.
  intros Hn. unfold Array_from_throws, ToLength.
  assert (H : inject_Z (Qfloor n) < inject_Z 4294967296)
    by (apply Qle_lt_trans with n; [apply Qfloor_le | exact Hn]).
  rewrite <- Zlt_Qlt in H.
  apply Z.leb_gt. change (2 ^ 32)%Z with 4294967296%Z.
  change (2 ^ 53 - 1)%Z with 9007199254740991%Z. lia.
Qed.

Lemma Array_from_throws_true (n : Q) :
  4294967296 <= n -> Array_from_throws n = true.
Proof.
  intros Hn. unfold Array_from_throws, ToLength.
  assert (H : (4294967296 <= Qfloor n)%Z).
  { rewrite <- (Qfloor_Z 4294967296). apply Qfloor_resp_le. exact Hn. }
  apply Z.leb_le. change (2 ^ 32)%Z with 4294967296%Z.
  change (2 ^ 53 - 1)%Z with 9007199254740991%Z. lia.
Qed.

(** Where [Array.from] returns, the page stores the sorted candidates and
    announces their number. *)
Lemma recommendations_onSubmit_stores (data : RecommendationForm)
    (st : PageState) (w : World) (c : Cursor) :
  Array_from_throws (max_recommendations data) = false ->
  let st' := run (onSubmit data st) w c in
  Ui.result st' = run (mockResults data) w c
  /\ Ui.loading st' = false
  /\ Ui.toasts st'
     = Ui.toast_success
         [ Lit "Found ";
           Num (inject_Z (Z.of_nat (List.length (Ui.result st'))));
           Lit " property recommendations!" ] :: Ui.toasts st.
Proof.
  intros Hok. unfold onSubmit, run. rewrite Hok, bind_eq.
  repeat split.
Qed.

(** Where it throws, the [catch] branch raises the error toast and the
    results on the page stay what they were. *)
Lemma recommendations_onSubmit_fails (data : RecommendationForm)
    (st : PageState) (w : World) (c : Cursor) :
  Array_from_throws (max_recommendations data) = true ->
  let st' := run (onSubmit data st) w c in
  Ui.result st' = Ui.result st
  /\ Ui.loading st' = false
  /\ Ui.toasts st'
     = Ui.toast_error
         [Lit "Failed to get property recommendations. Please try again."]
       :: Ui.toasts st
  /\ snd (onSubmit data st w c) = c.
Proof.
  intros Hthrows. unfold onSubmit, run. rewrite Hthrows.
  repeat split.
Qed.

End RecommendationFacts.

(** C4, on the code.  Five results are requested and the second candidate
    generated is the most similar one: it comes first in the result, by
    similarity, and still carries rank position 2; the ranks read
    2, 1, 3, 4, 5 in result order, so they neither start at 1 nor
    increase, although the similarities do not increase and the tie among
    the other four is resolved by ascending id. *)
Theorem C4_ranks_precede_the_sort :
  map RecommendationsPage.rank_position fiveResults = [2; 1; 3; 4; 5]%Z
  /\ map RecommendationsPage.id fiveResults = [2; 1; 3; 4; 5]%Z
  /\ RecommendationsPage.similarity_non_increasing fiveResults
  /\ ~ RecommendationsPage.ranked_from 1 fiveResults.
Proof.
  split; [vm_compute; reflexivity|].
  split; [vm_compute; reflexivity|].
  split; [apply mockResults_similarity_non_increasing|].
  intros H.
  assert (Hranks :
            map RecommendationsPage.rank_position fiveResults
            = [2; 1; 3; 4; 5]%Z)
    by (vm_compute; reflexivity).
  destruct fiveResults as [| r rest]; [discriminate Hranks|].
  cbn [map RecommendationsPage.ranked_from] in Hranks, H.
  destruct H as [H1 _].
  injection Hranks as Hr _. rewrite H1 in Hr. discriminate Hr.
Qed.

(** C5, as stated, fails: a request for at least four bedrooms gets back
    five candidates, the first with two bedrooms. *)
Lemma C5_counterexample :
  ~ Forall (fun r => RecommendationsPage.passes_filter fourBedsForm r = true)
      (Js.run (RecommendationsPage.mockResults fourBedsForm) calm Js.start).
Proof.
  intros H.
  assert (Hpass :
            map (RecommendationsPage.passes_filter fourBedsForm)
                (Js.run (RecommendationsPage.mockResults fourBedsForm)
                        calm Js.start)
            = [false; false; false; false; false])
    by (vm_compute; reflexivity).
  destruct (Js.run (RecommendationsPage.mockResults fourBedsForm)
                   calm Js.start) as [| r rest];
    [discriminate Hpass|].
  inversion H as [| ? ? Hr _]; subst.
  cbn [map] in Hpass. rewrite Hr in Hpass. discriminate Hpass.
Qed.

(** C5, amended.  For a request with a non-negative max_recommendations
    below 2^32 the recommender returns at most that many results, exactly
    ToLength(max_recommendations); from 2^32 on [Array.from] throws, the
    page raises its error toast and returns no result.  No preference
    filter is applied: every candidate is drawn from fixed ranges (2 to 5
    beds, 1 to 3 baths, 1000 to 2999 sqft, a value in [200000, 700000],
    residential) whatever the request says, so the results meet the
    request's preferences whenever these are no stricter than the ranges,
    as the form's defaults are. *)
Theorem C5_at_most_max_and_unfiltered :
  forall (data : RecommendationsPage.RecommendationForm)
         (st : RecommendationsPage.PageState)
         (w : Js.World) (c : Js.Cursor),
    Js.unit_draws w ->
    0 <= RecommendationsPage.max_recommendations data ->
    let st' := Js.run (RecommendationsPage.onSubmit data st) w c in
    (RecommendationsPage.max_recommendations data < 4294967296 ->
     let rs := Ui.result st' in
     rs = Js.run (RecommendationsPage.mockResults data) w c
     /\ List.length rs
        = Js.ToLength (RecommendationsPage.max_recommendations data)
     /\ inject_Z (Z.of_nat (List.length rs))
        <= RecommendationsPage.max_recommendations data
     /\ Forall (fun r => RecommendationsPage.in_generated_ranges
                           (RecommendationsPage.recommended_property r)) rs
     /\ (match RecommendationsPage.user_preferences data with
         | Some p => RecommendationsPage.permissive p
         | None => True
         end ->
         Forall (fun r => RecommendationsPage.passes_filter data r = true)
                rs))
    /\ (4294967296 <= RecommendationsPage.max_recommendations data ->
        Ui.result st' = Ui.result st
        /\ Ui.toasts st'
           = Ui.toast_error
               [Js.Lit "Failed to get property recommendations. Please try again."]
             :: Ui.toasts st).
Proof.
  intros data st w c Hw Hmax st'. split.
  - intros Hsmall rs.
    destruct (recommendations_onSubmit_stores data st w c
                (Array_from_throws_false _ Hsmall)) as (Hres & _).
    fold st' in Hres. fold rs in Hres.
    assert (Hlen : List.length rs
                   = Js.ToLength (RecommendationsPage.max_recommendations data))
      by (rewrite Hres; apply mockResults_length).
    assert (Hranges :
              Forall (fun r => RecommendationsPage.in_generated_ranges
                                 (RecommendationsPage.recommended_property r))
                     rs).
    { rewrite Hres, mockResults_eq. apply Array_sort_Forall.
      apply Array_from_at_Forall. intros i c0.
      apply candidate_in_generated_ranges, Hw. }
    split; [exact Hres|].
    split; [exact Hlen|]. split; [|split; [exact Hranges|]].
    + rewrite Hlen. unfold Js.ToLength.
      assert (H0 : (0 <= Qfloor (RecommendationsPage.max_recommendations
                                   data))%Z).
      { rewrite <- (Qfloor_Z 0). apply Qfloor_resp_le. exact Hmax. }
      rewrite Z2Nat.id by lia.
      apply Qle_trans
        with (inject_Z (Qfloor (RecommendationsPage.max_recommendations
                                  data)));
        [|apply Qfloor_le].
      rewrite <- Zle_Qle. lia.
    + intros Hperm. eapply Forall_impl; [|exact Hranges].
      intros r Hr. unfold RecommendationsPage.passes_filter.
      destruct (RecommendationsPage.user_preferences data) as [p|];
        [|reflexivity].
      apply permissive_meets; assumption.
  - intros Hbig.
    destruct (recommendations_onSubmit_fails data st w c
                (Array_from_throws_true _ Hbig)) as (Hres & _ & Htoast & _).
    split; [exact Hres | exact Htoast].
Qed.

Lemma C5_witness :
  Js.unit_draws secondIsBest
  /\ List.length
       (Ui.result
          (Js.run (RecommendationsPage.onSubmit fiveResultsForm
                     RecommendationsPage.initial) secondIsBest Js.start))
     = 5%nat
  /\ Forall (fun r =>
               RecommendationsPage.passes_filter fiveResultsForm r = true)
       (Ui.result
          (Js.run (RecommendationsPage.onSubmit fiveResultsForm
                     RecommendationsPage.initial) secondIsBest Js.start)).
Proof.
  assert (Hw : Js.unit_draws secondIsBest).
  { apply world_of_unit.
    repeat (constructor; [split; discriminate || reflexivity|]).
    constructor. }
  assert (Hmax : 0 <= RecommendationsPage.max_recommendations
                        fiveResultsForm) by discriminate.
  assert (Hsmall : RecommendationsPage.max_recommendations fiveResultsForm
                   < 4294967296) by reflexivity.
  split; [exact Hw|].
  pose proof (C5_at_most_max_and_unfiltered
                fiveResultsForm RecommendationsPage.initial
                secondIsBest Js.start Hw Hmax) as H.
  cbv zeta in H.
  destruct H as (H & _).
  destruct (H Hsmall) as (_ & Hlen & _ & _ & Hpass).
  split; [exact Hlen|].
  apply Hpass. cbn. repeat split.
Defined.


(** * Further properties of the code *)

(** ** Rounding, continued *)
Section MoreRounding.
Import Js.

Lemma Math_round_near (x : Q) :
  x - 0.5 < inject_Z (Math_round x) /\ inject_Z (Math_round x) <= x + 0.5.
Proof.
  unfold Math_round. split.
  - pose proof (Qlt_floor (x + 0.5)) as H.
    rewrite inject_Z_plus in H. change (inject_Z 1) with 1 in H. lra.
  - apply Qfloor_le.
Qed.

Lemma Math_round_between (a b : Z) (x : Q) :
  inject_Z a <= x -> x <= inject_Z b ->
  (a <= Math_round x <= b)%Z.
Proof. apply Qfloor_half_between. Qed.

(** Rounding to [d] decimals never crosses a multiple of 10^-d, on either
    side of zero. *)
Lemma toFixed_within (d : nat) (a b : Z) (x : Q) :
  inject_Z a <= x * inject_Z (pow10 d) ->
  x * inject_Z (pow10 d) <= inject_Z b ->
  inject_Z a / inject_Z (pow10 d) <= toFixed d x
  /\ toFixed d x <= inject_Z b / inject_Z (pow10 d).
Proof.
  intros Ha Hb. unfold toFixed.
  pose proof (pow10_pos d) as Hpos.
  assert (Hinv : 0 <= / inject_Z (pow10 d))
    by (apply Qlt_le_weak, Qinv_lt_0_compat, Hpos).
  destruct (Qlt_le_dec x 0) as [Hneg | Hnonneg].
  - destruct (Qfloor_half_between (- b) (- a) (- x * inject_Z (pow10 d)))
      as [H1 H2].
    + rewrite inject_Z_opp. lra.
    + rewrite inject_Z_opp. lra.
    + rewrite Zle_Qle in H1, H2. rewrite inject_Z_opp in H1, H2.
      set (n := inject_Z (Qfloor (- x * inject_Z (pow10 d) + 0.5))) in *.
      unfold Qdiv. split.
      * assert (H : inject_Z a * / inject_Z (pow10 d)
                    <= (- n) * / inject_Z (pow10 d))
          by (apply Qmult_le_compat_r; [lra | exact Hinv]).
        lra.
      * assert (H : (- n) * / inject_Z (pow10 d)
                    <= inject_Z b * / inject_Z (pow10 d))
          by (apply Qmult_le_compat_r; [lra | exact Hinv]).
        lra.
  - destruct (Qfloor_half_between a b _ Ha Hb) as [H1 H2].
    rewrite Zle_Qle in H1, H2.
    split; apply Qmult_le_compat_r; assumption.
Qed.

End MoreRounding.

(** ** Base prices and base values *)
Section BaseValueFacts.
Import Js Nvapi.

(** The size part of the base value, before the age adjustment. *)
Let sizeValue (p : PropertyData) : Q :=
  sqft p * 150 + bedrooms p * 15000 + bathrooms p * 10000.

Lemma calculateBaseValue_eq (p : PropertyData) :
  calculateBaseValue p
  = sizeValue p * Qmax 0 (1 - (2024 - yearBuilt p) * 0.005).
Proof. reflexivity. Qed.

End BaseValueFacts.

(** X1. For non-negative sqft, bedrooms and bathrooms the base value is
    never negative; for a home built in 2024 or earlier it is at most
    150 per sqft plus 15000 per bedroom plus 10000 per bathroom, and for one
    built in 1824 or earlier (an age of 200 years or more) it is 0
    whatever the size. *)
Theorem X1_base_value_bounds :
  forall p : Nvapi.PropertyData,
    0 <= Nvapi.sqft p -> 0 <= Nvapi.bedrooms p -> 0 <= Nvapi.bathrooms p ->
    0 <= Nvapi.calculateBaseValue p
    /\ (Nvapi.yearBuilt p <= 2024 ->
        Nvapi.calculateBaseValue p
        <= Nvapi.sqft p * 150 + Nvapi.bedrooms p * 15000
           + Nvapi.bathrooms p * 10000)
    /\ (Nvapi.yearBuilt p <= 1824 -> Nvapi.calculateBaseValue p == 0).
Proof.
  intros p Hs Hb Ha. rewrite calculateBaseValue_eq.
  set (size := Nvapi.sqft p * 150 + Nvapi.bedrooms p * 15000
               + Nvapi.bathrooms p * 10000).
  assert (Hsize : 0 <= size) by (unfold size; lra).
  set (adj := 1 - (2024 - Nvapi.yearBuilt p) * 0.005).
  destruct (Q.max_spec 0 adj) as [[Hlt Hmax] | [Hle Hmax]]; rewrite Hmax.
  - split; [nra|]. split; intros Hy; unfold adj in *; [nra | lra].
  - split; [lra|]. split; intros Hy; [nra | lra].
Qed.

Lemma X1_witness :
  Nvapi.yearBuilt oldMill <= 1824
  /\ Nvapi.calculateBaseValue oldMill == 0.
Proof.
  assert (Hy : Nvapi.yearBuilt oldMill <= 1824) by discriminate.
  split; [exact Hy|].
  refine (proj2 (proj2 (X1_base_value_bounds oldMill _ _ _)) Hy);
    discriminate.
Defined.

(** X2. A home that is at least as large (sqft, bedrooms, bathrooms) and
    at least as recent as another never gets the lower base value. *)
Theorem X2_base_value_monotone :
  forall p q : Nvapi.PropertyData,
    0 <= Nvapi.sqft p -> 0 <= Nvapi.bedrooms p -> 0 <= Nvapi.bathrooms p ->
    Nvapi.sqft p <= Nvapi.sqft q ->
    Nvapi.bedrooms p <= Nvapi.bedrooms q ->
    Nvapi.bathrooms p <= Nvapi.bathrooms q ->
    Nvapi.yearBuilt p <= Nvapi.yearBuilt q ->
    Nvapi.calculateBaseValue p <= Nvapi.calculateBaseValue q.
Proof.
  intros p q Hs Hb Ha Hsq Hbq Haq Hyq.
  rewrite !calculateBaseValue_eq.
  set (sp := Nvapi.sqft p * 150 + Nvapi.bedrooms p * 15000
             + Nvapi.bathrooms p * 10000).
  set (sq := Nvapi.sqft q * 150 + Nvapi.bedrooms q * 15000
             + Nvapi.bathrooms q * 10000).
  assert (H0 : 0 <= sp) by (unfold sp; lra).
  assert (H1 : sp <= sq) by (unfold sp, sq; lra).
  set (ap := Qmax 0 (1 - (2024 - Nvapi.yearBuilt p) * 0.005)).
  set (aq := Qmax 0 (1 - (2024 - Nvapi.yearBuilt q) * 0.005)).
  assert (Hap : 0 <= ap) by apply Q.le_max_l.
  assert (Hmono : ap <= aq) by (apply Q.max_le_compat_l; lra).
  apply Qle_trans with (sp * aq); [nra | nra].
Qed.

Lemma X2_witness :
  Nvapi.calculateBaseValue evanstonHome
  <= Nvapi.calculateBaseValue largerEvanstonHome.
Proof.
  apply X2_base_value_monotone; discriminate.
Defined.

Section BasePriceFacts.
Import Js Nvapi.

Lemma includes_toLowerCase_comma (s : string) :
  includes "," (toLowerCase s) = includes "," s.
Proof.
  induction s as [| a s IH]; [reflexivity|].
  cbn [toLowerCase includes]. rewrite IH. f_equal.
  destruct a as [[] [] [] [] [] [] [] []]; reflexivity.
Qed.

Lemma includes_replace_spaces_comma (b : bool) (s : string) :
  includes "," (replace_spaces b s) = includes "," s.
Proof.
  revert b. induction s as [| a s IH]; intros b; [reflexivity|].
  cbn [replace_spaces includes].
  destruct (is_space a) eqn:Hsp.
  - assert (Ha : Ascii.eqb a "," = false).
    { destruct a as [[] [] [] [] [] [] [] []]; try reflexivity;
        discriminate Hsp. }
    rewrite Ha. destruct b; cbn [includes orb]; apply IH.
  - cbn [includes]. now rewrite IH.
Qed.

(** The capitals that the names of [Object.prototype] contain, its
    all-lower-case names [constructor] and [__proto__] apart. *)
Let capitals : list ascii := ["G"; "S"; "O"; "P"; "I"; "L"]%char.

Lemma lower_is_no_capital (a u : ascii) :
  In u capitals -> Ascii.eqb (lower a) u = false.
Proof.
  intros Hu. cbn [capitals In] in Hu.
  destruct a as [[] [] [] [] [] [] [] []];
    decompose [or] Hu; subst; try contradiction; reflexivity.
Qed.

(** The key that [getBasePriceForLocation] looks up holds no capital. *)
Lemma key_has_no_capital (u : ascii) (s : string) (b : bool) :
  In u capitals -> includes u (replace_spaces b (toLowerCase s)) = false.
Proof.
  intros Hu. revert b. induction s as [| a s IH]; intros b; [reflexivity|].
  cbn [toLowerCase replace_spaces].
  destruct (is_space (lower a)) eqn:Hsp.
  - destruct b; [apply IH|].
    cbn [includes]. rewrite IH.
    cbn [capitals In] in Hu.
    decompose [or] Hu; subst; try contradiction; reflexivity.
  - cbn [includes]. now rewrite IH, lower_is_no_capital.
Qed.

(** So the only inherited members it can name are the two that are
    spelled in lower case. *)
Lemma lowercase_key_builtin (key : string) :
  (forall u, In u capitals -> includes u key = false) ->
  existsb (String.eqb key) Object_prototype
  = String.eqb key "constructor" || String.eqb key "__proto__".
Proof.
  intros Hkey.
  assert (Hne : forall (u : ascii) (name : string),
             In u capitals -> includes u name = true ->
             String.eqb key name = false).
  { intros u name Hu Hin.
    destruct (String.eqb_spec key name) as [-> | _]; [|reflexivity].
    rewrite (Hkey u Hu) in Hin. discriminate Hin. }
  unfold Object_prototype. cbn [existsb].
  rewrite (Hne "G"%char "__defineGetter__"%string),
          (Hne "S"%char "__defineSetter__"%string),
          (Hne "O"%char "hasOwnProperty"%string),
          (Hne "G"%char "__lookupGetter__"%string),
          (Hne "S"%char "__lookupSetter__"%string),
          (Hne "P"%char "isPrototypeOf"%string),
          (Hne "I"%char "propertyIsEnumerable"%string),
          (Hne "S"%char "toString"%string),
          (Hne "O"%char "valueOf"%string),
          (Hne "L"%char "toLocaleString"%string);
    try reflexivity; try (cbn; tauto).
  cbn [orb]. now rewrite !orb_false_r.
Qed.

(** What the lookup gives, by the key. *)
Lemma base_price_cases (location : string) :
  let key := replace_spaces false (toLowerCase location) in
  ((key = "constructor"%string \/ key = "__proto__"%string)
   /\ getBasePriceForLocation location = builtin key)
  \/ (key <> "constructor"%string /\ key <> "__proto__"%string
      /\ exists price,
           getBasePriceForLocation location = value price
           /\ In price [350000; 425000; 380000; 450000; 400000; 375000]).
Proof.
  intros key. unfold getBasePriceForLocation. fold key.
  unfold get, locationPrices. cbn [assoc].
  repeat match goal with
         | |- context [String.eqb ?k key] =>
             destruct (String.eqb_spec k key) as [E | _];
             [right; rewrite <- E;
              split; [discriminate|]; split; [discriminate|];
              eexists; split; [reflexivity | cbn; tauto]|]
         end.
  rewrite (lowercase_key_builtin key)
    by (intros u Hu; apply key_has_no_capital, Hu).
  destruct (String.eqb_spec key "constructor") as [E1 | N1].
  - left. split; [now left | reflexivity].
  - destruct (String.eqb_spec key "__proto__") as [E2 | N2].
    + left. split; [now right | reflexivity].
    + right. split; [exact N1|]. split; [exact N2|].
      eexists. split; [reflexivity | cbn; tauto].
Qed.

Lemma comma_key_is_no_property (key : string) :
  includes "," key = true -> get locationPrices key = None.
Proof.
  intros Hc.
  assert (Hne : forall name : string,
             includes "," name = false ->
             String.eqb name key = false /\ String.eqb key name = false).
  { intros name Hname.
    destruct (String.eqb_spec name key) as [E | _];
      [rewrite <- E, Hname in Hc; discriminate Hc|].
    destruct (String.eqb_spec key name) as [E | _];
      [rewrite E, Hname in Hc; discriminate Hc|].
    split; reflexivity. }
  unfold get, locationPrices, Object_prototype. cbn [assoc existsb].
  repeat match goal with
         | |- context [String.eqb ?k key] =>
             rewrite (proj1 (Hne k eq_refl))
         | |- context [String.eqb key ?k] =>
             rewrite (proj2 (Hne k eq_refl))
         end.
  reflexivity.
Qed.

End BasePriceFacts.

(** X3. For a location given in ASCII, [getBasePriceForLocation] returns
    one of the five listed prices or the default, so a price between
    350000 and 450000, unless the location normalises to the key
    [constructor] or [__proto__]: then the table's lookup finds the member
    that every object inherits, and that is returned in place of a price.
    A location that contains a comma, as "City, ST" does, always gets the
    default 375000, whatever city it names. *)
Theorem X3_base_price_total_and_comma_default :
  forall location : string,
    Js.is_ascii location = true ->
    let key := Js.replace_spaces false (Js.toLowerCase location) in
    (key <> "constructor"%string -> key <> "__proto__"%string ->
     exists price,
       Nvapi.getBasePriceForLocation location = Js.value price
       /\ In price [350000; 425000; 380000; 450000; 400000; 375000]
       /\ 350000 <= price /\ price <= 450000)
    /\ (key = "constructor"%string \/ key = "__proto__"%string ->
        Nvapi.getBasePriceForLocation location = Js.builtin key)
    /\ (Js.includes "," location = true ->
        Nvapi.getBasePriceForLocation location = Js.value 375000).
Proof.
  intros location _ key.
  pose proof (base_price_cases location) as H. cbv zeta in H. fold key in H.
  destruct H as [[Hkey Hb] | (N1 & N2 & price & Hp & Hin)].
  - split; [intros N1 N2; destruct Hkey; contradiction|].
    split; [intros _; exact Hb|].
    intros Hc. unfold Nvapi.getBasePriceForLocation. fold key.
    rewrite comma_key_is_no_property; [reflexivity|]. unfold key.
    now rewrite includes_replace_spaces_comma, includes_toLowerCase_comma.
  - split.
    { intros _ _. exists price. split; [exact Hp|]. split; [exact Hin|].
      cbn [In] in Hin.
      repeat destruct Hin as [Hin | Hin]; try contradiction;
        rewrite <- Hin; split; discriminate. }
    split; [intros [E | E]; contradiction|].
    intros Hc. unfold Nvapi.getBasePriceForLocation. fold key.
    rewrite comma_key_is_no_property; [reflexivity|]. unfold key.
    now rewrite includes_replace_spaces_comma, includes_toLowerCase_comma.
Qed.

Lemma X3_witness :
  Js.is_ascii "Naperville, IL" = true
  /\ Js.includes "," "Naperville, IL" = true
  /\ Nvapi.getBasePriceForLocation "Naperville, IL" = Js.value 375000
  /\ Nvapi.getBasePriceForLocation "Naperville" = Js.value 425000.
Proof.
  assert (Ha : Js.is_ascii "Naperville, IL" = true) by reflexivity.
  assert (Hc : Js.includes "," "Naperville, IL" = true) by reflexivity.
  split; [exact Ha|]. split; [exact Hc|]. split; [|reflexivity].
  exact (proj2 (proj2 (X3_base_price_total_and_comma_default
                         "Naperville, IL" Ha)) Hc).
Defined.

Section MarketDataFacts.
Import Js Nvapi.

Lemma marketData_fields (location : string) (propertyType : option string)
    (w : World) (c : Cursor) :
  let t := run (simulateMarketData location propertyType) w c in
  let base := toNumber (getBasePriceForLocation location) in
  let variation := (draws w (rnd c) - 0.5) * 0.1 in
  mt_location t = location
  /\ averagePrice t
     = option_map (fun price => Math_round (price * (1 + variation))) base
  /\ priceChange t
     = option_map (fun price => Math_round (price * variation * 0.1)) base
  /\ priceChangePercent t = toFixed 2 (variation * 10)
  /\ inventory t = Math_round (draws w (1 + rnd c) * 500 + 100)
  /\ daysOnMarket t = Math_round (draws w (2 + rnd c) * 60 + 20)
  /\ snd (simulateMarketData location propertyType w c)
     = mkCursor (3 + rnd c) (1 + tick c).
Proof.
  unfold simulateMarketData, run. rewrite !bind_eq. repeat split.
Qed.

End MarketDataFacts.

(** X4. For a location given in ASCII the simulated market data echoes
    the location and keeps the percentage within half a percent, the
    inventory between 100 and 600 and the days on market between 20 and
    80.  Where the location's base price is a price, the average price is
    within five percent of it, up to rounding (so between 332500 and
    472500), and the price change within 2250 either way; where it is an
    inherited member (the keys [constructor] and [__proto__]), both are
    NaN. *)
Theorem X4_market_data_ranges :
  forall (location : string) (propertyType : option string)
         (w : Js.World) (c : Js.Cursor),
    Js.unit_draws w ->
    Js.is_ascii location = true ->
    let t := Js.run (Nvapi.getMarketTrends location propertyType) w c in
    Nvapi.mt_location t = location
    /\ (forall base,
          Nvapi.getBasePriceForLocation location = Js.value base ->
          exists average change,
            Nvapi.averagePrice t = Some average
            /\ Nvapi.priceChange t = Some change
            /\ (base * 0.95 - 1 <= inject_Z average
                /\ inject_Z average <= base * 1.05 + 1)
            /\ (332500 <= average <= 472500)%Z
            /\ (-2250 <= change <= 2250)%Z)
    /\ (forall name,
          Nvapi.getBasePriceForLocation location = Js.builtin name ->
          Nvapi.averagePrice t = None /\ Nvapi.priceChange t = None)
    /\ (-0.5 <= Nvapi.priceChangePercent t
        /\ Nvapi.priceChangePercent t <= 0.5)
    /\ (100 <= Nvapi.inventory t <= 600)%Z
    /\ (20 <= Nvapi.daysOnMarket t <= 80)%Z.
Proof.
  intros location propertyType w c Hw _ t.
  unfold Nvapi.getMarketTrends in t.
  destruct (marketData_fields location propertyType w c)
    as (Hloc & Havg & Hchg & Hpct & Hinv & Hdom & _).
  fold t in Hloc, Havg, Hchg, Hpct, Hinv, Hdom.
  destruct (Hw (Js.rnd c)) as [H00 H01].
  destruct (Hw (1 + Js.rnd c)%nat) as [H10 H11].
  destruct (Hw (2 + Js.rnd c)%nat) as [H20 H21].
  set (r := Js.draws w (Js.rnd c)) in *.
  split; [exact Hloc|].
  split.
  { intros base Hbase. rewrite Hbase in Havg, Hchg.
    cbn [Js.toNumber option_map] in Havg, Hchg.
    assert (Hrange : 350000 <= base /\ base <= 450000).
    { destruct (base_price_cases location)
        as [[_ Hb] | (_ & _ & price & Hp & Hin)].
      - rewrite Hb in Hbase. discriminate Hbase.
      - rewrite Hp in Hbase. injection Hbase as <-. cbn [In] in Hin.
        repeat destruct Hin as [Hin | Hin]; try contradiction;
          rewrite <- Hin; split; discriminate. }
    destruct Hrange as [Hb0 Hb1].
    eexists. eexists. split; [exact Havg|]. split; [exact Hchg|].
    pose proof (Math_round_near (base * (1 + (r - 0.5) * 0.1)))
      as [Ha1 Ha2].
    split; [split; nra|].
    split; apply Math_round_between;
      [change (inject_Z 332500) with 332500
      |change (inject_Z 472500) with 472500
      |change (inject_Z (-2250)) with (-2250)
      |change (inject_Z 2250) with 2250]; nra. }
  split.
  { intros name Hname. rewrite Hname in Havg, Hchg.
    split; [exact Havg | exact Hchg]. }
  rewrite Hpct, Hinv, Hdom.
  split.
  { destruct (toFixed_within 2 (-50) 50 ((r - 0.5) * 0.1 * 10))
      as [H1 H2].
    - change (inject_Z (Js.pow10 2)) with 100.
      change (inject_Z (-50)) with (-50). lra.
    - change (inject_Z (Js.pow10 2)) with 100.
      change (inject_Z 50) with 50. lra.
    - assert (E1 : inject_Z (-50) / inject_Z (Js.pow10 2) == -0.5)
        by reflexivity.
      assert (E2 : inject_Z 50 / inject_Z (Js.pow10 2) == 0.5)
        by reflexivity.
      rewrite E1 in H1. rewrite E2 in H2. split; assumption. }
  split; apply Math_round_between;
    [change (inject_Z 100) with 100 | change (inject_Z 600) with 600
    |change (inject_Z 20) with 20 | change (inject_Z 80) with 80]; lra.
Qed.

Lemma X4_witness :
  Js.unit_draws even_odds
  /\ Js.is_ascii "Evanston" = true
  /\ exists average,
       Nvapi.averagePrice
         (Js.run (Nvapi.getMarketTrends "Evanston" None) even_odds Js.start)
       = Some average
       /\ (332500 <= average <= 472500)%Z.
Proof.
  assert (Hw : Js.unit_draws even_odds) by exact even_odds_unit.
  assert (Ha : Js.is_ascii "Evanston" = true) by reflexivity.
  split; [exact Hw|]. split; [exact Ha|].
  pose proof (X4_market_data_ranges "Evanston" None even_odds Js.start Hw Ha)
    as H.
  cbv zeta in H. destruct H as (_ & Hprice & _).
  destruct (Hprice 450000 eq_refl)
    as (average & change & Havg & _ & _ & Hrange & _).
  exists average. split; [exact Havg | exact Hrange].
Defined.

(** ** Comparables and the simulated valuation *)
Section ComparableFacts.
Import Js Nvapi.

Lemma Qfloor_between (a b : Z) (y : Q) :
  inject_Z a <= y -> y < inject_Z (b + 1) -> (a <= Qfloor y <= b)%Z.
Proof.
  intros Ha Hb. split.
  - rewrite <- (Qfloor_Z a). now apply Qfloor_resp_le.
  - assert (H : inject_Z (Qfloor y) < inject_Z (b + 1))
      by (apply Qle_lt_trans with y; [apply Qfloor_le | exact Hb]).
    rewrite <- Zlt_Qlt in H. lia.
Qed.

Lemma base_value_nonneg (p : PropertyData) :
  0 <= sqft p -> 0 <= bedrooms p -> 0 <= bathrooms p ->
  0 <= calculateBaseValue p.
Proof.
  intros Hs Hb Ha. rewrite calculateBaseValue_eq.
  pose proof (Q.le_max_l 0 (1 - (2024 - yearBuilt p) * 0.005)).
  nra.
Qed.

(** What one comparable looks like next to the property it is made for. *)
Let near (p : PropertyData) (x : Comparable) : Prop :=
  (calculateBaseValue p * 0.85 - 0.5 <= inject_Z (c_price x)
   /\ inject_Z (c_price x) <= calculateBaseValue p * 1.15 + 0.5)
  /\ (sqft p * 0.925 - 0.5 <= inject_Z (c_sqft x)
      /\ inject_Z (c_sqft x) <= sqft p * 1.075 + 0.5)
  /\ (exists k, (-1 <= k <= 1)%Z
                /\ c_bedrooms x = bedrooms p + inject_Z k)
  /\ (exists k, (-1 <= k <= 1)%Z
                /\ c_bathrooms x = bathrooms p + inject_Z k)
  /\ (0.1 <= c_distance x /\ c_distance x <= 2.1).

Lemma comparable_near (p : PropertyData) (w : World) (c : Cursor) :
  unit_draws w ->
  0 <= sqft p -> 0 <= bedrooms p -> 0 <= bathrooms p ->
  near p (fst (comparable p w c))
  /\ snd (comparable p w c) = mkCursor (5 + rnd c) (tick c).
Proof.
  intros Hw Hs Hb Ha.
  pose proof (base_value_nonneg p Hs Hb Ha) as Hbase.
  unfold comparable. rewrite !bind_eq.
  cbn [Math_random ret fst snd rnd tick c_price c_sqft c_bedrooms
       c_bathrooms c_distance near].
  destruct (Hw (rnd c)) as [H00 H01].
  destruct (Hw (S (S (rnd c)))) as [H20 H21].
  destruct (Hw (S (S (S (rnd c))))) as [H30 H31].
  destruct (Hw (S (S (S (S (rnd c)))))) as [H40 H41].
  set (r := draws w (rnd c)) in *.
  split; [|reflexivity].
  unfold near. cbn [c_price c_sqft c_bedrooms c_bathrooms c_distance].
  pose proof (Math_round_near
                (calculateBaseValue p * (1 + (r - 0.5) * 0.3))) as [P1 P2].
  pose proof (Math_round_near
                (sqft p * (1 + (r - 0.5) * 0.3 * 0.5))) as [S1 S2].
  split; [split; nra|]. split; [split; nra|].
  split.
  { eexists. split; [|reflexivity].
    apply Qfloor_between;
      [change (inject_Z (-1)) with (-1) | change (inject_Z (1 + 1)) with 2];
      lra. }
  split.
  { eexists. split; [|reflexivity].
    apply Qfloor_between;
      [change (inject_Z (-1)) with (-1) | change (inject_Z (1 + 1)) with 2];
      lra. }
  destruct (toFixed_within 1 1 21
              (draws w (S (S (S (S (rnd c))))) * 2 + 0.1)) as [D1 D2].
  - change (inject_Z (pow10 1)) with 10. change (inject_Z 1) with 1. lra.
  - change (inject_Z (pow10 1)) with 10. change (inject_Z 21) with 21. lra.
  - assert (E1 : inject_Z 1 / inject_Z (pow10 1) == 0.1) by reflexivity.
    assert (E2 : inject_Z 21 / inject_Z (pow10 1) == 2.1) by reflexivity.
    rewrite E1 in D1. rewrite E2 in D2. split; assumption.
Qed.

Lemma generateComparables_near (p : PropertyData) (w : World) :
  unit_draws w ->
  0 <= sqft p -> 0 <= bedrooms p -> 0 <= bathrooms p ->
  forall (count : nat) (c : Cursor),
    List.length (fst (generateComparables p count w c)) = count
    /\ Forall (near p) (fst (generateComparables p count w c))
    /\ snd (generateComparables p count w c)
       = mkCursor (5 * count + rnd c) (tick c).
Proof.
  intros Hw Hs Hb Ha.
  induction count as [| n IH]; intros c.
  - destruct c as [n t]. cbn.
    split; [reflexivity|]. split; [constructor | reflexivity].
  - cbn [generateComparables]. rewrite !bind_eq.
    destruct (comparable_near p w c Hw Hs Hb Ha) as [Hnear Hcur].
    destruct (IH (snd (comparable p w c))) as (Hlen & Hall & Hend).
    cbn [ret fst snd List.length].
    split; [now rewrite Hlen|].
    split; [constructor; assumption|].
    rewrite Hend, Hcur. cbn [rnd tick]. f_equal. lia.
Qed.

End ComparableFacts.

(** X5. [generateComparables] returns exactly [count] comparables and
    reads five draws for each.  For a property with non-negative sqft,
    bedrooms and bathrooms every comparable is priced within 15 percent
    of the property's base value (up to rounding), sized within 7.5
    percent of its sqft, has at most one bedroom and one bathroom more or
    fewer, and lies between 0.1 and 2.1 away. *)
Theorem X5_comparables_stay_near_the_property :
  forall (p : Nvapi.PropertyData) (count : nat)
         (w : Js.World) (c : Js.Cursor),
    Js.unit_draws w ->
    0 <= Nvapi.sqft p -> 0 <= Nvapi.bedrooms p -> 0 <= Nvapi.bathrooms p ->
    let result := Nvapi.generateComparables p count w c in
    List.length (fst result) = count
    /\ Js.rnd (snd result) = (5 * count + Js.rnd c)%nat
    /\ Forall
         (fun x =>
            (Nvapi.calculateBaseValue p * 0.85 - 0.5
             <= inject_Z (Nvapi.c_price x)
             /\ inject_Z (Nvapi.c_price x)
                <= Nvapi.calculateBaseValue p * 1.15 + 0.5)
            /\ (Nvapi.sqft p * 0.925 - 0.5 <= inject_Z (Nvapi.c_sqft x)
                /\ inject_Z (Nvapi.c_sqft x)
                   <= Nvapi.sqft p * 1.075 + 0.5)
            /\ (exists k, (-1 <= k <= 1)%Z
                          /\ Nvapi.c_bedrooms x
                             = Nvapi.bedrooms p + inject_Z k)
            /\ (exists k, (-1 <= k <= 1)%Z
                          /\ Nvapi.c_bathrooms x
                             = Nvapi.bathrooms p + inject_Z k)
            /\ (0.1 <= Nvapi.c_distance x /\ Nvapi.c_distance x <= 2.1))
         (fst result).
Proof.
  intros p count w c Hw Hs Hb Ha result.
  destruct (generateComparables_near p w Hw Hs Hb Ha count c)
    as (Hlen & Hall & Hend).
  fold result in Hlen, Hall, Hend.
  split; [exact Hlen|]. split; [now rewrite Hend|]. exact Hall.
Qed.

Lemma X5_witness :
  Js.unit_draws even_odds
  /\ List.length
       (fst (Nvapi.generateComparables chicagoHome 3 even_odds Js.start))
     = 3%nat
  /\ Js.rnd
       (snd (Nvapi.generateComparables chicagoHome 3 even_odds Js.start))
     = 15%nat.
Proof.
  assert (Hw : Js.unit_draws even_odds) by exact even_odds_unit.
  split; [exact Hw|].
  pose proof (X5_comparables_stay_near_the_property
                chicagoHome 3 even_odds Js.start Hw) as H.
  cbv zeta in H.
  destruct H as (Hlen & Hrnd & _); try discriminate.
  split; [exact Hlen | exact Hrnd].
Defined.

Section ValuationShape.
Import Js Nvapi.



End ValuationShape.



(** ** Lead scoring *)
Section LeadFacts.
Import Js Nvapi.

(** The urgency part of a lead's score. *)
Let urgencyScore (l : LeadData) : Q :=
  if String.eqb (urgency l) "high" then 25
  else if String.eqb (urgency l) "medium" then 15
  else 5.

Lemma urgencyScore_range (l : LeadData) :
  5 <= urgencyScore l /\ urgencyScore l <= 25.
Proof.
  unfold urgencyScore.
  destruct (String.eqb (urgency l) "high");
    [|destruct (String.eqb (urgency l) "medium")]; split; discriminate.
Qed.

Lemma leadScoring_fields (l : LeadData) (w : World) (c : Cursor) :
  let sc := fst (simulateLeadScoring l w c) in
  let total :=
    Qmin (budget l / 100000) 1 * 30 + urgencyScore l
    + Qmin (contactHistory l * 5) 25 + draws w (rnd c) * 20 in
  leadId sc = lead_id l
  /\ lead_score sc = Math_round total
  /\ map lf_impact (lead_factors sc)
     = [ Qmin (budget l / 100000) 1 * 30; urgencyScore l;
         Qmin (contactHistory l * 5) 25; draws w (rnd c) * 20 ]
  /\ lead_recommendations sc
     = generateLeadRecommendations (inject_Z (Math_round total))
  /\ snd (simulateLeadScoring l w c) = mkCursor (1 + rnd c) (tick c).
Proof.
  unfold simulateLeadScoring. rewrite !bind_eq. repeat split.
Qed.

Lemma scoreLeads_ids (ls : list LeadData) (w : World) (c : Cursor) :
  map leadId (fst (scoreLeads ls w c)) = map lead_id ls.
Proof.
  revert c. induction ls as [| l ls IH]; intros c; [reflexivity|].
  cbn [scoreLeads]. rewrite !bind_eq. cbn [ret fst map].
  rewrite IH. reflexivity.
Qed.

Lemma toString_inj (a b : Z) : toString a = toString b -> a = b.
Proof.
  unfold toString. intros H.
  assert (Hnorm : forall z, NilZero.int_of_string
                              (NilZero.string_of_int (Z.to_int z))
                            = Some (Z.to_int z)).
  { intros z. apply NilZero.isi; destruct z as [| q | q]; cbn;
      try discriminate; intros E; injection E as E;
      exact (DecimalPos.Unsigned.to_uint_nonnil q E). }
  pose proof (Hnorm a) as Ha. rewrite H, Hnorm in Ha.
  injection Ha as Ha. symmetry. now apply to_int_inj.
Qed.

End LeadFacts.

(** X7. For a lead with a non-negative budget and contact history, the
    lead score is an integer between 5 and 100 that carries the lead's
    id, its four factor impacts stay within their caps (30, 25, 25, 20),
    the score is within 1 of their sum (it is the sum, rounded), and four
    recommendations come with it. *)
Theorem X7_lead_score_range :
  forall (l : Nvapi.LeadData) (w : Js.World) (c : Js.Cursor),
    Js.unit_draws w ->
    0 <= Nvapi.budget l -> 0 <= Nvapi.contactHistory l ->
    let sc := fst (Nvapi.simulateLeadScoring l w c) in
    let impacts := map Nvapi.lf_impact (Nvapi.lead_factors sc) in
    Nvapi.leadId sc = Nvapi.lead_id l
    /\ (5 <= Nvapi.lead_score sc <= 100)%Z
    /\ Forall2 (fun cap x => 0 <= x /\ x <= cap) [30; 25; 25; 20] impacts
    /\ (fold_right Qplus 0 impacts - 1 <= inject_Z (Nvapi.lead_score sc)
        /\ inject_Z (Nvapi.lead_score sc)
           <= fold_right Qplus 0 impacts + 1)
    /\ List.length (Nvapi.lead_recommendations sc) = 4%nat.
Proof.
  intros l w c Hw Hb Hc sc impacts.
  destruct (leadScoring_fields l w c) as (Hid & Hscore & Himp & Hrec & _).
  fold sc in Hid, Hscore, Himp, Hrec. fold impacts in Himp.
  destruct (urgencyScore_range l) as [Hu0 Hu1].
  destruct (Hw (Js.rnd c)) as [Hr0 Hr1].
  assert (Hb0 : 0 <= Qmin (Nvapi.budget l / 100000) 1).
  { apply Q.min_glb; [|discriminate].
    unfold Qdiv. apply Qmult_le_0_compat; [exact Hb | discriminate]. }
  pose proof (Q.le_min_r (Nvapi.budget l / 100000) 1) as Hb1.
  assert (Hc0 : 0 <= Qmin (Nvapi.contactHistory l * 5) 25)
    by (apply Q.min_glb; [lra | discriminate]).
  pose proof (Q.le_min_r (Nvapi.contactHistory l * 5) 25) as Hc1.
  split; [exact Hid|].
  rewrite Hscore, Himp, Hrec.
  split.
  { apply Math_round_between;
      [change (inject_Z 5) with 5 | change (inject_Z 100) with 100]; lra. }
  split.
  { repeat constructor; lra. }
  split.
  { cbn [fold_right].
    match goal with
    | |- _ <= inject_Z (Js.Math_round ?t) /\ _ =>
        pose proof (Math_round_near t) as [N1 N2]
    end.
    split; lra. }
  unfold Nvapi.generateLeadRecommendations.
  destruct (Qle_bool 80 _); [reflexivity|].
  destruct (Qle_bool 60 _); reflexivity.
Qed.

Lemma X7_witness :
  Js.unit_draws even_odds
  /\ (5 <= Nvapi.lead_score
             (fst (Nvapi.simulateLeadScoring eagerLead even_odds Js.start))
      <= 100)%Z.
Proof.
  assert (Hw : Js.unit_draws even_odds) by exact even_odds_unit.
  split; [exact Hw|].
  refine (proj1 (proj2 (X7_lead_score_range eagerLead even_odds Js.start
                          Hw _ _))); discriminate.
Defined.

(** X8. Budget and contact history are capped: two leads of the same
    urgency whose budgets are both 100000 or more and whose contact
    counts are both 5 or more get the same score and the same
    recommendations from the same draw, however much they differ beyond
    the caps. *)
Theorem X8_lead_score_caps :
  forall (l1 l2 : Nvapi.LeadData) (w : Js.World) (c : Js.Cursor),
    Nvapi.urgency l1 = Nvapi.urgency l2 ->
    100000 <= Nvapi.budget l1 -> 100000 <= Nvapi.budget l2 ->
    5 <= Nvapi.contactHistory l1 -> 5 <= Nvapi.contactHistory l2 ->
    let s1 := fst (Nvapi.simulateLeadScoring l1 w c) in
    let s2 := fst (Nvapi.simulateLeadScoring l2 w c) in
    Nvapi.lead_score s1 = Nvapi.lead_score s2
    /\ Nvapi.lead_recommendations s1 = Nvapi.lead_recommendations s2.
Proof.
  intros l1 l2 w c Hu Hb1 Hb2 Hc1 Hc2 s1 s2.
  destruct (leadScoring_fields l1 w c) as (_ & Hs1 & _ & Hr1 & _).
  destruct (leadScoring_fields l2 w c) as (_ & Hs2 & _ & Hr2 & _).
  fold s1 in Hs1, Hr1. fold s2 in Hs2, Hr2.
  assert (Hsame : Nvapi.lead_score s1 = Nvapi.lead_score s2).
  { rewrite Hs1, Hs2. unfold Js.Math_round. apply Qfloor_comp.
    rewrite Hu.
    rewrite (Q.min_r (Nvapi.budget l1 / 100000) 1),
            (Q.min_r (Nvapi.budget l2 / 100000) 1),
            (Q.min_r (Nvapi.contactHistory l1 * 5) 25),
            (Q.min_r (Nvapi.contactHistory l2 * 5) 25);
      try lra; try reflexivity.
    - apply Qle_shift_div_l; [reflexivity | lra].
    - apply Qle_shift_div_l; [reflexivity | lra]. }
  split; [exact Hsame|].
  rewrite Hr1, Hr2, <- Hs1, <- Hs2, Hsame. reflexivity.
Qed.

Lemma X8_witness :
  Nvapi.lead_score (fst (Nvapi.simulateLeadScoring eagerLead calm Js.start))
  = Nvapi.lead_score
      (fst (Nvapi.simulateLeadScoring richerLead calm Js.start)).
Proof.
  refine (proj1 (X8_lead_score_caps eagerLead richerLead calm Js.start
                   _ _ _ _ _)); reflexivity || discriminate.
Defined.

(** X9. The dashboard colours a lead by the thresholds the service uses
    for its advice: a score is shown in the success colour exactly when
    the advice is the high-priority list, in the warning colour exactly
    when it is the medium-priority list, and in the error colour exactly
    when it is the nurture list. *)
Theorem X9_lead_colour_matches_advice :
  forall score : Q,
    (AgentDashboard.getLeadScoreColor score = "success.main"%string
     <-> hd EmptyString (Nvapi.generateLeadRecommendations score)
         = "High priority lead - contact immediately"%string)
    /\ (AgentDashboard.getLeadScoreColor score = "warning.main"%string
        <-> hd EmptyString (Nvapi.generateLeadRecommendations score)
            = "Medium priority lead - follow up within 48 hours"%string)
    /\ (AgentDashboard.getLeadScoreColor score = "error.main"%string
        <-> hd EmptyString (Nvapi.generateLeadRecommendations score)
            = "Nurture lead with regular market updates"%string).
Proof.
  intros score.
  unfold AgentDashboard.getLeadScoreColor, Nvapi.generateLeadRecommendations.
  destruct (Qle_bool 80 score); [|destruct (Qle_bool 60 score)];
    cbn [hd]; repeat split; intros H; reflexivity || discriminate H.
Qed.

(** ** The agent dashboard *)
Section DashboardFacts.
Import Js AgentDashboard.

Lemma scoreClients_ids (clients : list Client) (w : World) (c : Cursor) :
  map Nvapi.leadId (fst (scoreClients clients w c))
  = map (fun cl => toString (id cl)) clients.
Proof.
  unfold scoreClients. rewrite scoreLeads_ids, map_map. reflexivity.
Qed.

Lemma find_by_unique_id (clients : list Client) :
  NoDup (map id clients) ->
  forall (scores : list Nvapi.LeadScore) (i : nat) (client : Client),
    map Nvapi.leadId scores = map (fun cl => toString (id cl)) clients ->
    nth_error clients i = Some client ->
    findLeadScore scores client = nth_error scores i.
Proof.
  unfold findLeadScore.
  induction clients as [| cl clients IH]; intros Hnd scores i client Hids Hi.
  - destruct i; discriminate Hi.
  - destruct scores as [| sc scores]; [discriminate Hids|].
    cbn [map] in Hids. injection Hids as Hsc Hrest.
    inversion Hnd as [| ? ? Hnotin Hnd']; subst.
    cbn [find]. destruct i as [| i]; cbn [nth_error] in *.
    + injection Hi as <-. rewrite Hsc, String.eqb_refl. reflexivity.
    + destruct (String.eqb_spec (Nvapi.leadId sc) (toString (id client)))
        as [E | _].
      * exfalso. apply Hnotin. rewrite Hsc in E.
        apply toString_inj in E. rewrite E.
        apply in_map, (nth_error_In _ _ Hi).
      * now apply IH.
Qed.

End DashboardFacts.

(** X10. A dashboard client with a budget of 100000 or more is never a
    cold lead: scored as the dashboard scores it, an actively searching
    client gets 80 to 100 and the success colour, any other client gets
    70 to 90 and never the error colour. *)
Theorem X10_dashboard_clients_never_cold :
  forall (client : AgentDashboard.Client) (w : Js.World) (c : Js.Cursor),
    Js.unit_draws w ->
    100000 <= AgentDashboard.budget client ->
    let sc :=
      fst (Nvapi.simulateLeadScoring (AgentDashboard.toLead client) w c) in
    let colour :=
      AgentDashboard.getLeadScoreColor (inject_Z (Nvapi.lead_score sc)) in
    Nvapi.leadId sc = Js.toString (AgentDashboard.id client)
    /\ (AgentDashboard.status client = "actively_searching"%string ->
        (80 <= Nvapi.lead_score sc <= 100)%Z
        /\ colour = "success.main"%string)
    /\ (AgentDashboard.status client <> "actively_searching"%string ->
        (70 <= Nvapi.lead_score sc <= 90)%Z
        /\ colour <> "error.main"%string).
Proof.
  intros client w c Hw Hb sc colour.
  destruct (leadScoring_fields (AgentDashboard.toLead client) w c)
    as (Hid & Hscore & _).
  fold sc in Hid, Hscore.
  split; [exact Hid|].
  destruct (Hw (Js.rnd c)) as [Hr0 Hr1].
  cbn [AgentDashboard.toLead Nvapi.budget Nvapi.contactHistory
       Nvapi.urgency] in Hscore.
  assert (Hmin : Qmin (AgentDashboard.budget client / 100000) 1 == 1).
  { apply Q.min_r. apply Qle_shift_div_l; [reflexivity | lra]. }
  assert (Hcon : Qmin (5 * 5) 25 == 25) by reflexivity.
  assert (Hcolour : forall lo,
             (lo <= Nvapi.lead_score sc)%Z -> (60 <= lo)%Z ->
             colour <> "error.main"%string).
  { intros lo H1 H2. unfold colour, AgentDashboard.getLeadScoreColor.
    assert (H60 : Qle_bool 60 (inject_Z (Nvapi.lead_score sc)) = true).
    { apply Qle_bool_iff. change 60 with (inject_Z 60).
      rewrite <- Zle_Qle. lia. }
    rewrite H60. destruct (Qle_bool 80 _); discriminate. }
  split; intros Hstatus.
  - assert (Hrange : (80 <= Nvapi.lead_score sc <= 100)%Z).
    { rewrite Hscore. rewrite Hstatus. cbn [String.eqb Ascii.eqb Bool.eqb].
      apply Math_round_between;
        [change (inject_Z 80) with 80 | change (inject_Z 100) with 100];
        rewrite Hmin, Hcon; lra. }
    split; [exact Hrange|].
    unfold colour, AgentDashboard.getLeadScoreColor.
    assert (H80 : Qle_bool 80 (inject_Z (Nvapi.lead_score sc)) = true).
    { apply Qle_bool_iff. change 80 with (inject_Z 80).
      rewrite <- Zle_Qle. lia. }
    now rewrite H80.
  - assert (Hrange : (70 <= Nvapi.lead_score sc <= 90)%Z).
    { rewrite Hscore.
      destruct (String.eqb_spec (AgentDashboard.status client)
                                "actively_searching") as [E | _];
        [contradiction|].
      cbn [String.eqb Ascii.eqb Bool.eqb].
      apply Math_round_between;
        [change (inject_Z 70) with 70 | change (inject_Z 90) with 90];
        rewrite Hmin, Hcon; lra. }
    split; [exact Hrange|].
    apply (Hcolour 70%Z); [apply Hrange | lia].
Qed.

Lemma X10_witness :
  Js.unit_draws calm
  /\ AgentDashboard.getLeadScoreColor
       (inject_Z
          (Nvapi.lead_score
             (fst (Nvapi.simulateLeadScoring
                     (AgentDashboard.toLead johnSmith) calm Js.start))))
     = "success.main"%string.
Proof.
  assert (Hw : Js.unit_draws calm) by exact calm_unit.
  assert (Hb : 100000 <= AgentDashboard.budget johnSmith) by discriminate.
  split; [exact Hw|].
  pose proof (X10_dashboard_clients_never_cold johnSmith calm Js.start Hw Hb)
    as H.
  cbv zeta in H. destruct H as (_ & Hactive & _).
  exact (proj2 (Hactive eq_refl)).
Defined.

(** X11. The dashboard scores its clients in order, one score per
    client, and looks each score up by the client's id: when the ids are
    distinct, every client finds exactly the score computed for it. *)
Theorem X11_client_finds_own_score :
  forall (clients : list AgentDashboard.Client) (w : Js.World)
         (c : Js.Cursor) (i : nat) (client : AgentDashboard.Client),
    NoDup (map AgentDashboard.id clients) ->
    nth_error clients i = Some client ->
    let scores := fst (AgentDashboard.scoreClients clients w c) in
    List.length scores = List.length clients
    /\ AgentDashboard.findLeadScore scores client = nth_error scores i
    /\ exists sc,
         nth_error scores i = Some sc
         /\ Nvapi.leadId sc = Js.toString (AgentDashboard.id client).
Proof.
  intros clients w c i client Hnd Hi scores.
  pose proof (scoreClients_ids clients w c) as Hids. fold scores in Hids.
  assert (Hlen : List.length scores = List.length clients).
  { rewrite <- (length_map Nvapi.leadId scores), Hids. apply length_map. }
  split; [exact Hlen|].
  split; [now apply (find_by_unique_id clients Hnd)|].
  destruct (nth_error scores i) as [sc|] eqn:Hsc.
  - exists sc. split; [reflexivity|].
    pose proof (map_nth_error Nvapi.leadId i scores Hsc) as H1.
    pose proof (map_nth_error (fun cl => Js.toString (AgentDashboard.id cl))
                  i clients Hi) as H2.
    rewrite Hids, H2 in H1. now injection H1.
  - exfalso. apply nth_error_None in Hsc.
    assert (i < List.length clients)%nat
      by (apply nth_error_Some; rewrite Hi; discriminate).
    lia.
Qed.

Lemma X11_witness :
  AgentDashboard.findLeadScore
    (fst (AgentDashboard.scoreClients activeClients even_odds Js.start))
    sarahJohnson
  = nth_error
      (fst (AgentDashboard.scoreClients activeClients even_odds Js.start))
      1.
Proof.
  refine (proj1 (proj2 (X11_client_finds_own_score
                          activeClients even_odds Js.start 1 sarahJohnson
                          _ _))).
  - repeat constructor; cbn; intuition discriminate.
  - reflexivity.
Defined.

(** ** Location insights *)
Section InsightFacts.
Import Js Nvapi.

Lemma insights_fields (location : string) (w : World) (c : Cursor) :
  let li := fst (simulateLocationInsights location w c) in
  li_location li = location
  /\ walkScore li = Math_round (draws w (rnd c) * 40 + 60)
  /\ crimeRate li = toFixed 1 (draws w (1 + rnd c) * 5 + 1)
  /\ schoolRating li = toFixed 1 (draws w (2 + rnd c) * 3 + 7)
  /\ amenities li
     = slice_to (Math_round (draws w (3 + rnd c) * 4 + 4)) allAmenities
  /\ medianIncome (demographics li)
     = Math_round (draws w (4 + rnd c) * 50000 + 50000)
  /\ populationGrowth (demographics li)
     = toFixed 1 (draws w (5 + rnd c) * 4 + 1)
  /\ map snd (ageDistribution (demographics li))
     = [ Math_round (draws w (6 + rnd c) * 15 + 20);
         Math_round (draws w (7 + rnd c) * 15 + 25);
         Math_round (draws w (8 + rnd c) * 15 + 20) ]
  /\ futureGrowthPotential li = toFixed 1 (draws w (9 + rnd c) * 30 + 70).
Proof.
  unfold simulateLocationInsights. rewrite !bind_eq. repeat split.
Qed.

(** One decimal of a number between two tenths stays between them. *)
Lemma toFixed1_range (lo hi : Z) (x : Q) :
  inject_Z lo <= x * 10 -> x * 10 <= inject_Z hi ->
  inject_Z lo <= toFixed 1 x * 10 /\ toFixed 1 x * 10 <= inject_Z hi.
Proof.
  intros H1 H2.
  destruct (toFixed_within 1 lo hi x) as [L U];
    change (inject_Z (pow10 1)) with 10 in *; try assumption.
  assert (Elo : inject_Z lo == inject_Z lo / 10 * 10) by field.
  assert (Ehi : inject_Z hi == inject_Z hi / 10 * 10) by field.
  split.
  - rewrite Elo. apply Qmult_le_compat_r; [exact L | discriminate].
  - rewrite Ehi. apply Qmult_le_compat_r; [exact U | discriminate].
Qed.

End InsightFacts.

(** X12. For every location the simulated insights echo the location
    and stay in range: walk score 60 to 100, crime rate 1 to 6, school
    rating 7 to 10, median income 50000 to 100000, population growth 1 to
    5, growth potential 70 to 100; the amenities are the first four to
    eight entries of the fixed list, so the first four are always there;
    the three age shares add up to between 65 and 110, not to 100. *)
Theorem X12_location_insights_ranges :
  forall (location : string) (w : Js.World) (c : Js.Cursor),
    Js.unit_draws w ->
    let li := fst (Nvapi.getLocationInsights location w c) in
    Nvapi.li_location li = location
    /\ (60 <= Nvapi.walkScore li <= 100)%Z
    /\ (1 <= Nvapi.crimeRate li /\ Nvapi.crimeRate li <= 6)
    /\ (7 <= Nvapi.schoolRating li /\ Nvapi.schoolRating li <= 10)
    /\ (exists n, (4 <= n <= 8)%nat
                  /\ Nvapi.amenities li = firstn n Nvapi.allAmenities)
    /\ (50000 <= Nvapi.medianIncome (Nvapi.demographics li) <= 100000)%Z
    /\ (1 <= Nvapi.populationGrowth (Nvapi.demographics li)
        /\ Nvapi.populationGrowth (Nvapi.demographics li) <= 5)
    /\ (65 <= fold_right Z.add 0%Z
                (map snd (Nvapi.ageDistribution (Nvapi.demographics li)))
         <= 110)%Z
    /\ (70 <= Nvapi.futureGrowthPotential li
        /\ Nvapi.futureGrowthPotential li <= 100).
Proof.
  intros location w c Hw li. unfold Nvapi.getLocationInsights in li.
  destruct (insights_fields location w c)
    as (Hloc & Hwalk & Hcrime & Hschool & Ham & Hinc & Hpop & Hage & Hfut).
  fold li in Hloc, Hwalk, Hcrime, Hschool, Ham, Hinc, Hpop, Hage, Hfut.
  destruct (Hw (Js.rnd c)) as [A0 A1].
  destruct (Hw (1 + Js.rnd c)%nat) as [B0 B1].
  destruct (Hw (2 + Js.rnd c)%nat) as [C0 C1].
  destruct (Hw (3 + Js.rnd c)%nat) as [D0 D1].
  destruct (Hw (4 + Js.rnd c)%nat) as [E0 E1].
  destruct (Hw (5 + Js.rnd c)%nat) as [F0 F1].
  destruct (Hw (6 + Js.rnd c)%nat) as [G0 G1].
  destruct (Hw (7 + Js.rnd c)%nat) as [I0 I1].
  destruct (Hw (8 + Js.rnd c)%nat) as [J0 J1].
  destruct (Hw (9 + Js.rnd c)%nat) as [K0 K1].
  rewrite Hloc, Hwalk, Hcrime, Hschool, Ham, Hinc, Hpop, Hage, Hfut.
  split; [reflexivity|].
  split; [apply Math_round_between;
          [change (inject_Z 60) with 60 | change (inject_Z 100) with 100];
          lra|].
  split.
  { destruct (toFixed1_range 10 60 (Js.draws w (1 + Js.rnd c) * 5 + 1))
      as [H1 H2];
      [change (inject_Z 10) with 10; lra
      |change (inject_Z 60) with 60; lra|].
    change (inject_Z 10) with 10 in H1.
    change (inject_Z 60) with 60 in H2. split; lra. }
  split.
  { destruct (toFixed1_range 70 100 (Js.draws w (2 + Js.rnd c) * 3 + 7))
      as [H1 H2];
      [change (inject_Z 70) with 70; lra
      |change (inject_Z 100) with 100; lra|].
    change (inject_Z 70) with 70 in H1.
    change (inject_Z 100) with 100 in H2. split; lra. }
  split.
  { assert (Hn : (4 <= Js.Math_round (Js.draws w (3 + Js.rnd c) * 4 + 4)
                  <= 8)%Z).
    { apply Math_round_between;
        [change (inject_Z 4) with 4 | change (inject_Z 8) with 8]; lra. }
    exists (Z.to_nat (Js.Math_round (Js.draws w (3 + Js.rnd c) * 4 + 4))).
    split; [lia|].
    unfold Js.slice_to.
    destruct (Z.ltb_spec (Js.Math_round (Js.draws w (3 + Js.rnd c) * 4 + 4))
                         0); [lia | reflexivity]. }
  split; [apply Math_round_between;
          [change (inject_Z 50000) with 50000
          |change (inject_Z 100000) with 100000]; lra|].
  split.
  { destruct (toFixed1_range 10 50 (Js.draws w (5 + Js.rnd c) * 4 + 1))
      as [H1 H2];
      [change (inject_Z 10) with 10; lra
      |change (inject_Z 50) with 50; lra|].
    change (inject_Z 10) with 10 in H1.
    change (inject_Z 50) with 50 in H2. split; lra. }
  split.
  { cbn [fold_right].
    assert (Y : (20 <= Js.Math_round (Js.draws w (6 + Js.rnd c) * 15 + 20)
                 <= 35)%Z)
      by (apply Math_round_between;
          [change (inject_Z 20) with 20 | change (inject_Z 35) with 35];
          lra).
    assert (M : (25 <= Js.Math_round (Js.draws w (7 + Js.rnd c) * 15 + 25)
                 <= 40)%Z)
      by (apply Math_round_between;
          [change (inject_Z 25) with 25 | change (inject_Z 40) with 40];
          lra).
    assert (S : (20 <= Js.Math_round (Js.draws w (8 + Js.rnd c) * 15 + 20)
                 <= 35)%Z)
      by (apply Math_round_between;
          [change (inject_Z 20) with 20 | change (inject_Z 35) with 35];
          lra).
    lia. }
  destruct (toFixed1_range 700 1000 (Js.draws w (9 + Js.rnd c) * 30 + 70))
    as [H1 H2];
    [change (inject_Z 700) with 700; lra
    |change (inject_Z 1000) with 1000; lra|].
  change (inject_Z 700) with 700 in H1.
  change (inject_Z 1000) with 1000 in H2. split; lra.
Qed.

Lemma X12_witness :
  Js.unit_draws even_odds
  /\ (60 <= Nvapi.walkScore
              (fst (Nvapi.getLocationInsights "Naperville, IL"
                      even_odds Js.start)) <= 100)%Z.
Proof.
  assert (Hw : Js.unit_draws even_odds) by exact even_odds_unit.
  split; [exact Hw|].
  exact (proj1 (proj2 (X12_location_insights_ranges
                         "Naperville, IL" even_odds Js.start Hw))).
Defined.

(** ** Key factors and the rest of the land analysis *)
Section LandAnalysisFacts.
Import Js Nvapi.

Lemma toFixed_scaled (d : nat) (lo hi : Z) (x : Q) :
  inject_Z lo <= x * inject_Z (pow10 d) ->
  x * inject_Z (pow10 d) <= inject_Z hi ->
  inject_Z lo <= toFixed d x * inject_Z (pow10 d)
  /\ toFixed d x * inject_Z (pow10 d) <= inject_Z hi.
Proof.
  intros H1 H2.
  destruct (toFixed_within d lo hi x H1 H2) as [L U].
  pose proof (pow10_pos d) as Hpos.
  assert (Hne : ~ inject_Z (pow10 d) == 0) by lra.
  assert (Elo : inject_Z lo
                == inject_Z lo / inject_Z (pow10 d) * inject_Z (pow10 d))
    by (field; exact Hne).
  assert (Ehi : inject_Z hi
                == inject_Z hi / inject_Z (pow10 d) * inject_Z (pow10 d))
    by (field; exact Hne).
  split.
  - rewrite Elo. apply Qmult_le_compat_r; [exact L | lra].
  - rewrite Ehi. apply Qmult_le_compat_r; [exact U | lra].
Qed.

Lemma rescore_facts (f : KeyFactor) :
  factor (rescore f) = factor f
  /\ (60 <= kf_score f -> impact (rescore f) <> negative)
  /\ (75 <= kf_score f -> impact (rescore f) = positive)
  /\ (60 <= kf_score f -> kf_score f <= 100 ->
      60 <= kf_score (rescore f) /\ kf_score (rescore f) <= 100).
Proof.
  unfold rescore. cbn [factor impact kf_score].
  split; [reflexivity|]. split; [|split].
  - intros H. apply Qle_bool_iff in H. rewrite H.
    destruct (Qle_bool 75 (kf_score f)); discriminate.
  - intros H. apply Qle_bool_iff in H. now rewrite H.
  - intros H1 H2.
    destruct (toFixed1_range 600 1000 (kf_score f)) as [L U];
      [change (inject_Z 600) with 600; lra
      |change (inject_Z 1000) with 1000; lra|].
    change (inject_Z 600) with 600 in L.
    change (inject_Z 1000) with 1000 in U. split; lra.
Qed.

Lemma landAnalysis_more_fields
    (extract : string -> option string) (message : string)
    (context : ConversationContext) (w : World) (c : Cursor) :
  let resp :=
    fst (generateLandAnalysisResponse extract message context w c) in
  la_location resp = or_else (extract message) "Property Location"
  /\ confidenceLevel resp = toFixed 2 (draws w (1 + rnd c) * 0.3 + 0.7)
  /\ keyFactors resp
     = fst (generateKeyFactors (draws w (rnd c) * 40 + 60) w
              (mkCursor (2 + rnd c) (1 + tick c)))
  /\ oneYear (predictedValueChange resp)
     = toFixed 1 (draws w (8 + rnd c) * 10 - 2)
  /\ threeYear (predictedValueChange resp)
     = toFixed 1 (draws w (9 + rnd c) * 20 + 5)
  /\ fiveYear (predictedValueChange resp)
     = toFixed 1 (draws w (10 + rnd c) * 35 + 15)
  /\ snd (generateLandAnalysisResponse extract message context w c)
     = mkCursor (11 + rnd c) (1 + tick c).
Proof.
  unfold generateLandAnalysisResponse, generateKeyFactors.
  rewrite !bind_eq. repeat split.
Qed.

End LandAnalysisFacts.

(** X13. Whatever overall score is passed in, [generateKeyFactors]
    returns the same four factors - safety, school quality, market trends
    and transportation, in this order - after reading six draws; their
    reported scores lie between 60 and 100, none of them is ever rated
    negative and school quality is always rated positive. *)
Theorem X13_key_factors_never_negative :
  forall (s1 s2 : Q) (w : Js.World) (c : Js.Cursor),
    Js.unit_draws w ->
    let fs := fst (Nvapi.generateKeyFactors s1 w c) in
    fs = fst (Nvapi.generateKeyFactors s2 w c)
    /\ map Nvapi.factor fs
       = [ "Safety & Crime Rate"; "School Quality"; "Market Trends";
           "Transportation" ]%string
    /\ Forall (fun f => Nvapi.impact f <> Nvapi.negative
                       /\ 60 <= Nvapi.kf_score f
                       /\ Nvapi.kf_score f <= 100) fs
    /\ (forall f, In f fs -> Nvapi.factor f = "School Quality"%string ->
                  Nvapi.impact f = Nvapi.positive)
    /\ Js.rnd (snd (Nvapi.generateKeyFactors s1 w c)) = (6 + Js.rnd c)%nat.
Proof.
  intros s1 s2 w c Hw fs. unfold fs, Nvapi.generateKeyFactors.
  rewrite !bind_eq. cbn [Js.ret fst snd Js.Math_random Js.rnd firstn map].
  destruct (Hw (Js.rnd c)) as [A0 A1].
  destruct (Hw (S (Js.rnd c))) as [B0 B1].
  destruct (Hw (S (S (Js.rnd c)))) as [C0 C1].
  destruct (Hw (S (S (S (Js.rnd c))))) as [D0 D1].
  split; [reflexivity|].
  split; [reflexivity|].
  split.
  { repeat constructor;
      match goal with
      | |- Nvapi.impact (Nvapi.rescore ?f) <> _ =>
          apply (rescore_facts f); cbn [Nvapi.kf_score]; lra
      | |- 60 <= Nvapi.kf_score (Nvapi.rescore ?f) =>
          apply (rescore_facts f); cbn [Nvapi.kf_score]; lra
      | |- Nvapi.kf_score (Nvapi.rescore ?f) <= 100 =>
          apply (rescore_facts f); cbn [Nvapi.kf_score]; lra
      end. }
  split; [|reflexivity].
  intros f Hin Hname. cbn [In] in Hin.
  destruct Hin as [<- | [<- | [<- | [<- | []]]]];
    try (cbn in Hname; discriminate Hname).
  apply rescore_facts. cbn [Nvapi.kf_score]. lra.
Qed.

Lemma X13_witness :
  Js.unit_draws calm
  /\ map Nvapi.factor (fst (Nvapi.generateKeyFactors 60 calm Js.start))
     = [ "Safety & Crime Rate"; "School Quality"; "Market Trends";
         "Transportation" ]%string.
Proof.
  assert (Hw : Js.unit_draws calm) by exact calm_unit.
  split; [exact Hw|].
  exact (proj1 (proj2 (X13_key_factors_never_negative
                         60 99 calm Js.start Hw))).
Defined.

(** X14. Every land-analysis response forecasts a one-year change
    between -2 and 8, a three-year change between 5 and 25 and a
    five-year change between 15 and 50 (only the first can be negative),
    reports a confidence between 0.7 and 1 and exactly four key factors,
    and names a location: "Property Location" when the message yields
    none or an empty one, the extracted location otherwise.  It reads 11
    draws and one clock value. *)
Theorem X14_land_analysis_ranges :
  forall (extract : string -> option string) (message : string)
         (context : Nvapi.ConversationContext)
         (w : Js.World) (c : Js.Cursor),
    Js.unit_draws w ->
    let resp :=
      fst (Nvapi.generateLandAnalysisResponse extract message context w c)
    in
    let change := Nvapi.predictedValueChange resp in
    (-2 <= Nvapi.oneYear change /\ Nvapi.oneYear change <= 8)
    /\ (5 <= Nvapi.threeYear change /\ Nvapi.threeYear change <= 25)
    /\ (15 <= Nvapi.fiveYear change /\ Nvapi.fiveYear change <= 50)
    /\ (0.7 <= Nvapi.confidenceLevel resp
        /\ Nvapi.confidenceLevel resp <= 1)
    /\ List.length (Nvapi.keyFactors resp) = 4%nat
    /\ Nvapi.la_location resp <> EmptyString
    /\ (extract message = None \/ extract message = Some EmptyString ->
        Nvapi.la_location resp = "Property Location"%string)
    /\ (forall found, extract message = Some found ->
                      found <> EmptyString ->
                      Nvapi.la_location resp = found)
    /\ snd (Nvapi.generateLandAnalysisResponse extract message context w c)
       = Js.mkCursor (11 + Js.rnd c) (1 + Js.tick c).
Proof.
  intros extract message context w c Hw resp change.
  destruct (landAnalysis_more_fields extract message context w c)
    as (Hloc & Hconf & Hkf & H1y & H3y & H5y & Hcur).
  fold resp in Hloc, Hconf, Hkf, H1y, H3y, H5y.
  fold change in H1y, H3y, H5y.
  destruct (Hw (1 + Js.rnd c)%nat) as [A0 A1].
  destruct (Hw (8 + Js.rnd c)%nat) as [B0 B1].
  destruct (Hw (9 + Js.rnd c)%nat) as [C0 C1].
  destruct (Hw (10 + Js.rnd c)%nat) as [D0 D1].
  rewrite H1y, H3y, H5y, Hconf, Hkf, Hloc.
  split.
  { destruct (toFixed1_range (-20) 80 (Js.draws w (8 + Js.rnd c) * 10 - 2))
      as [L U];
      [change (inject_Z (-20)) with (-20); lra
      |change (inject_Z 80) with 80; lra|].
    change (inject_Z (-20)) with (-20) in L.
    change (inject_Z 80) with 80 in U. split; lra. }
  split.
  { destruct (toFixed1_range 50 250 (Js.draws w (9 + Js.rnd c) * 20 + 5))
      as [L U];
      [change (inject_Z 50) with 50; lra
      |change (inject_Z 250) with 250; lra|].
    change (inject_Z 50) with 50 in L.
    change (inject_Z 250) with 250 in U. split; lra. }
  split.
  { destruct (toFixed1_range 150 500 (Js.draws w (10 + Js.rnd c) * 35 + 15))
      as [L U];
      [change (inject_Z 150) with 150; lra
      |change (inject_Z 500) with 500; lra|].
    change (inject_Z 150) with 150 in L.
    change (inject_Z 500) with 500 in U. split; lra. }
  split.
  { destruct (toFixed_scaled 2 70 100
                (Js.draws w (1 + Js.rnd c) * 0.3 + 0.7)) as [L U];
      change (inject_Z (Js.pow10 2)) with 100 in *;
      [change (inject_Z 70) with 70; lra
      |change (inject_Z 100) with 100; lra|].
    change (inject_Z 70) with 70 in L.
    change (inject_Z 100) with 100 in U. split; lra. }
  split; [reflexivity|].
  split.
  { destruct (extract message) as [[| a s]|]; discriminate. }
  split.
  { intros [E | E]; rewrite E; reflexivity. }
  split; [|exact Hcur].
  intros found E Hne. rewrite E. destruct found; [contradiction | reflexivity].
Qed.

Lemma X14_witness :
  Js.unit_draws calm
  /\ Nvapi.la_location
       (fst (Nvapi.generateLandAnalysisResponse noLocation
               "Is this a good area to invest in?" aBuyer calm Js.start))
     = "Property Location"%string.
Proof.
  assert (Hw : Js.unit_draws calm) by exact calm_unit.
  split; [exact Hw|].
  pose proof (X14_land_analysis_ranges noLocation
                "Is this a good area to invest in?" aBuyer calm Js.start Hw)
    as H.
  cbv zeta in H.
  destruct H as (_ & _ & _ & _ & _ & _ & Hdefault & _).
  apply Hdefault. left. reflexivity.
Defined.

(** ** Keyword tests on messages *)
Section KeywordFacts.
Import Js.

Lemma lower_idempotent (c : ascii) : lower (lower c) = lower c.
Proof. destruct c as [[] [] [] [] [] [] [] []]; reflexivity. Qed.

Lemma is_word_char_lower (c : ascii) :
  is_word_char (lower c) = is_word_char c.
Proof. destruct c as [[] [] [] [] [] [] [] []]; reflexivity. Qed.

Lemma is_word_lower (c : option ascii) :
  is_word (option_map lower c) = is_word c.
Proof. destruct c; [apply is_word_char_lower | reflexivity]. Qed.

Lemma first_char_toLowerCase (s : string) :
  first_char (toLowerCase s) = option_map lower (first_char s).
Proof. destruct s; reflexivity. Qed.

Lemma boundary_lower (a b : option ascii) :
  boundary (option_map lower a) (option_map lower b) = boundary a b.
Proof. unfold boundary. now rewrite !is_word_lower. Qed.

Lemma literal_toLowerCase (pattern s : string) (last : option ascii) :
  literal pattern (toLowerCase s) (option_map lower last)
  = option_map (fun r => (option_map lower (fst r), toLowerCase (snd r)))
               (literal pattern s last).
Proof.
  revert s last. induction pattern as [| a pattern IH]; intros s last.
  - reflexivity.
  - destruct s as [| ch s]; [reflexivity|].
    cbn [literal toLowerCase]. rewrite lower_idempotent.
    destruct (Ascii.eqb (lower a) (lower ch)); [|reflexivity].
    apply (IH s (Some ch)).
Qed.

Lemma word_here_toLowerCase (before : option ascii) (s word : string) :
  word_here (option_map lower before) (toLowerCase s) word
  = word_here before s word.
Proof.
  unfold word_here.
  rewrite first_char_toLowerCase, boundary_lower, literal_toLowerCase.
  destruct (literal word s before) as [[last rest]|]; [|reflexivity].
  cbn [option_map fst snd].
  now rewrite first_char_toLowerCase, boundary_lower.
Qed.

Lemma existsb_pointwise {A} (f g : A -> bool) (l : list A) :
  (forall x, f x = g x) -> existsb f l = existsb g l.
Proof.
  intros H. induction l as [| x l IH]; [reflexivity|].
  cbn. now rewrite H, IH.
Qed.

Lemma test_from_toLowerCase (words : list string) (s : string)
    (before : option ascii) :
  test_from (option_map lower before) words (toLowerCase s)
  = test_from before words s.
Proof.
  revert before. induction s as [| ch s IH]; intros before.
  - cbn [toLowerCase test_from]. f_equal.
    apply existsb_pointwise. intros word.
    apply (word_here_toLowerCase before EmptyString word).
  - cbn [toLowerCase test_from]. f_equal.
    + apply existsb_pointwise. intros word.
      apply (word_here_toLowerCase before (String ch s) word).
    + apply (IH (Some ch)).
Qed.

(** The keyword tests see a message through its lower-case form only. *)
Lemma test_words_toLowerCase (words : list string) (s : string) :
  test_words words (toLowerCase s) = test_words words s.
Proof. apply (test_from_toLowerCase words s None). Qed.

Lemma test_from_more_words (ws1 ws2 : list string) (s : string)
    (before : option ascii) :
  incl ws1 ws2 ->
  test_from before ws1 s = true -> test_from before ws2 s = true.
Proof.
  intros Hincl. revert before.
  assert (Hex : forall before s0,
             existsb (word_here before s0) ws1 = true ->
             existsb (word_here before s0) ws2 = true).
  { intros before s0 H. apply existsb_exists in H as (x & Hin & Hx).
    apply existsb_exists. exists x. split; [now apply Hincl | exact Hx]. }
  induction s as [| ch s IH]; intros before H; cbn [test_from] in *.
  - rewrite orb_false_r in *. now apply Hex.
  - apply orb_true_iff in H as [H | H]; apply orb_true_iff.
    + left. now apply Hex.
    + right. now apply IH.
Qed.

End KeywordFacts.

(** X15. The keyword tests ignore letter case: two messages that differ
    only in the case of their ASCII letters get the same three flags from
    [enhanceMessage], and the same decision on whether sending them
    triggers a land analysis. *)
Theorem X15_keyword_flags_ignore_case :
  forall (m1 m2 : string) (context : Nvapi.ConversationContext),
    Js.toLowerCase m1 = Js.toLowerCase m2 ->
    let e1 := Nvapi.enhanceMessage m1 context in
    let e2 := Nvapi.enhanceMessage m2 context in
    Nvapi.hasLandAnalysis e1 = Nvapi.hasLandAnalysis e2
    /\ Nvapi.hasPriceAnalysis e1 = Nvapi.hasPriceAnalysis e2
    /\ Nvapi.hasMarketTrends e1 = Nvapi.hasMarketTrends e2
    /\ MessagesPage.shouldAnalyze (Some e1) m1
       = MessagesPage.shouldAnalyze (Some e2) m2.
Proof.
  intros m1 m2 context Hsame e1 e2.
  assert (Hany : forall words,
             Js.test_words words m1 = Js.test_words words m2).
  { intros words.
    rewrite <- (test_words_toLowerCase words m1),
            <- (test_words_toLowerCase words m2), Hsame. reflexivity. }
  unfold MessagesPage.shouldAnalyze, e1, e2, Nvapi.enhanceMessage.
  cbn [Nvapi.hasLandAnalysis Nvapi.hasPriceAnalysis Nvapi.hasMarketTrends].
  rewrite !Hany. repeat split.
Qed.

Lemma X15_witness :
  Nvapi.hasMarketTrends
    (Nvapi.enhanceMessage "What is the MARKET Forecast?" aBuyer)
  = Nvapi.hasMarketTrends
      (Nvapi.enhanceMessage "what is the market forecast?" aBuyer).
Proof.
  refine (proj1 (proj2 (proj2 (X15_keyword_flags_ignore_case
                                 "What is the MARKET Forecast?"
                                 "what is the market forecast?" aBuyer _)))).
  reflexivity.
Defined.

(** X16. A message that contains one of the whole words analysis, score,
    rating or investment always triggers a land analysis when it is sent
    right after being enhanced, and is stored as a land_analysis message;
    a message with none of the land keywords never does, even if it says
    analyze or market, and neither does any message while no enhancement
    is stored. *)
Theorem X16_what_triggers_a_land_analysis :
  forall (message : string) (context : Nvapi.ConversationContext),
    let e := Nvapi.enhanceMessage message context in
    (forall word,
        In word ["analysis"; "score"; "rating"; "investment"]%string ->
        Js.test_words [word] message = true ->
        MessagesPage.shouldAnalyze (Some e) message = true
        /\ MessagesPage.message_type
             (MessagesPage.shouldAnalyze (Some e) message)
           = "land_analysis"%string)
    /\ (Js.test_words Nvapi.landAnalysisKeywords message = false ->
        MessagesPage.shouldAnalyze (Some e) message = false)
    /\ MessagesPage.shouldAnalyze None message = false.
Proof.
  intros message context e. split; [|split; [|reflexivity]].
  - intros word Hin Hword.
    assert (Hland : Js.test_words Nvapi.landAnalysisKeywords message = true).
    { apply (test_from_more_words [word]); [|exact Hword].
      intros x [<- | []]. cbn [In] in Hin. cbn.
      destruct Hin as [<- | [<- | [<- | [<- | []]]]]; tauto. }
    assert (Htrig : Js.test_words MessagesPage.analysisTriggers message
                    = true).
    { apply (test_from_more_words [word]); [|exact Hword].
      intros x [<- | []]. cbn [In] in Hin. cbn.
      destruct Hin as [<- | [<- | [<- | [<- | []]]]]; tauto. }
    assert (Hyes : MessagesPage.shouldAnalyze (Some e) message = true).
    { unfold MessagesPage.shouldAnalyze, e, Nvapi.enhanceMessage.
      cbn [Nvapi.hasLandAnalysis]. now rewrite Hland, Htrig. }
    split; [exact Hyes | now rewrite Hyes].
  - intros Hnone. unfold MessagesPage.shouldAnalyze, e, Nvapi.enhanceMessage.
    cbn [Nvapi.hasLandAnalysis]. now rewrite Hnone.
Qed.

Lemma X16_witness :
  Js.test_words ["investment"%string]
    "Is this a good Investment, or should I wait?" = true
  /\ MessagesPage.shouldAnalyze
       (Some (Nvapi.enhanceMessage
                "Is this a good Investment, or should I wait?" aBuyer))
       "Is this a good Investment, or should I wait?" = true.
Proof.
  assert (Hword : Js.test_words ["investment"%string]
                    "Is this a good Investment, or should I wait?" = true)
    by reflexivity.
  split; [exact Hword|].
  refine (proj1 (proj1 (X16_what_triggers_a_land_analysis
                          "Is this a good Investment, or should I wait?"
                          aBuyer) "investment"%string _ Hword)).
  cbn. tauto.
Defined.

(** ** Conversation replies *)
Section ReplyFacts.
Import Js Nvapi.

Lemma item_in_range (arr : list string) (i : Z) :
  (0 <= i < Z.of_nat (List.length arr))%Z -> In (item arr i) arr.
Proof.
  intros Hi. unfold item.
  destruct (Z.ltb_spec i 0); [lia|].
  apply nth_In. lia.
Qed.

(** A draw picks an element of a non-empty array. *)
Lemma at_random_picks (arr : list string) (r : Q) :
  0 <= r -> r < 1 -> arr <> [] ->
  exists text, at_random (value arr) r = Some text /\ In text arr.
Proof.
  intros H0 H1 Hne. unfold at_random.
  assert (Hlen : (0 < Z.of_nat (List.length arr))%Z)
    by (destruct arr; [contradiction | cbn [List.length]; lia]).
  pose proof (floor_of_scaled_draw r _ H0 H1 Hlen) as Hi.
  set (i := Math_floor (r * inject_Z (Z.of_nat (List.length arr)))) in *.
  destruct (Z.ltb_spec i 0); [lia|].
  destruct (nth_error arr (Z.to_nat i)) as [text|] eqn:E.
  - exists text. split; [reflexivity|]. exact (nth_error_In _ _ E).
  - apply nth_error_None in E. lia.
Qed.

Lemma known_role_responses (role : string) (replies : list string)
    (message : string) (context : ConversationContext) :
  In (role, replies) roleResponses ->
  getRoleBasedResponses role message context = value replies
  /\ replies <> [].
Proof.
  intros Hin. cbn [roleResponses In] in Hin.
  decompose [or] Hin; try contradiction;
    match goal with
    | E : (_, _) = (_, _) |- _ => injection E as <- <-
    end; split; (reflexivity || discriminate).
Qed.

Lemma builtin_role_responses (role : string) (message : string)
    (context : ConversationContext) :
  In role Object_prototype ->
  getRoleBasedResponses role message context = builtin role.
Proof.
  intros Hin. cbn [Object_prototype In] in Hin.
  decompose [or] Hin; try contradiction; subst; reflexivity.
Qed.

Lemma other_role_responses (role : string) (message : string)
    (context : ConversationContext) :
  ~ In role (map fst roleResponses) -> ~ In role Object_prototype ->
  getRoleBasedResponses role message context = value buyerResponses.
Proof.
  intros Hrole Hproto.
  unfold getRoleBasedResponses, get, roleResponses. cbn [assoc].
  repeat match goal with
         | |- context [String.eqb ?k role] =>
             destruct (String.eqb_spec k role) as [E | _];
             [exfalso; apply Hrole; rewrite <- E; cbn; tauto|]
         end.
  assert (Hex : existsb (String.eqb role) Object_prototype = false).
  { destruct (existsb (String.eqb role) Object_prototype) eqn:E;
      [|reflexivity].
    apply existsb_exists in E as (name & Hin & Hname).
    apply String.eqb_eq in Hname. subst name. contradiction. }
  rewrite Hex. reflexivity.
Qed.

End ReplyFacts.

(** X17. The reply generated for a conversation depends on the role
    string alone: for one of the four known roles, and so for every typed
    context, it is one of the three replies written for that role; for a
    role that names a member of [Object.prototype] (constructor, toString,
    __proto__, ...) the lookup returns that member in place of an array and
    the reply is undefined; for any other role it is one of the buyer's
    three replies.  One draw is read in each case. *)
Theorem X17_reply_comes_from_the_role :
  forall (role : string) (message : string)
         (context : Nvapi.ConversationContext)
         (w : Js.World) (c : Js.Cursor),
    Js.unit_draws w ->
    let reply := fst (Nvapi.conversationResponse role message context w c) in
    (forall replies,
        In (role, replies) Nvapi.roleResponses ->
        List.length replies = 3%nat
        /\ exists text, reply = Some text /\ In text replies)
    /\ (In role Js.Object_prototype ->
        Nvapi.getRoleBasedResponses role message context = Js.builtin role
        /\ reply = None)
    /\ (~ In role (map fst Nvapi.roleResponses) ->
        ~ In role Js.Object_prototype ->
        exists text, reply = Some text /\ In text Nvapi.buyerResponses)
    /\ (exists replies text,
          In (Nvapi.role_name (Nvapi.userRole context), replies)
             Nvapi.roleResponses
          /\ fst (Nvapi.generateConversationResponse message context w c)
             = Some text
          /\ In text replies)
    /\ Js.rnd (snd (Nvapi.conversationResponse role message context w c))
       = (1 + Js.rnd c)%nat.
Proof.
  intros role message context w c Hw reply.
  destruct (Hw (Js.rnd c)) as [H0 H1].
  assert (Hreply : forall role0,
             fst (Nvapi.conversationResponse role0 message context w c)
             = Js.at_random
                 (Nvapi.getRoleBasedResponses role0 message context)
                 (Js.draws w (Js.rnd c))).
  { intros role0. unfold Nvapi.conversationResponse.
    rewrite bind_eq. reflexivity. }
  assert (Hknown : forall role0 replies,
             In (role0, replies) Nvapi.roleResponses ->
             List.length replies = 3%nat
             /\ exists text,
                  fst (Nvapi.conversationResponse role0 message context w c)
                  = Some text /\ In text replies).
  { intros role0 replies Hin.
    destruct (known_role_responses role0 replies message context Hin)
      as [Hget Hne].
    split.
    - cbn [Nvapi.roleResponses In] in Hin.
      decompose [or] Hin; try contradiction;
        match goal with
        | E : (_, _) = (_, _) |- _ => injection E as <- <-
        end; reflexivity.
    - rewrite Hreply, Hget. now apply at_random_picks. }
  split; [intros replies Hin; exact (Hknown role replies Hin)|].
  split.
  { intros Hin.
    pose proof (builtin_role_responses role message context Hin) as Hget.
    split; [exact Hget|]. unfold reply. rewrite Hreply, Hget. reflexivity. }
  split.
  { intros Hrole Hproto. unfold reply.
    rewrite Hreply,
      (other_role_responses role message context Hrole Hproto).
    apply at_random_picks; [exact H0 | exact H1 | discriminate]. }
  split; [|unfold Nvapi.conversationResponse; rewrite bind_eq; reflexivity].
  unfold Nvapi.generateConversationResponse.
  assert (Hrole : exists replies,
             In (Nvapi.role_name (Nvapi.userRole context), replies)
                Nvapi.roleResponses).
  { destruct (Nvapi.userRole context); eexists; cbn; tauto. }
  destruct Hrole as (replies & Hin).
  destruct (Hknown _ replies Hin) as (_ & text & Htext & Hintext).
  exists replies, text. split; [exact Hin|]. split; assumption.
Qed.

Lemma X17_witness :
  Js.unit_draws even_odds
  /\ In "toString"%string Js.Object_prototype
  /\ fst (Nvapi.conversationResponse "toString" "Can you tell me more?"
            aBuyer even_odds Js.start) = None
  /\ fst (Nvapi.generateConversationResponse "Can you tell me more?"
            aBuyer even_odds Js.start)
     = Some "Based on current market conditions, this could be a good opportunity. Here's what the data shows..."%string.
Proof.
  assert (Hw : Js.unit_draws even_odds) by exact even_odds_unit.
  assert (Hin : In "toString"%string Js.Object_prototype)
    by (cbn; tauto).
  split; [exact Hw|]. split; [exact Hin|]. split; [|reflexivity].
  exact (proj2 (proj1 (proj2 (X17_reply_comes_from_the_role
                                "toString" "Can you tell me more?" aBuyer
                                even_odds Js.start Hw)) Hin)).
Defined.

(** ** What the pages show for the results they generate *)
Section ColourFacts.
Import Js.

Lemma Qle_bool_true (a b : Q) : a <= b -> Qle_bool a b = true.
Proof. apply Qle_bool_iff. Qed.

Lemma Qle_bool_false (a b : Q) : b < a -> Qle_bool a b = false.
Proof.
  intros H. destruct (Qle_bool a b) eqn:E; [|reflexivity].
  apply Qle_bool_iff in E. lra.
Qed.

End ColourFacts.

(** X18. The valuation page always shows the confidence of a result it
    generated in the high-confidence colour: the mock's confidence never
    falls below 0.8. *)
Theorem X18_valuation_confidence_always_green :
  forall (data : ValuationPage.PropertyValuationForm)
         (w : Js.World) (c : Js.Cursor),
    Js.unit_draws w ->
    ValuationPage.getConfidenceColor
      (ValuationPage.confidence_score
         (Js.run (ValuationPage.mockResult data) w c))
    = "#10b981"%string.
Proof.
  intros data w c Hw.
  destruct (valuation_fields data w c) as (_ & _ & Hc). rewrite Hc.
  destruct (Hw (3 + Js.rnd c)%nat) as [H0 H1].
  unfold ValuationPage.getConfidenceColor.
  rewrite Qle_bool_true; [reflexivity | lra].
Qed.

Lemma X18_witness :
  Js.unit_draws calm
  /\ ValuationPage.getConfidenceColor
       (ValuationPage.confidence_score
          (Js.run (ValuationPage.mockResult aValuationForm) calm Js.start))
     = "#10b981"%string.
Proof.
  assert (Hw : Js.unit_draws calm) by exact calm_unit.
  split; [exact Hw|].
  exact (X18_valuation_confidence_always_green
           aValuationForm calm Js.start Hw).
Defined.

(** X19. On the scoring page colour and label always agree (green with
    Excellent, amber with Good, orange with Fair, red with Poor, for any
    score), and a generated result is never labelled Fair or Poor: its
    overall score is Good or Excellent, its school and environmental
    scores are always Excellent. *)
Theorem X19_score_labels_of_generated_results :
  forall (data : ScoringPage.BeneficiaryScoringForm)
         (w : Js.World) (c : Js.Cursor) (score : Q),
    Js.unit_draws w ->
    let r := Js.run (ScoringPage.mockResult data) w c in
    ((ScoringPage.getScoreLabel score = "Excellent"%string
      <-> ScoringPage.getScoreColor score = "#10b981"%string)
     /\ (ScoringPage.getScoreLabel score = "Good"%string
         <-> ScoringPage.getScoreColor score = "#f59e0b"%string)
     /\ (ScoringPage.getScoreLabel score = "Fair"%string
         <-> ScoringPage.getScoreColor score = "#f97316"%string)
     /\ (ScoringPage.getScoreLabel score = "Poor"%string
         <-> ScoringPage.getScoreColor score = "#ef4444"%string))
    /\ In (ScoringPage.getScoreLabel (ScoringPage.overall_score r))
          ["Good"; "Excellent"]%string
    /\ Forall (fun s => In (ScoringPage.getScoreLabel s)
                           ["Good"; "Excellent"]%string)
         [ ScoringPage.value_score r; ScoringPage.safety_score r;
           ScoringPage.accessibility_score r ]
    /\ ScoringPage.getScoreLabel (ScoringPage.school_score r)
       = "Excellent"%string
    /\ ScoringPage.getScoreLabel (ScoringPage.environmental_score r)
       = "Excellent"%string.
Proof.
  intros data w c score Hw r.
  split.
  { unfold ScoringPage.getScoreLabel, ScoringPage.getScoreColor.
    destruct (Qle_bool 80 score);
      [|destruct (Qle_bool 60 score); [|destruct (Qle_bool 40 score)]];
      repeat split; intros H; reflexivity || discriminate H. }
  destruct (scoring_fields data w c) as (Ho & Hv & Hs & Hf & He & Ha & _).
  fold r in Ho, Hv, Hs, Hf, He, Ha.
  rewrite Ho, Hv, Hs, Hf, He, Ha.
  destruct (Hw (1 + Js.rnd c)%nat). destruct (Hw (2 + Js.rnd c)%nat).
  destruct (Hw (3 + Js.rnd c)%nat). destruct (Hw (4 + Js.rnd c)%nat).
  destruct (Hw (5 + Js.rnd c)%nat). destruct (Hw (6 + Js.rnd c)%nat).
  assert (Hgood : forall s, 60 <= s ->
             In (ScoringPage.getScoreLabel s) ["Good"; "Excellent"]%string).
  { intros s Hs60. unfold ScoringPage.getScoreLabel.
    destruct (Qle_bool 80 s); [cbn; tauto|].
    rewrite (Qle_bool_true 60 s Hs60). cbn; tauto. }
  split; [apply Hgood; lra|].
  split.
  { constructor; [apply Hgood; lra|].
    constructor; [apply Hgood; lra|].
    constructor; [apply Hgood; lra | constructor]. }
  unfold ScoringPage.getScoreLabel.
  split; rewrite Qle_bool_true; reflexivity || lra.
Qed.

Lemma X19_witness :
  Js.unit_draws calm
  /\ ScoringPage.getScoreLabel (ScoringPage.overall_score calmScore)
     = "Good"%string.
Proof.
  assert (Hw : Js.unit_draws calm) by exact calm_unit.
  split; [exact Hw|].
  pose proof (X19_score_labels_of_generated_results
                aScoringForm calm Js.start 0 Hw) as H.
  cbv zeta in H. destruct H as (_ & Hoverall & _).
  cbn [In] in Hoverall.
  destruct Hoverall as [E | [E | []]]; [symmetry; exact E|].
  vm_compute in E. discriminate E.
Defined.

(** ** Recommendations, continued *)
Section MoreRecommendationFacts.
Import Js RecommendationsPage.

(** What holds of a candidate generated at [index] for a request. *)
Let well_formed (data : RecommendationForm) (n : nat)
    (r : PropertyRecommendation) : Prop :=
  rank_position r = id r
  /\ (1 <= id r <= Z.of_nat n)%Z
  /\ rec_type r = recommendation_type data
  /\ (0.6 <= similarity_score r /\ similarity_score r <= 1)
  /\ (0.7 <= confidence_score r /\ confidence_score r <= 1)
  /\ (1970 <= year_built (recommended_property r) <= 2019)%Z
  /\ In (recommendation_reason r) reasons.

Lemma candidate_well_formed (data : RecommendationForm) (w : World)
    (n : nat) :
  unit_draws w ->
  forall index c, (index < n)%nat ->
    well_formed data n (fst (candidate data index w c)).
Proof.
  intros Hw index c Hlt. unfold well_formed.
  cbn -[Math_floor Qmult Qplus Z.add Z.of_nat item reasons].
  destruct (Hw (S (S (S (S (S (rnd c))))))) as [Y0 Y1].
  destruct (Hw (10 + rnd c)%nat) as [S0 S1].
  destruct (Hw (11 + rnd c)%nat) as [C0 C1].
  destruct (Hw (12 + rnd c)%nat) as [R0 R1].
  cbn [Nat.add] in S0, S1, C0, C1, R0, R1.
  pose proof (floor_of_scaled_draw _ 50 Y0 Y1 eq_refl) as Fy.
  pose proof (floor_of_scaled_draw _ 5 R0 R1 eq_refl) as Fr.
  change (inject_Z 50) with 50 in Fy. change (inject_Z 5) with 5 in Fr.
  split; [reflexivity|]. split; [lia|]. split; [reflexivity|].
  split; [lra|]. split; [lra|]. split; [lia|].
  apply item_in_range. cbn [reasons List.length Z.of_nat Pos.of_succ_nat
                            Pos.succ]. lia.
Qed.

Lemma Array_from_at_Forall_indexed {A} (P : nat -> A -> Prop) (f : nat -> M A)
    (w : World) :
  forall n index c,
    (forall i c0, (index <= i < index + n)%nat -> P i (fst (f i w c0))) ->
    Forall (fun x => exists i, (index <= i < index + n)%nat /\ P i x)
           (fst (Array_from_at n f index w c)).
Proof.
  induction n as [| n IH]; intros index c Hf; [constructor|].
  cbn [Array_from_at]. rewrite !bind_eq. cbn [ret fst].
  constructor.
  - exists index. split; [lia | apply Hf; lia].
  - eapply Forall_impl; [|apply (IH (S index)); intros; apply Hf; lia].
    intros x (i & Hi & Hx). exists i. split; [lia | exact Hx].
Qed.

Lemma mockResults_well_formed (data : RecommendationForm)
    (w : World) (c : Cursor) :
  unit_draws w ->
  Forall (well_formed data (ToLength (max_recommendations data)))
         (run (mockResults data) w c).
Proof.
  intros Hw. rewrite mockResults_eq. apply Array_sort_Forall.
  set (n := ToLength (max_recommendations data)).
  eapply Forall_impl;
    [|apply (Array_from_at_Forall_indexed
               (fun i x => (i < n)%nat /\ well_formed data n x)
               (candidate data) w n 0 c)].
  - intros x (i & _ & _ & Hx). exact Hx.
  - intros i c0 Hi. split; [lia|].
    apply candidate_well_formed; [exact Hw | lia].
Qed.

Lemma mockResults_ids_distinct (data : RecommendationForm)
    (w : World) (c : Cursor) :
  NoDup (map id (run (mockResults data) w c)).
Proof.
  rewrite mockResults_eq.
  eapply Permutation_NoDup.
  - symmetry. apply Permutation_map, Array_sort_Permutation.
  - rewrite (Array_from_at_map _ id (fun i => Z.of_nat i + 1)%Z);
      [|intros; reflexivity].
    apply Finite.Injective_map_NoDup; [|apply seq_NoDup].
    intros a b Hab. lia.
Qed.

End MoreRecommendationFacts.

(** X20. Every recommendation the page generates carries a rank position
    equal to its id, between 1 and the number of results, the requested
    recommendation type, a similarity in [0.6, 1], a confidence in
    [0.7, 1], a year built from 1970 to 2019 and one of the five listed
    reasons; the ids of one result list are all distinct. *)
Theorem X20_recommendations_well_formed :
  forall (data : RecommendationsPage.RecommendationForm)
         (w : Js.World) (c : Js.Cursor),
    Js.unit_draws w ->
    let rs := Js.run (RecommendationsPage.mockResults data) w c in
    NoDup (map RecommendationsPage.id rs)
    /\ Forall
         (fun r =>
            RecommendationsPage.rank_position r = RecommendationsPage.id r
            /\ (1 <= RecommendationsPage.id r
                <= Z.of_nat (List.length rs))%Z
            /\ RecommendationsPage.rec_type r
               = RecommendationsPage.recommendation_type data
            /\ (0.6 <= RecommendationsPage.similarity_score r
                /\ RecommendationsPage.similarity_score r <= 1)
            /\ (0.7 <= RecommendationsPage.confidence_score r
                /\ RecommendationsPage.confidence_score r <= 1)
            /\ (1970 <= RecommendationsPage.year_built
                          (RecommendationsPage.recommended_property r)
                <= 2019)%Z
            /\ In (RecommendationsPage.recommendation_reason r)
                  RecommendationsPage.reasons)
         rs.
Proof.
  intros data w c Hw rs.
  split; [apply mockResults_ids_distinct|].
  unfold rs at 1. rewrite (mockResults_length data w c).
  apply mockResults_well_formed, Hw.
Qed.

Lemma X20_witness :
  Js.unit_draws secondIsBest
  /\ NoDup (map RecommendationsPage.id fiveResults).
Proof.
  assert (Hw : Js.unit_draws secondIsBest).
  { apply world_of_unit.
    repeat (constructor; [split; discriminate || reflexivity|]).
    constructor. }
  split; [exact Hw|].
  exact (proj1 (X20_recommendations_well_formed
                  fiveResultsForm secondIsBest Js.start Hw)).
Defined.

(** X21. The recommendations page never shows a generated result in the
    low-similarity colour nor in the low-confidence colour: similarity is
    shown blue from 0.8 up and green below, confidence green from 0.8 up
    and amber below. *)
Theorem X21_recommendation_colours :
  forall (data : RecommendationsPage.RecommendationForm)
         (w : Js.World) (c : Js.Cursor),
    Js.unit_draws w ->
    Forall
      (fun r =>
         In (RecommendationsPage.getSimilarityColor
               (RecommendationsPage.similarity_score r))
            ["#2563eb"; "#10b981"]%string
         /\ In (RecommendationsPage.getConfidenceColor
                  (RecommendationsPage.confidence_score r))
               ["#10b981"; "#f59e0b"]%string)
      (Js.run (RecommendationsPage.mockResults data) w c).
Proof.
  intros data w c Hw.
  eapply Forall_impl; [|apply (mockResults_well_formed data w c Hw)].
  intros r (_ & _ & _ & (Hs & _) & (Hc & _) & _).
  unfold RecommendationsPage.getSimilarityColor,
         RecommendationsPage.getConfidenceColor.
  split.
  - destruct (Qle_bool 0.8 _); [cbn; tauto|].
    rewrite Qle_bool_true; [cbn; tauto | exact Hs].
  - destruct (Qle_bool 0.8 _); [cbn; tauto|].
    rewrite Qle_bool_true; [cbn; tauto | lra].
Qed.

Lemma X21_witness :
  Js.unit_draws calm
  /\ Forall
       (fun r =>
          In (RecommendationsPage.getSimilarityColor
                (RecommendationsPage.similarity_score r))
             ["#2563eb"; "#10b981"]%string
          /\ In (RecommendationsPage.getConfidenceColor
                   (RecommendationsPage.confidence_score r))
                ["#10b981"; "#f59e0b"]%string)
       (Js.run (RecommendationsPage.mockResults fourBedsForm) calm Js.start).
Proof.
  assert (Hw : Js.unit_draws calm) by exact calm_unit.
  split; [exact Hw|].
  exact (X21_recommendation_colours fourBedsForm calm Js.start Hw).
Defined.

(** X22. For every request the page orders its results by similarity,
    highest first, keeps results of equal similarity in ascending id
    order, and leaves the rank positions a rearrangement of 1, ..., n. *)
Theorem X22_results_sorted_stably :
  forall (data : RecommendationsPage.RecommendationForm)
         (w : Js.World) (c : Js.Cursor) (k : Q),
    let rs := Js.run (RecommendationsPage.mockResults data) w c in
    RecommendationsPage.similarity_non_increasing rs
    /\ (exists picked,
          map RecommendationsPage.id
              (filter (fun r =>
                         Qeq_bool (RecommendationsPage.similarity_score r) k)
                      rs)
          = map (fun i => Z.of_nat i + 1)%Z picked
          /\ StronglySorted lt picked)
    /\ Permutation
         (map RecommendationsPage.rank_position rs)
         (map (fun i => Z.of_nat i + 1)%Z (seq 0 (List.length rs))).
Proof.
  intros data w c k rs.
  split; [apply mockResults_similarity_non_increasing|].
  split; [apply mockResults_ties_by_id|].
  unfold rs at 2. rewrite (mockResults_length data w c).
  apply mockResults_ranks_rearranged.
Qed.

(** X23. Where [Array.from] returns, for a request below 2^32, the page
    stores ToLength(max_recommendations) results and its success toast
    announces exactly the number it stored: a request for less than one
    result (or a negative number) stores an empty list and announces 0, a
    fractional request is cut down to its whole part.  From 2^32 on
    [Array.from] throws: the page raises its error toast, keeps the
    results it had and reads no draw.  Either way [loading] ends false. *)
Theorem X23_result_count_and_toast :
  forall (data : RecommendationsPage.RecommendationForm)
         (st : RecommendationsPage.PageState)
         (w : Js.World) (c : Js.Cursor),
    let st' := Js.run (RecommendationsPage.onSubmit data st) w c in
    Ui.loading st' = false
    /\ (RecommendationsPage.max_recommendations data < 4294967296 ->
        Ui.toasts st'
        = Ui.toast_success
            [ Js.Lit "Found ";
              Js.Num (inject_Z (Z.of_nat (List.length (Ui.result st'))));
              Js.Lit " property recommendations!" ] :: Ui.toasts st
        /\ List.length (Ui.result st')
           = Js.ToLength (RecommendationsPage.max_recommendations data)
        /\ (RecommendationsPage.max_recommendations data < 1 ->
            Ui.result st' = [])
        /\ (forall n : nat,
              inject_Z (Z.of_nat n)
              <= RecommendationsPage.max_recommendations data ->
              RecommendationsPage.max_recommendations data
              < inject_Z (Z.of_nat n + 1) ->
              List.length (Ui.result st') = n))
    /\ (4294967296 <= RecommendationsPage.max_recommendations data ->
        Ui.toasts st'
        = Ui.toast_error
            [Js.Lit "Failed to get property recommendations. Please try again."]
          :: Ui.toasts st
        /\ Ui.result st' = Ui.result st
        /\ snd (RecommendationsPage.onSubmit data st w c) = c).
Proof.
  intros data st w c st'.
  split.
  { destruct (Js.Array_from_throws
                (RecommendationsPage.max_recommendations data)) eqn:E.
    - apply (recommendations_onSubmit_fails data st w c E).
    - apply (recommendations_onSubmit_stores data st w c E). }
  split.
  - intros Hsmall.
    destruct (recommendations_onSubmit_stores data st w c
                (Array_from_throws_false _ Hsmall)) as (Hres & _ & Htoast).
    fold st' in Hres, Htoast.
    assert (Hlen : List.length (Ui.result st')
                   = Js.ToLength
                       (RecommendationsPage.max_recommendations data))
      by (rewrite Hres; apply mockResults_length).
    split; [exact Htoast|]. split; [exact Hlen|]. split.
    + intros Hlt.
      assert (H0 : List.length (Ui.result st') = 0%nat).
      { rewrite Hlen. unfold Js.ToLength.
        assert (Qfloor (RecommendationsPage.max_recommendations data)
                <= 0)%Z.
        { assert (H : inject_Z
                        (Qfloor
                           (RecommendationsPage.max_recommendations data))
                      < inject_Z 1)
            by (apply Qle_lt_trans
                  with (RecommendationsPage.max_recommendations data);
                [apply Qfloor_le | exact Hlt]).
          rewrite <- Zlt_Qlt in H. lia. }
        lia. }
      destruct (Ui.result st'); [reflexivity | discriminate H0].
    + intros n Hlo Hhi.
      rewrite Hlen. unfold Js.ToLength.
      destruct (Qfloor_between (Z.of_nat n) (Z.of_nat n) _ Hlo Hhi).
      assert (Hn : inject_Z (Z.of_nat n) < inject_Z 4294967296)
        by (apply Qle_lt_trans
              with (RecommendationsPage.max_recommendations data);
            assumption).
      rewrite <- Zlt_Qlt in Hn.
      change (2 ^ 53 - 1)%Z with 9007199254740991%Z. lia.
  - intros Hbig.
    destruct (recommendations_onSubmit_fails data st w c
                (Array_from_throws_true _ Hbig))
      as (Hres & _ & Htoast & Hcur).
    split; [exact Htoast|]. split; [exact Hres | exact Hcur].
Qed.

Lemma X23_witness :
  4294967296 <= RecommendationsPage.max_recommendations tooManyForm
  /\ Ui.result
       (Js.run (RecommendationsPage.onSubmit tooManyForm
                  RecommendationsPage.initial) calm Js.start) = []
  /\ RecommendationsPage.max_recommendations halfResultForm < 1
  /\ Ui.result
       (Js.run (RecommendationsPage.onSubmit halfResultForm
                  RecommendationsPage.initial) calm Js.start) = [].
Proof.
  assert (Hbig : 4294967296
                 <= RecommendationsPage.max_recommendations tooManyForm)
    by discriminate.
  assert (Hlt : RecommendationsPage.max_recommendations halfResultForm < 1)
    by reflexivity.
  assert (Hsmall : RecommendationsPage.max_recommendations halfResultForm
                   < 4294967296) by reflexivity.
  split; [exact Hbig|]. split.
  { exact (proj1 (proj2 (proj2 (proj2 (X23_result_count_and_toast
                                        tooManyForm
                                        RecommendationsPage.initial
                                        calm Js.start)) Hbig))). }
  split; [exact Hlt|].
  destruct (proj1 (proj2 (X23_result_count_and_toast
                            halfResultForm RecommendationsPage.initial
                            calm Js.start)) Hsmall)
    as (_ & _ & Hempty & _).
  exact (Hempty Hlt).
Defined.

(** ** The comprehensive page *)
Section ComprehensiveFacts.
Import Js ComprehensivePage.

Lemma comprehensive_more_fields (data : ComprehensiveAnalysisForm)
    (w : World) (c : Cursor) :
  let r := run (mockResult data) w c in
  recommendations r
  = fst (Array_from_at 5 recommendation 0 w (mkCursor (9 + rnd c) (tick c)))
  /\ risk_level (risk_assessment r)
     = level (Math_floor (draws w (34 + rnd c) * 3)).
Proof.
  unfold mockResult, run. rewrite !bind_eq. split; reflexivity.
Qed.

Lemma recommendation_ranges (w : World) :
  unit_draws w ->
  forall index c,
    let x := fst (recommendation index w c) in
    (0.6 <= similarity_score x /\ similarity_score x <= 1)
    /\ (0.7 <= r_confidence_score x /\ r_confidence_score x <= 1)
    /\ (200000 <= r_predicted_value x /\ r_predicted_value x <= 400000).
Proof.
  intros Hw index c. cbn -[Qmult Qplus].
  destruct (Hw (S (S (rnd c)))) as [V0 V1].
  destruct (Hw (S (S (S (rnd c))))) as [S0 S1].
  destruct (Hw (S (S (S (S (rnd c)))))) as [C0 C1].
  repeat split; lra.
Qed.

Lemma level_defined (r : Q) :
  0 <= r -> r < 1 -> level (Math_floor (r * 3)) <> None.
Proof.
  intros H0 H1.
  pose proof (floor_of_scaled_draw r 3 H0 H1 eq_refl) as Hf.
  change (inject_Z 3) with 3 in Hf. unfold level.
  destruct (Z.eqb_spec (Math_floor (r * 3)) 0); [discriminate|].
  destruct (Z.eqb_spec (Math_floor (r * 3)) 1); [discriminate|].
  destruct (Z.eqb_spec (Math_floor (r * 3)) 2); [discriminate | lia].
Qed.

End ComprehensiveFacts.

(** X24. Every comprehensive result lists exactly five recommendations
    with ids 1 to 5 in this order (they are not sorted), each with a
    similarity in [0.6, 1], a confidence in [0.7, 1] and a value in
    [200000, 400000]; its risk level is always one of LOW, MEDIUM and
    HIGH, so the risk is never shown in the fallback grey, and the overall
    score is never shown in red. *)
Theorem X24_comprehensive_result_shape :
  forall (data : ComprehensivePage.ComprehensiveAnalysisForm)
         (w : Js.World) (c : Js.Cursor),
    Js.unit_draws w ->
    let r := Js.run (ComprehensivePage.mockResult data) w c in
    map ComprehensivePage.id (ComprehensivePage.recommendations r)
    = [1; 2; 3; 4; 5]%Z
    /\ Forall
         (fun x =>
            (0.6 <= ComprehensivePage.similarity_score x
             /\ ComprehensivePage.similarity_score x <= 1)
            /\ (0.7 <= ComprehensivePage.r_confidence_score x
                /\ ComprehensivePage.r_confidence_score x <= 1)
            /\ (200000 <= ComprehensivePage.r_predicted_value x
                /\ ComprehensivePage.r_predicted_value x <= 400000))
         (ComprehensivePage.recommendations r)
    /\ In (ComprehensivePage.risk_level
             (ComprehensivePage.risk_assessment r))
          [ Some ComprehensivePage.LOW; Some ComprehensivePage.MEDIUM;
            Some ComprehensivePage.HIGH ]
    /\ ComprehensivePage.getRiskColor
         (ComprehensivePage.risk_text
            (ComprehensivePage.risk_level
               (ComprehensivePage.risk_assessment r)))
       <> "#6b7280"%string
    /\ ComprehensivePage.getScoreColor
         (ComprehensivePage.overall_score
            (ComprehensivePage.beneficiary_score r))
       <> "#ef4444"%string.
Proof.
  intros data w c Hw r.
  destruct (comprehensive_more_fields data w c) as [Hrecs Hrisk].
  fold r in Hrecs, Hrisk.
  destruct (comprehensive_scoring_fields data w c) as (Ho & _).
  fold r in Ho.
  rewrite Hrecs, Hrisk, Ho.
  split.
  { rewrite (Array_from_at_map _ ComprehensivePage.id
               (fun i => Z.of_nat i + 1)%Z); [reflexivity|].
    intros; reflexivity. }
  split.
  { apply Array_from_at_Forall. intros i c0.
    apply (recommendation_ranges w Hw i c0). }
  destruct (Hw (34 + Js.rnd c)%nat) as [R0 R1].
  pose proof (level_defined _ R0 R1) as Hlevel.
  destruct (ComprehensivePage.level _) as [[| |]|];
    [| | |contradiction].
  1-3: (split; [cbn; tauto|]; split; [discriminate|]).
  all: destruct (Hw (3 + Js.rnd c)%nat) as [O0 O1];
    unfold ComprehensivePage.getScoreColor;
    destruct (Qle_bool 80 _); [discriminate|];
    rewrite Qle_bool_true; [discriminate | lra].
Qed.

Lemma X24_witness :
  Js.unit_draws even_odds
  /\ map ComprehensivePage.id
       (ComprehensivePage.recommendations
          (Js.run (ComprehensivePage.mockResult aComprehensiveForm)
                  even_odds Js.start))
     = [1; 2; 3; 4; 5]%Z.
Proof.
  assert (Hw : Js.unit_draws even_odds) by exact even_odds_unit.
  split; [exact Hw|].
  exact (proj1 (X24_comprehensive_result_shape
                  aComprehensiveForm even_odds Js.start Hw)).
Defined.

(** ** Score components and the valuation band *)
Section BandFacts.
Import Js.

Lemma score_components_fields (data : ScoringPage.BeneficiaryScoringForm)
    (w : World) (c : Cursor) :
  let r := run (ScoringPage.mockResult data) w c in
  let wt := ScoringPage.custom_weights data in
  let k := ScoringPage.score_components r in
  ScoringPage.c_value k
  = ScoringPage.value wt * (0.7 + draws w (7 + rnd c) * 0.3)
  /\ ScoringPage.c_school k
     = ScoringPage.school wt * (0.8 + draws w (8 + rnd c) * 0.2)
  /\ ScoringPage.c_crime k
     = ScoringPage.crime_inv wt * (0.6 + draws w (9 + rnd c) * 0.3)
  /\ ScoringPage.c_env k
     = ScoringPage.env_inv wt * (0.85 + draws w (10 + rnd c) * 0.15)
  /\ ScoringPage.c_employer k
     = ScoringPage.employer_proximity wt
       * (0.75 + draws w (11 + rnd c) * 0.2).
Proof. cbn -[Qmult Qplus]. repeat split. Qed.

End BandFacts.

(** X25. For non-negative weights every weighted score component of a
    beneficiary result lies between a fixed share of its weight (0.7 for
    value, 0.8 for school, 0.6 for crime, 0.85 for environment, 0.75 for
    employer) and the weight itself, so the five components together
    never exceed the sum of the weights; the result echoes the weights
    that were submitted. *)
Theorem X25_score_components_bounded_by_weights :
  forall (data : ScoringPage.BeneficiaryScoringForm)
         (w : Js.World) (c : Js.Cursor),
    Js.unit_draws w ->
    let wt := ScoringPage.custom_weights data in
    0 <= ScoringPage.value wt -> 0 <= ScoringPage.school wt ->
    0 <= ScoringPage.crime_inv wt -> 0 <= ScoringPage.env_inv wt ->
    0 <= ScoringPage.employer_proximity wt ->
    let r := Js.run (ScoringPage.mockResult data) w c in
    let k := ScoringPage.score_components r in
    ScoringPage.scoring_weights r = wt
    /\ (ScoringPage.value wt * 0.7 <= ScoringPage.c_value k
        /\ ScoringPage.c_value k <= ScoringPage.value wt)
    /\ (ScoringPage.school wt * 0.8 <= ScoringPage.c_school k
        /\ ScoringPage.c_school k <= ScoringPage.school wt)
    /\ (ScoringPage.crime_inv wt * 0.6 <= ScoringPage.c_crime k
        /\ ScoringPage.c_crime k <= ScoringPage.crime_inv wt * 0.9)
    /\ (ScoringPage.env_inv wt * 0.85 <= ScoringPage.c_env k
        /\ ScoringPage.c_env k <= ScoringPage.env_inv wt)
    /\ (ScoringPage.employer_proximity wt * 0.75
        <= ScoringPage.c_employer k
        /\ ScoringPage.c_employer k
           <= ScoringPage.employer_proximity wt * 0.95)
    /\ ScoringPage.c_value k + ScoringPage.c_school k
       + ScoringPage.c_crime k + ScoringPage.c_env k
       + ScoringPage.c_employer k
       <= ScoringPage.value wt + ScoringPage.school wt
          + ScoringPage.crime_inv wt + ScoringPage.env_inv wt
          + ScoringPage.employer_proximity wt.
Proof.
  intros data w c Hw wt Hv Hs Hc He Hp r k.
  destruct (score_components_fields data w c) as (Kv & Ks & Kc & Ke & Kp).
  fold wt in Kv, Ks, Kc, Ke, Kp. fold r in Kv, Ks, Kc, Ke, Kp.
  fold k in Kv, Ks, Kc, Ke, Kp.
  destruct (Hw (7 + Js.rnd c)%nat). destruct (Hw (8 + Js.rnd c)%nat).
  destruct (Hw (9 + Js.rnd c)%nat). destruct (Hw (10 + Js.rnd c)%nat).
  destruct (Hw (11 + Js.rnd c)%nat).
  split; [reflexivity|].
  rewrite Kv, Ks, Kc, Ke, Kp.
  repeat split; nra.
Qed.

Lemma X25_witness :
  Js.unit_draws even_odds
  /\ ScoringPage.c_value
       (ScoringPage.score_components
          (Js.run (ScoringPage.mockResult aScoringForm) even_odds Js.start))
     <= ScoringPage.value (ScoringPage.custom_weights aScoringForm).
Proof.
  assert (Hw : Js.unit_draws even_odds) by exact even_odds_unit.
  split; [exact Hw|].
  assert (H0 : 0 <= 8 /\ 0 <= 6 /\ 0 <= 5 /\ 0 <= 7)
    by (repeat split; discriminate).
  destruct H0 as (P8 & P6 & P5 & P7).
  pose proof (X25_score_components_bounded_by_weights
                aScoringForm even_odds Js.start Hw P8 P8 P6 P5 P7) as H.
  cbv zeta in H.
  destruct H as (_ & (_ & Hv) & _).
  exact Hv.
Defined.

(** X26. Whatever the form says, the valuation page predicts a value in
    [275000, 375000] with an uncertainty in [15000, 25000], always less
    than a tenth of the predicted value, and a confidence in
    [0.85, 0.95]; the price per sqft it reports is the constant 183.33,
    which for up to 1500 sqft (the form's default) and from 2046 sqft on
    is never the predicted value divided by the sqft entered. *)
Theorem X26_valuation_band :
  forall (data : ValuationPage.PropertyValuationForm)
         (w : Js.World) (c : Js.Cursor),
    Js.unit_draws w ->
    let r := Js.run (ValuationPage.mockResult data) w c in
    (275000 <= ValuationPage.predicted_value r
     /\ ValuationPage.predicted_value r <= 375000)
    /\ (15000 <= ValuationPage.value_uncertainty r
        /\ ValuationPage.value_uncertainty r <= 25000)
    /\ ValuationPage.value_uncertainty r
       < ValuationPage.predicted_value r * 0.1
    /\ (0.85 <= ValuationPage.confidence_score r
        /\ ValuationPage.confidence_score r <= 0.95)
    /\ ValuationPage.price_per_sqft r == 183.33
    /\ (ValuationPage.sqft data <= 1500
        \/ 2046 <= ValuationPage.sqft data ->
        ~ ValuationPage.price_per_sqft r * ValuationPage.sqft data
          == ValuationPage.predicted_value r).
Proof.
  intros data w c Hw r.
  destruct (valuation_fields data w c) as (Hp & Hu & Hc).
  fold r in Hp, Hu, Hc.
  assert (Hpps : ValuationPage.price_per_sqft r = 183.33) by reflexivity.
  rewrite Hp, Hu, Hc, Hpps.
  destruct (Hw (1 + Js.rnd c)%nat). destruct (Hw (2 + Js.rnd c)%nat).
  destruct (Hw (3 + Js.rnd c)%nat).
  repeat split; lra.
Qed.

Lemma X26_witness :
  Js.unit_draws even_odds
  /\ ValuationPage.predicted_value
       (Js.run (ValuationPage.mockResult aValuationForm) even_odds Js.start)
     <= 375000.
Proof.
  assert (Hw : Js.unit_draws even_odds) by exact even_odds_unit.
  split; [exact Hw|].
  exact (proj2 (proj1 (X26_valuation_band
                         aValuationForm even_odds Js.start Hw))).
Defined.
